(** * Dynamic risk assessment system: ingestion, scoring, deployment, driver

    A shallow embedding of the batch pipeline of the repository:
    - [ingestion.py]      : [DataIngestion.merge_multiple_dataframe]
    - [training.py]       : [ModelTrainer.train]
    - [scoring.py]        : [ModelScorer.load_model], [load_test_data], [score_model]
    - [deployment.py]     : [ModelDeployment.deploy_model]
    - [fullprocess.py]    : the module-level automation script
    - [app.py]            : the view functions [first_run] and [scoring_stats]
    - [diagnostics.py]    : [Diagnostics.model_predictions], [execution_time],
                            [parse_dep_string], [parse_pyproject_toml],
                            [get_latest_version], [outdated_packages_list]

    The file system is explicit state.  A run of Python code is a function
    from a file system to an outcome: a value, a raised exception, or the
    interpreter leaving through [exit()]; the file system reached so far is
    kept in all three. *)

From Stdlib Require Import ZArith QArith String Ascii List Bool Lia Sorted.
From Stdlib Require Import DecimalString SpecFloat.
From stdpp Require Import base option list strings gmap fin_maps.

Local Open Scope string_scope.
Local Open Scope Z_scope.

(* ===================================================================== *)
(** * Python strings *)
(* ===================================================================== *)

(** A [string] stands for a Python [str] whose code points are below 256. *)
Module PyStr.

(** [s.endswith(suffix)] *)
Fixpoint endswith (s suffix : string) : bool :=
  String.eqb s suffix ||
  match s with
  | EmptyString => false
  | String _ s' => endswith s' suffix
  end.

(** The line boundaries of [str.splitlines] among the code points below
    256: LF, VT, FF, CR, FS, GS, RS and NEL. *)
Definition is_linebreak (c : ascii) : bool :=
  let n := nat_of_ascii c in
  (Nat.eqb n 10 || Nat.eqb n 11 || Nat.eqb n 12 || Nat.eqb n 13 ||
   Nat.eqb n 28 || Nat.eqb n 29 || Nat.eqb n 30 || Nat.eqb n 133)%bool.

Definition is_cr (c : ascii) : bool := Nat.eqb (nat_of_ascii c) 13.
Definition is_lf (c : ascii) : bool := Nat.eqb (nat_of_ascii c) 10.

(** [splitlines_from cur after_cr s]: [cur] is the line being read, in
    reverse; [after_cr] says that the previous character was a CR, so that
    a LF coming now belongs to the same boundary. *)
Fixpoint splitlines_from (cur : list ascii) (after_cr : bool) (s : string)
  : list string :=
  match s with
  | EmptyString =>
      match cur with
      | nil => nil
      | _ => string_of_list_ascii (List.rev cur) :: nil
      end
  | String c s' =>
      if after_cr && is_lf c then splitlines_from cur false s'
      else if is_linebreak c then
        string_of_list_ascii (List.rev cur) :: splitlines_from nil (is_cr c) s'
      else splitlines_from (c :: cur) false s'
  end.

(** [s.splitlines()]: the lines without their boundaries; a final boundary
    opens no further line.  A text file read with universal newlines and
    then split gives the same lines as the raw text split here. *)
Definition splitlines (s : string) : list string := splitlines_from nil false s.

(** White space for [str.strip] among the code points below 256. *)
Definition is_space (c : ascii) : bool :=
  let n := nat_of_ascii c in
  (Nat.leb 9 n && Nat.leb n 13 || Nat.leb 28 n && Nat.leb n 32 ||
   Nat.eqb n 133 || Nat.eqb n 160)%bool.

Fixpoint lstrip_chars (l : list ascii) : list ascii :=
  match l with
  | nil => nil
  | c :: l' => if is_space c then lstrip_chars l' else l
  end.

(** [s.strip()] *)
Definition strip (s : string) : string :=
  string_of_list_ascii
    (List.rev (lstrip_chars (List.rev (lstrip_chars (list_ascii_of_string s))))).

(** [x in l] for a list of strings *)
Definition elem (x : string) (l : list string) : bool :=
  existsb (String.eqb x) l.

End PyStr.

(* ===================================================================== *)
(** * Exceptions *)
(* ===================================================================== *)

Inductive exn_kind :=
| FileNotFoundError
| KeyError
| ValueError
| UnpicklingError
| ParserError.

(** An exception object: its class and [str(e)]. *)
Record exn := Exn { exn_class : exn_kind; exn_str : string }.

(* ===================================================================== *)
(** * The file system *)
(* ===================================================================== *)

(** A directory is the ordered list of its entries, name and content;
    [os.listdir] returns the names in that order.  The file system maps a
    directory path to its directory. *)
Definition directory := list (string * string).
Abbreviation FS := (gmap string directory).

Module Dir.

Fixpoint lookup (name : string) (d : directory) : option string :=
  match d with
  | nil => None
  | (n, c) :: d' => if String.eqb n name then Some c else lookup name d'
  end.

(** Create or truncate-and-fill: an existing entry keeps its place. *)
Fixpoint write (name content : string) (d : directory) : directory :=
  match d with
  | nil => (name, content) :: nil
  | (n, c) :: d' =>
      if String.eqb n name then (n, content) :: d'
      else (n, c) :: write name content d'
  end.

Definition names (d : directory) : list string := List.map fst d.

End Dir.

Inductive outcome (A : Type) :=
| Ok (a : A) (fs : FS)
| Raise (e : exn) (fs : FS)
| Exit (fs : FS).
Arguments Ok {A} a fs.
Arguments Raise {A} e fs.
Arguments Exit {A} fs.

Definition state_of {A} (r : outcome A) : FS :=
  match r with Ok _ fs | Raise _ fs | Exit fs => fs end.

(** Python code run on a file system. *)
Definition Py (A : Type) : Type := FS -> outcome A.

#[global] Instance Py_ret : MRet Py := fun A a fs => Ok a fs.
#[global] Instance Py_bind : MBind Py := fun A B k m fs =>
  match m fs with
  | Ok a fs' => k a fs'
  | Raise e fs' => Raise e fs'
  | Exit fs' => Exit fs'
  end.

(** [raise Kind(msg)] *)
Definition raise {A} (k : exn_kind) (msg : string) : Py A :=
  fun fs => Raise (Exn k msg) fs.
(** [exit()] *)
Definition exit {A} : Py A := fun fs => Exit fs.

Module Os.

(** [os.path.join(dir, name)] for a relative [name]; used in messages. *)
Definition path_join (dir name : string) : string :=
  if String.eqb dir "" then name
  else if PyStr.endswith dir "/" then dir ++ name
  else dir ++ "/" ++ name.

(** The content of the file [name] of the directory [dir], if there is
    one. *)
Definition file_at (dir name : string) (fs : FS) : option string :=
  match fs !! dir with
  | Some d => Dir.lookup name d
  | None => None
  end.

(** [os.path.exists(os.path.join(dir, name))] *)
Definition path_exists (dir name : string) (fs : FS) : bool :=
  match file_at dir name fs with Some _ => true | None => false end.

(** The same test as a step of a run. *)
Definition exists_ (dir name : string) : Py bool :=
  fun fs => Ok (path_exists dir name fs) fs.

Definition errno2 (path : string) : string :=
  "[Errno 2] No such file or directory: '" ++ path ++ "'".

(** [os.listdir(dir)] *)
Definition listdir (dir : string) : Py (list string) :=
  fun fs =>
    match fs !! dir with
    | Some d => Ok (Dir.names d) fs
    | None => Raise (Exn FileNotFoundError (errno2 dir)) fs
    end.

(** [open(os.path.join(dir, name), 'r').read()] (also mode ['rb']).  A
    file is its content as the program reads it: in mode ['rb'] the bytes;
    in mode ['r'] the same for text that is ASCII without carriage return
    ([plain_text] below), which is what the pipeline writes.  Other
    content of a file read in mode ['r'] (bytes that are no text, carriage
    returns) and a directory under the name of a file are not modelled. *)
Definition read (dir name : string) : Py string :=
  fun fs =>
    match file_at dir name fs with
    | Some c => Ok c fs
    | None => Raise (Exn FileNotFoundError (errno2 (path_join dir name))) fs
    end.

(** [open(os.path.join(dir, name), 'w').write(content)] (also ['wb']):
    the directory must exist. *)
Definition write (dir name content : string) : Py unit :=
  fun fs =>
    match fs !! dir with
    | Some d => Ok tt (<[dir := Dir.write name content d]> fs)
    | None => Raise (Exn FileNotFoundError (errno2 (path_join dir name))) fs
    end.

(** [os.makedirs(dir, exist_ok=True)] *)
Definition makedirs (dir : string) : Py unit :=
  fun fs =>
    match fs !! dir with
    | Some _ => Ok tt fs
    | None => Ok tt (<[dir := nil]> fs)
    end.

End Os.

(* ===================================================================== *)
(** * pandas: the tables the pipeline handles *)
(* ===================================================================== *)

(** A cell of a table: missing, a number, or text. *)
Inductive cell := NaN | Num (z : Z) | Str (s : string).

#[global] Instance cell_eq_dec : EqDecision cell.
Proof. solve_decision. Defined.

Module Pd.

Definition row := list cell.

(** A [DataFrame] with a default integer index: column labels and rows. *)
Record DataFrame := mkDF { columns : list string; rows : list row }.

(** The cell of [r] under the label [c]; [NaN] when the frame that [r]
    comes from has no such column. *)
Fixpoint get_cell (cols : list string) (r : row) (c : string) : cell :=
  match cols, r with
  | c' :: cols', x :: r' => if String.eqb c' c then x else get_cell cols' r' c
  | _, _ => NaN
  end.

Definition add_column (acc : list string) (c : string) : list string :=
  if PyStr.elem c acc then acc else acc ++ c :: nil.

(** The union of the column labels, in order of first appearance. *)
Definition union_columns (dfs : list DataFrame) : list string :=
  fold_left (fun acc df => fold_left add_column (columns df) acc) dfs nil.

Definition reindex (cols : list string) (df : DataFrame) : list row :=
  List.map (fun r => List.map (get_cell (columns df) r) cols) (rows df).

(** [pd.concat(dfs, ignore_index=True)], as pandas documents it: the rows
    of all frames, in order, under the union of the columns; [None] is the
    [ValueError] pandas raises for an empty list.  pandas also converts a
    column to the common dtype of the frames, integers to [float64] when
    a frame has missing values in the column or lacks it; the cells stay
    as they are here, which is what that conversion does to integers of
    magnitude up to 2^53, so statements about the rows of a concatenation
    are made for such numbers ([exact_numbers] below). *)
Definition concat (dfs : list DataFrame) : option DataFrame :=
  match dfs with
  | nil => None
  | _ => let cols := union_columns dfs in
         Some (mkDF cols (flat_map (reindex cols) dfs))
  end.

(** [in_rows r l]: [r] is one of the rows [l]. *)
Definition in_rows (r : row) (l : list row) : bool :=
  existsb (fun r' => bool_decide (r' = r)) l.

(** [df.duplicated()] (keep='first'): a row is flagged when an equal row
    comes before it; [seen] holds the rows met so far. *)
Fixpoint duplicated_from (seen : list row) (l : list row) : list bool :=
  match l with
  | nil => nil
  | r :: l' => in_rows r seen :: duplicated_from (r :: seen) l'
  end.

Definition duplicated (l : list row) : list bool := duplicated_from nil l.

(** [df[mask]] on rows *)
Fixpoint select (mask : list bool) (l : list row) : list row :=
  match mask, l with
  | b :: mask', r :: l' => if b then r :: select mask' l' else select mask' l'
  | _, _ => nil
  end.

(** [df.drop_duplicates(ignore_index=True)], as pandas documents it: it is
    [df[~df.duplicated()]], the first of equal rows stays. *)
Definition drop_duplicates (df : DataFrame) : DataFrame :=
  mkDF (columns df) (select (List.map negb (duplicated (rows df))) (rows df)).

(** The number of rows [drop_duplicates] removes. *)
Definition count_duplicates (df : DataFrame) : nat :=
  List.length (List.filter (fun b => b) (duplicated (rows df))).

Fixpoint drop_cells (cols labels : list string) (r : row) : row :=
  match cols, r with
  | c :: cols', x :: r' =>
      if PyStr.elem c labels then drop_cells cols' labels r'
      else x :: drop_cells cols' labels r'
  | _, _ => nil
  end.

(** [df.drop(labels, axis=1)]; [None] is the [KeyError] for a label that
    is no column. *)
Definition drop (labels : list string) (df : DataFrame) : option DataFrame :=
  if forallb (fun l => PyStr.elem l (columns df)) labels then
    Some (mkDF (List.filter (fun c => negb (PyStr.elem c labels)) (columns df))
               (List.map (drop_cells (columns df) labels) (rows df)))
  else None.

(** [df[label]]; [None] is the [KeyError]. *)
Definition column (label : string) (df : DataFrame) : option (list cell) :=
  if PyStr.elem label (columns df) then
    Some (List.map (fun r => get_cell (columns df) r label) (rows df))
  else None.

End Pd.

(* ===================================================================== *)
(** * The libraries the code calls *)
(* ===================================================================== *)

(** Python's [float]: the operations the pipeline and the metric use. *)
Class PyFloat := {
  float : Type;
  of_int : Z -> float;
  fadd : float -> float -> float;
  fmul : float -> float -> float;
  fdiv : float -> float -> float;
  (** [x == y] *)
  feq : float -> float -> bool;
  (** [x <= y] *)
  fle : float -> float -> bool;
  (** [str(x)] *)
  str : float -> string;
  (** [float(s)], which ignores surrounding white space; [None] is the
      [ValueError] *)
  float_of_str : string -> option float;
}.

(** [0.0 <= x <= n] *)
Definition between_0_and `{F : PyFloat} (x : float) (n : Z) : Prop :=
  fle (of_int 0) x = true /\ fle x (of_int n) = true.

(** What the bound on the F1 score needs of the arithmetic.  [exact_int n]
    says that [of_int] does not round [n] nor a smaller natural number, as
    for n <= 2^53 in binary64.  [number x] says that [x] is a number that
    the arithmetic makes of such integers, no NaN and no infinity.  Sums,
    products and quotients of numbers are rounded to numbers, and
    monotonically, so a bound that is an exact integer holds for the
    rounded result when it holds for the exact one. *)
Class FloatLaws (F : PyFloat) := {
  exact_int : Z -> Prop;
  exact_int_1 : exact_int 1;
  exact_int_le : forall a b, 0 <= a <= b -> exact_int b -> exact_int a;
  number : float -> Prop;
  of_int_between : forall a n,
    0 <= a <= n -> exact_int n ->
    number (of_int a) /\ between_0_and (of_int a) n;
  fadd_between : forall x y n m,
    0 <= n -> 0 <= m -> exact_int (n + m) ->
    number x -> number y ->
    between_0_and x n -> between_0_and y m ->
    number (fadd x y) /\ between_0_and (fadd x y) (n + m);
  fmul_between : forall x w,
    0 <= w -> exact_int w ->
    number x -> between_0_and x 1 ->
    number (fmul x (of_int w)) /\ between_0_and (fmul x (of_int w)) w;
  fdiv_between : forall x n,
    0 < n -> exact_int n ->
    number x -> between_0_and x n ->
    number (fdiv x (of_int n)) /\ between_0_and (fdiv x (of_int n)) 1;
}.

(** What pandas, pickle and scikit-learn do with the files and tables of
    the pipeline, and what the shell command that ends the driver does. *)
Class Libs := {
  (** a fitted [LogisticRegression] *)
  model : Type;
  (** [pd.read_csv] on the text of a file; [None]: pandas raises *)
  read_csv : string -> option Pd.DataFrame;
  (** [df.to_csv(path, index=False)]: the text written *)
  to_csv : Pd.DataFrame -> string;
  (** [pickle.load]; [None]: the bytes are no pickle *)
  pickle_load : string -> option model;
  (** [pickle.dump] *)
  pickle_dump : model -> string;
  (** [train_test_split(x, y, test_size=0.2, random_state=42)] *)
  train_test_split : Pd.DataFrame -> list cell ->
    option (Pd.DataFrame * Pd.DataFrame * list cell * list cell);
  (** [LogisticRegression(...).fit(x_train, y_train)] *)
  fit : Pd.DataFrame -> list cell -> option model;
  (** [model.predict(x)] *)
  predict : model -> Pd.DataFrame -> option (list Z);
  (** [os.system('python apicalls.py')] *)
  run_apicalls : FS -> FS;
}.

(* ===================================================================== *)
(** * scikit-learn: the weighted F1 score *)
(* ===================================================================== *)

Module Sk.
Section Metric.
Context `{F : PyFloat}.

Fixpoint insert_label (z : Z) (l : list Z) : list Z :=
  match l with
  | nil => z :: nil
  | x :: l' =>
      if z <? x then z :: l
      else if z =? x then l
      else x :: insert_label z l'
  end.

(** The labels that occur in [y_true] or [y_pred], sorted. *)
Definition unique_labels (y_true y_pred : list Z) : list Z :=
  fold_right insert_label nil (y_true ++ y_pred).

Definition count_label (l : Z) (y : list Z) : Z :=
  Z.of_nat (List.length (List.filter (Z.eqb l) y)).

(** The samples of class [l] predicted as [l]. *)
Definition tp_sum (l : Z) (y_true y_pred : list Z) : Z :=
  Z.of_nat (List.length
    (List.filter (fun p => Z.eqb l (fst p) && Z.eqb l (snd p))
                 (List.combine y_true y_pred))).

(** The F1 score of one class, [2 tp / (true_sum + pred_sum)], and 0.0
    for a class that is neither there nor predicted. *)
Definition f_score (l : Z) (y_true y_pred : list Z) : float :=
  let denom := count_label l y_true + count_label l y_pred in
  if denom =? 0 then of_int 0
  else fdiv (of_int (2 * tp_sum l y_true y_pred)) (of_int denom).

(** [np.average(a, weights=w)], and 0.0 when the weights sum to 0. *)
Definition average (a : list float) (w : list Z) : float :=
  let total := fold_left Z.add w 0 in
  if total =? 0 then of_int 0
  else fdiv (fold_left fadd
               (List.map (fun p => fmul (fst p) (of_int (snd p))) (List.combine a w))
               (of_int 0))
            (of_int total).

Fixpoint as_labels (y : list cell) : option (list Z) :=
  match y with
  | nil => Some nil
  | Num z :: y' => match as_labels y' with Some l => Some (z :: l) | None => None end
  | _ :: _ => None
  end.

(** [metrics.f1_score(y_true, y_pred, average='weighted')], as
    scikit-learn documents it: the F1 scores of the classes averaged with
    their supports as weights.  [None] is the [ValueError] for targets
    that are no numbers or for samples of different lengths. *)
Definition f1_score (y_true : list cell) (y_pred : list Z) : option float :=
  match as_labels y_true with
  | None => None
  | Some yt =>
      if Nat.eqb (List.length yt) (List.length y_pred) then
        let labels := unique_labels yt y_pred in
        Some (average (List.map (fun l => f_score l yt y_pred) labels)
                      (List.map (fun l => count_label l yt) labels))
      else None
  end.

End Metric.
End Sk.

(* ===================================================================== *)
(** * The pipeline stages *)
(* ===================================================================== *)

Definition LF : string := String (ascii_of_nat 10) EmptyString.

(** The object in [config.json]. *)
Record Config := {
  input_folder_path : string;
  output_folder_path : string;
  test_data_path : string;
  prod_deployment_path : string;
  base_data_path : string;
}.

Section Stages.
Context `{F : PyFloat} `{L : Libs}.

(** An optional library result, raising when it is [None].  The texts of
    exceptions that libraries raise stand for the libraries' own. *)
Definition or_raise {A} (o : option A) (k : exn_kind) (msg : string) : Py A :=
  match o with
  | Some a => mret a
  | None => raise k msg
  end.

(** [pd.read_csv(os.path.join(dir, name))] *)
Definition pd_read_csv (dir name : string) : Py Pd.DataFrame :=
  text ← Os.read dir name;
  or_raise (read_csv text) ParserError "Error tokenizing data".

(** ** ingestion.py *)

Record DataIngestion := {
  di_input_folder_path : string;
  di_output_folder_path : string;
}.

(** What the first loop of [merge_multiple_dataframe] writes. *)
Fixpoint manifest_text (files : list string) : string :=
  match files with
  | nil => ""
  | file :: files' =>
      if PyStr.endswith file ".csv" then file ++ LF ++ manifest_text files'
      else manifest_text files'
  end.

(** The second loop: the frames of the files ending in [.csv]. *)
Fixpoint read_dataframes (dir : string) (files : list string)
  : Py (list Pd.DataFrame) :=
  match files with
  | nil => mret nil
  | file :: files' =>
      if PyStr.endswith file ".csv" then
        df ← pd_read_csv dir file;
        dataframes ← read_dataframes dir files';
        mret (df :: dataframes)
      else read_dataframes dir files'
  end.

Definition merge_multiple_dataframe (self : DataIngestion) : Py unit :=
  files ← Os.listdir (di_input_folder_path self);
  Os.write (di_output_folder_path self) "ingestedfiles.txt" (manifest_text files);;
  dataframes ← read_dataframes (di_input_folder_path self) files;
  match dataframes with
  | nil => mret tt
  | _ =>
      merged_df ← or_raise (Pd.concat dataframes) ValueError "No objects to concatenate";
      let merged_df := Pd.drop_duplicates merged_df in
      Os.write (di_output_folder_path self) "finaldata.csv" (to_csv merged_df)
  end.

(** ** training.py *)

Record ModelTrainer := {
  mt_output_model_path : string;
  mt_output_folder_path : string;
}.

Definition train (self : ModelTrainer) : Py unit :=
  data ← pd_read_csv (mt_output_folder_path self) "finaldata.csv";
  x ← or_raise (Pd.drop ("corporation" :: "exited" :: nil) data)
               KeyError "['corporation', 'exited'] not found in axis";
  y ← or_raise (Pd.column "exited" data) KeyError "'exited'";
  split ← or_raise (train_test_split x y) ValueError "train_test_split";
  let '(x_train, _, y_train, _) := split in
  fitted ← or_raise (fit x_train y_train) ValueError "fit";
  Os.write (mt_output_model_path self) "trainedmodel.pkl" (pickle_dump fitted).

(** ** scoring.py *)

Record ModelScorer := {
  ms_model_path : string;
  ms_test_data_path : string;
  ms_model : option model;
  ms_test_data : option Pd.DataFrame;
}.

(** [ModelScorer(model_path, test_data_path)] *)
Definition new_ModelScorer (model_path test_data_path : string) : ModelScorer :=
  {| ms_model_path := model_path; ms_test_data_path := test_data_path;
     ms_model := None; ms_test_data := None |}.

Definition load_model (self : ModelScorer) : Py ModelScorer :=
  bytes ← Os.read (ms_model_path self) "trainedmodel.pkl";
  m ← or_raise (pickle_load bytes) UnpicklingError "invalid load key";
  mret {| ms_model_path := ms_model_path self;
          ms_test_data_path := ms_test_data_path self;
          ms_model := Some m; ms_test_data := ms_test_data self |}.

Definition load_test_data (self : ModelScorer) : Py ModelScorer :=
  df ← pd_read_csv (ms_test_data_path self) "testdata.csv";
  mret {| ms_model_path := ms_model_path self;
          ms_test_data_path := ms_test_data_path self;
          ms_model := ms_model self; ms_test_data := Some df |}.

Definition score_model (self : ModelScorer) : Py float :=
  match ms_model self, ms_test_data self with
  | Some m, Some test_data =>
      x_test ← or_raise (Pd.drop ("corporation" :: "exited" :: nil) test_data)
                        KeyError "['corporation', 'exited'] not found in axis";
      y_test ← or_raise (Pd.column "exited" test_data) KeyError "'exited'";
      y_pred ← or_raise (predict m x_test) ValueError "predict";
      f1_score ← or_raise (Sk.f1_score y_test y_pred) ValueError "f1_score";
      Os.write (ms_model_path self) "latestscore.txt" (str f1_score);;
      mret f1_score
  | _, _ => raise ValueError "Model or test data not loaded."
  end.

(** ** deployment.py *)

Record ModelDeployment := {
  md_output_folder_path : string;
  md_prod_deployment_path : string;
}.

Definition deploy_model (self : ModelDeployment) : Py unit :=
  let out := md_output_folder_path self in
  let prod := md_prod_deployment_path self in
  model_found ← Os.exists_ out "trainedmodel.pkl";
  if negb model_found then
    raise FileNotFoundError
      ("Model file not found at " ++ Os.path_join out "trainedmodel.pkl")
  else
  score_found ← Os.exists_ out "latestscore.txt";
  if negb score_found then
    raise FileNotFoundError
      ("Latest score file not found at " ++ Os.path_join out "latestscore.txt")
  else
  ingest_found ← Os.exists_ out "ingestedfiles.txt";
  if negb ingest_found then
    raise FileNotFoundError
      ("Ingest files file not found at " ++ Os.path_join out "ingestedfiles.txt")
  else
    Os.makedirs prod;;
    model_file ← Os.read out "trainedmodel.pkl";
    m ← or_raise (pickle_load model_file) UnpicklingError "invalid load key";
    Os.write prod "trainedmodel.pkl" (pickle_dump m);;
    latest_score ← Os.read out "latestscore.txt";
    Os.write prod "latestscore.txt" latest_score;;
    ingest_files ← Os.read out "ingestedfiles.txt";
    Os.write prod "ingestedfiles.txt" ingest_files.

End Stages.

(* ===================================================================== *)
(** * fullprocess.py: the automation driver *)
(* ===================================================================== *)

Section Driver.
Context `{F : PyFloat} `{L : Libs}.

(** [ingestedfiles.txt] of the production path, split into lines; the
    empty list when there is no such file. *)
Definition read_ingested_files_list (config : Config) : Py (list string) :=
  found ← Os.exists_ (prod_deployment_path config) "ingestedfiles.txt";
  if found : bool then
    text ← Os.read (prod_deployment_path config) "ingestedfiles.txt";
    mret (PyStr.splitlines text)
  else mret nil.

(** [file for file in source_files if file not in ingested_files_list] *)
Definition new_files (source_files ingested_files_list : list string)
  : list string :=
  List.filter (fun file => negb (PyStr.elem file ingested_files_list)) source_files.

(** [os.system(f'cp {base_file_path} {source_data_path}')] for a file
    that exists: the file is copied into the directory under its own
    name; a failing command changes nothing and is not noticed.  The
    command line is not quoted: this is what it does when the two paths
    are words to the shell ([shell_word] below). *)
Definition cp (base_dir file source_dir : string) : Py unit :=
  fun fs =>
    match fs !! base_dir, fs !! source_dir with
    | Some b, Some d =>
        match Dir.lookup file b with
        | Some c => Ok tt (<[source_dir := Dir.write file c d]> fs)
        | None => Ok tt fs
        end
    | _, _ => Ok tt fs
    end.

(** The loop over [ingested_files_list]. *)
Fixpoint copy_forward (config : Config) (files : list string) : Py unit :=
  match files with
  | nil => mret tt
  | file :: files' =>
      found ← Os.exists_ (base_data_path config) file;
      (if found : bool
       then cp (base_data_path config) file (input_folder_path config)
       else mret tt);;
      copy_forward config files'
  end.

(** The score of the deployed model, 0.0 when there is none. *)
Definition read_base_model_score (config : Config) : Py float :=
  found ← Os.exists_ (prod_deployment_path config) "latestscore.txt";
  if found : bool then
    text ← Os.read (prod_deployment_path config) "latestscore.txt";
    or_raise (float_of_str (PyStr.strip text)) ValueError
             "could not convert string to float"
  else mret (of_int 0).

(** Scoring the model of the output folder on the test data. *)
Definition score_new_model (config : Config) : Py float :=
  let new_model_scorer :=
    new_ModelScorer (output_folder_path config) (test_data_path config) in
  new_model_scorer ← load_model new_model_scorer;
  new_model_scorer ← load_test_data new_model_scorer;
  score_model new_model_scorer.

(** [os.system('python apicalls.py')] *)
Definition os_system_apicalls : Py unit := fun fs => Ok tt (run_apicalls fs).

(** "Check and read new data" and "Deciding whether to proceed": leave
    when the source folder has no file that the manifest does not list,
    else copy forward, ingest and train. *)
Definition proceed_with_new_data (config : Config) : Py unit :=
  ingested_files_list ← read_ingested_files_list config;
  source_files ← Os.listdir (input_folder_path config);
  match new_files source_files ingested_files_list with
  | nil => exit
  | _ =>
      copy_forward config ingested_files_list;;
      merge_multiple_dataframe
        {| di_input_folder_path := input_folder_path config;
           di_output_folder_path := output_folder_path config |};;
      train {| mt_output_model_path := output_folder_path config;
               mt_output_folder_path := output_folder_path config |}
  end.

(** "Checking for model drift", and the calls that follow a deployment. *)
Definition check_model_drift (config : Config) : Py unit :=
  base_model_score ← read_base_model_score config;
  new_score ← score_new_model config;
  if negb (feq new_score base_model_score) then
    deploy_model {| md_output_folder_path := output_folder_path config;
                    md_prod_deployment_path := prod_deployment_path config |};;
    os_system_apicalls
  else exit.

(** The script, top to bottom. *)
Definition fullprocess (config : Config) : Py unit :=
  proceed_with_new_data config;;
  check_model_drift config.

End Driver.

(* ===================================================================== *)
(** * app.py: the view functions *)
(* ===================================================================== *)

Section App.
Context `{F : PyFloat} `{L : Libs}.

Inductive json := JStr (s : string) | JFloat (x : float).

(** What a view function returns: [jsonify(body), status]. *)
Definition response : Type := list (string * json) * Z.

(** [try: body  except Exception as e: handler(e)]; [exit()] is no
    [Exception] and passes. *)
Definition try_except {A} (body : Py A) (handler : exn -> Py A) : Py A :=
  fun fs =>
    match body fs with
    | Raise e fs' => handler e fs'
    | r => r
    end.

Definition first_run (config : Config) : Py response :=
  try_except
    (merge_multiple_dataframe
       {| di_input_folder_path := input_folder_path config;
          di_output_folder_path := output_folder_path config |};;
     train {| mt_output_model_path := output_folder_path config;
              mt_output_folder_path := output_folder_path config |};;
     model_scorer ← load_model
       (new_ModelScorer (output_folder_path config) (test_data_path config));
     model_scorer ← load_test_data model_scorer;
     score_model model_scorer;;
     deploy_model {| md_output_folder_path := output_folder_path config;
                     md_prod_deployment_path := prod_deployment_path config |};;
     mret (("message", JStr "First run completed successfully") :: nil, 200))
    (fun e => mret (("error", JStr (exn_str e)) :: nil, 500)).

Definition scoring_stats (config : Config) : Py response :=
  model_scorer ← load_model
    (new_ModelScorer (prod_deployment_path config) (test_data_path config));
  model_scorer ← load_test_data model_scorer;
  f1_score ← score_model model_scorer;
  mret (("f1_score", JFloat f1_score) :: nil, 200).

End App.

(** ** Flask: from the view function to the response *)

Section Flask.
Context `{F : PyFloat}.






End Flask.

(* ===================================================================== *)
(** * diagnostics.py *)
(* ===================================================================== *)

(** ** The regular expression of [parse_dep_string] *)

Module Re.

(** A piece of a pattern: a literal character, or a character class under
    a greedy quantifier: [Rep cls 0] is [cls*], [Rep cls 1] is [cls+]. *)
Inductive atom :=
| Lit (c : ascii)
| Rep (cls : ascii -> bool) (min : nat).

(** How many characters at the start of [s] are in [cls]. *)
Fixpoint run_length (cls : ascii -> bool) (s : list ascii) : nat :=
  match s with
  | c :: s' => if cls c then S (run_length cls s') else O
  | nil => O
  end.

Section Backtrack.
Context {A : Type} (attempt : nat -> option A) (min : nat).

(** A greedy quantifier backs off: [k] characters first, then one less,
    down to [min]. *)
Fixpoint backtrack (k : nat) : option A :=
  if (k <? min)%nat then None
  else match attempt k with
       | Some r => Some r
       | None => match k with
                 | O => None
                 | S k' => backtrack k'
                 end
       end.

End Backtrack.

(** [re.match] of the atoms, one after the other, at the start of [s]:
    the text each atom has matched, [None] when there is no match. *)
Fixpoint match_atoms (atoms : list atom) (s : list ascii)
  : option (list (list ascii)) :=
  match atoms with
  | nil => Some nil
  | Lit c :: atoms' =>
      match s with
      | c' :: s' =>
          if Ascii.eqb c c'
          then option_map (cons (c :: nil)) (match_atoms atoms' s')
          else None
      | nil => None
      end
  | Rep cls min :: atoms' =>
      backtrack
        (fun k => option_map (cons (firstn k s)) (match_atoms atoms' (skipn k s)))
        min (run_length cls s)
  end.

End Re.

(** [\d] among the code points below 256 *)
Definition is_digit (c : ascii) : bool :=
  let n := nat_of_ascii c in (Nat.leb 48 n && Nat.leb n 57)%bool.

(** [[\d\.]] *)
Definition is_version_char (c : ascii) : bool :=
  (is_digit c || Ascii.eqb c ".")%bool.

(** [[<>=!~]] *)
Definition is_operator_char (c : ascii) : bool :=
  (Ascii.eqb c "<" || Ascii.eqb c ">" || Ascii.eqb c "=" || Ascii.eqb c "!" ||
   Ascii.eqb c "~")%bool.

(** [[^\s]] *)
Definition is_not_space (c : ascii) : bool := negb (PyStr.is_space c).

(** The pattern, piece by piece: one or more characters that are no white
    space (group 1), white space, an opening parenthesis, operator
    characters, white space, one or more digits and dots (group 2), a
    closing parenthesis. *)
Definition dep_pattern : list Re.atom :=
  Re.Rep is_not_space 1 :: Re.Rep PyStr.is_space 0 :: Re.Lit "(" ::
  Re.Rep is_operator_char 0 :: Re.Rep PyStr.is_space 0 ::
  Re.Rep is_version_char 1 :: Re.Lit ")" :: nil.

(** The name and the version of a dependency like [flask (>=3.1.1)];
    without a match, the stripped string and [None]. *)
Definition parse_dep_string (dep_str : string) : string * option string :=
  match Re.match_atoms dep_pattern (list_ascii_of_string dep_str) with
  | Some (name :: _ :: _ :: _ :: _ :: version :: _) =>
      (string_of_list_ascii name, Some (string_of_list_ascii version))
  | _ => (PyStr.strip dep_str, None)
  end.

(** [c.lower()] for a code point below 256 *)
Definition lower_char (c : ascii) : ascii :=
  let n := nat_of_ascii c in
  if (Nat.leb 65 n && Nat.leb n 90 ||
      Nat.leb 192 n && Nat.leb n 222 && negb (Nat.eqb n 215))%bool
  then ascii_of_nat (n + 32) else c.

(** [s.lower()] *)
Fixpoint lower (s : string) : string :=
  match s with
  | EmptyString => EmptyString
  | String c s' => String (lower_char c) (lower s')
  end.

(** A [dict] with string keys, in insertion order.  [d[key] = value]: a
    key that is there keeps its place. *)
Fixpoint dict_set {V} (key : string) (value : V) (d : list (string * V))
  : list (string * V) :=
  match d with
  | nil => (key, value) :: nil
  | (k, v) :: d' =>
      if String.eqb k key then (k, value) :: d'
      else (k, v) :: dict_set key value d'
  end.

Fixpoint dict_get {V} (key : string) (d : list (string * V)) : option V :=
  match d with
  | nil => None
  | (k, v) :: d' => if String.eqb k key then Some v else dict_get key d'
  end.

(** The loop of [parse_pyproject_toml] over [dependencies], which is
    [pyproject.get("project", {}).get("dependencies", {})]. *)
Fixpoint parse_dependencies (dependencies : list string)
         (packages : list (string * option string))
  : list (string * option string) :=
  match dependencies with
  | nil => packages
  | pkg :: dependencies' =>
      if String.eqb (lower pkg) "python" then
        parse_dependencies dependencies' packages
      else
        let '(package, version) := parse_dep_string pkg in
        parse_dependencies dependencies' (dict_set package version packages)
  end.

(** [parse_pyproject_toml], from the point where [toml.load] has returned:
    the packages, in the order they were first met. *)
Definition parse_pyproject_toml (dependencies : list string)
  : list (string * option string) :=
  parse_dependencies dependencies nil.

(** What PyPI answers for a package: the [info.version] of the JSON body
    of a response with status 200; [None] for any other status, a body
    without it, or a request that raises. *)
Class PyPI := { pypi_version : string -> option string }.

Record package_info := {
  package : string;
  current_version : option string;
  latest_version : string;
}.

Section Packages.
Context `{P : PyPI}.

Definition get_latest_version (package_name : string) : string :=
  match pypi_version package_name with
  | Some version => version
  | None => "N/A"
  end.

(** One record for every item of the packages of the project's
    [pyproject.toml], whose [dependencies] are the argument. *)
Definition outdated_packages_list (dependencies : list string)
  : list package_info :=
  List.map (fun item : string * option string =>
              {| package := fst item;
                 current_version := snd item;
                 latest_version := get_latest_version (fst item) |})
           (parse_pyproject_toml dependencies).

End Packages.

(** [timeit.default_timer]: the readings of the clock in the order they
    are taken, and the difference of two readings. *)
Class Timer `{F : PyFloat} := {
  default_timer : nat -> float;
  fsub : float -> float -> float;
}.

(** The paths of a [Diagnostics] object.  Its attributes [model] and
    [dataset] are caches: [model_predictions] reads [self.model] only
    right after assigning it. *)
Record Diagnostics := {
  dg_dataset_csv_path : string;
  dg_test_data_path : string;
  dg_prod_deployment_path : string;
  dg_input_folder_path : string;
}.

Section DiagnosticsMethods.
Context `{F : PyFloat} `{L : Libs} `{T : @Timer F}.

(** [os.path.exists(dir)] for a directory *)
Definition dir_exists (dir : string) : Py bool :=
  fun fs => Ok (match fs !! dir with Some _ => true | None => false end) fs.

(** A row that [iterrows] yields: the cells under their column labels. *)
Definition series (cols : list string) (r : Pd.row) : list (string * cell) :=
  List.combine cols r.

(** [row.drop(label, errors='ignore')] *)
Definition series_drop (label : string) (row : list (string * cell))
  : list (string * cell) :=
  List.filter (fun entry => negb (String.eqb (fst entry) label)) row.

(** [int(self.model.predict([row])[0])] for the values of [row]; a model
    that does not answer, or answers with no label, is the error. *)
Definition predict_row (m : model) (row : list (string * cell)) : Py Z :=
  match predict m (Pd.mkDF (List.map fst row) (List.map snd row :: nil)) with
  | Some (prediction :: _) => mret prediction
  | _ => raise ValueError "predict"
  end.

(** The loop over [test_data.iterrows()]. *)
Fixpoint predict_rows (m : model) (cols : list string) (rows : list Pd.row)
  : Py (list Z) :=
  match rows with
  | nil => mret nil
  | r :: rows' =>
      let row := series_drop "exited" (series cols r) in
      let row := series_drop "corporation" row in
      prediction ← predict_row m row;
      predictions_list ← predict_rows m cols rows';
      mret (prediction :: predictions_list)
  end.

Definition model_predictions (self : Diagnostics)
           (test_data : option Pd.DataFrame) : Py (list Z) :=
  found ← dir_exists (dg_prod_deployment_path self);
  if negb found then
    raise FileNotFoundError ("Model not found at " ++ dg_prod_deployment_path self)
  else
    bytes ← Os.read (dg_prod_deployment_path self) "trainedmodel.pkl";
    m ← or_raise (pickle_load bytes) UnpicklingError "invalid load key";
    match test_data with
    | None => raise ValueError "Test data not loaded."
    | Some test_data =>
        predict_rows m (Pd.columns test_data) (Pd.rows test_data)
    end.

(** Training is timed first, ingestion second. *)
Definition execution_time (self : Diagnostics) : Py (list float) :=
  let start_time := default_timer 0 in
  train {| mt_output_model_path := dg_dataset_csv_path self;
           mt_output_folder_path := dg_dataset_csv_path self |};;
  let end_time := default_timer 1 in
  let timings := fsub end_time start_time :: nil in
  let start_time := default_timer 2 in
  merge_multiple_dataframe
    {| di_input_folder_path := dg_input_folder_path self;
       di_output_folder_path := dg_dataset_csv_path self |};;
  let end_time := default_timer 3 in
  mret (timings ++ fsub end_time start_time :: nil)%list.

End DiagnosticsMethods.

(* ===================================================================== *)
(** * Instances to run the model on *)
(* ===================================================================== *)

(** Decimal text of integers, as [str] and [int] give and take it. *)
Definition str_Z (z : Z) : string := NilZero.string_of_int (Z.to_int z).
Definition Z_of_str (s : string) : option Z :=
  match NilZero.int_of_string s with
  | Some i => Some (Z.of_int i)
  | None => None
  end.

(** [s.split(sep)] for a one-character separator; [cur] is reversed. *)
Fixpoint split_from (sep : ascii) (cur : list ascii) (s : string) : list string :=
  match s with
  | EmptyString => string_of_list_ascii (List.rev cur) :: nil
  | String c s' =>
      if Ascii.eqb c sep then string_of_list_ascii (List.rev cur) :: split_from sep nil s'
      else split_from sep (c :: cur) s'
  end.
Definition split (sep : ascii) (s : string) : list string := split_from sep nil s.

(** [sep.join(l)] *)
Fixpoint join (sep : string) (l : list string) : string :=
  match l with
  | nil => ""
  | x :: nil => x
  | x :: l' => x ++ sep ++ join sep l'
  end.

(** Scores in exact rational arithmetic: no rounding, no NaN.  A score is
    written as numerator, a slash, denominator. *)
Definition ExactFloat : PyFloat := {|
  float := Q;
  of_int := inject_Z;
  fadd := Qplus;
  fmul := Qmult;
  fdiv := Qdiv;
  feq := Qeq_bool;
  fle := Qle_bool;
  str := fun q => str_Z (Qnum (Qred q)) ++ "/" ++ str_Z (Zpos (Qden (Qred q)));
  float_of_str := fun s =>
    match split "/" s with
    | n :: d :: nil =>
        match Z_of_str n, Z_of_str d with
        | Some n, Some (Zpos d) => Some (Qmake n d)
        | _, _ => None
        end
    | _ => None
    end;
|}.

(** Scores as IEEE 754 binary64 numbers, with the arithmetic and the
    comparison of the standard: NaN is unequal to everything, itself
    included, and the two zeros are equal.  The text of a finite number is
    its mantissa, the letter p and its binary exponent, not Python's
    shortest decimal; [float_of_str] reads it back. *)
Definition str_binary64 (x : spec_float) : string :=
  match x with
  | S754_zero false => "0.0"
  | S754_zero true => "-0.0"
  | S754_infinity false => "inf"
  | S754_infinity true => "-inf"
  | S754_nan => "nan"
  | S754_finite s m e =>
      (if s then "-" else "") ++ str_Z (Zpos m) ++ "p" ++ str_Z e
  end.

Definition binary64_of_str (s : string) : option spec_float :=
  if String.eqb s "0.0" then Some (S754_zero false)
  else if String.eqb s "-0.0" then Some (S754_zero true)
  else if String.eqb s "inf" then Some (S754_infinity false)
  else if String.eqb s "-inf" then Some (S754_infinity true)
  else if String.eqb s "nan" then Some S754_nan
  else
    match split "p" s with
    | m :: e :: nil =>
        match Z_of_str m, Z_of_str e with
        | Some (Zpos m), Some e => Some (S754_finite false m e)
        | Some (Zneg m), Some e => Some (S754_finite true m e)
        | _, _ => None
        end
    | _ => None
    end.

Definition Binary64 : PyFloat := {|
  float := spec_float;
  of_int := fun z => binary_normalize 53 1024 z 0 false;
  fadd := SFadd 53 1024;
  fmul := SFmul 53 1024;
  fdiv := SFdiv 53 1024;
  feq := SFeqb;
  fle := SFleb;
  str := str_binary64;
  float_of_str := binary64_of_str;
|}.

(** The value of the binary64 number with mantissa [m] and exponent [e],
    times 2^1200: an integer for the exponents of binary64 and of the
    exact results that are rounded to it here. *)
Definition fval (m e : Z) : Z := m * 2 ^ (e + 1200).

(** A mantissa and an exponent in the form that binary64 stores. *)
Definition canonical (m e : Z) : Prop :=
  0 < m /\ fexp 53 1024 (Zdigits2 m + e) = e.

(** [x] is a zero or a positive finite binary64 number, and
    lo <= x <= hi. *)
Definition in_range (x : spec_float) (lo hi : Z) : Prop :=
  match x with
  | S754_zero _ => lo <= 0 <= hi
  | S754_finite false m e =>
      bounded 53 1024 m e = true /\
      lo * 2 ^ 1200 <= fval (Zpos m) e <= hi * 2 ^ 1200
  | _ => False
  end.

Module Sample.

Definition parse_cell (s : string) : cell :=
  if String.eqb s "" then NaN
  else match Z_of_str s with Some z => Num z | None => Str s end.

Definition print_cell (c : cell) : string :=
  match c with NaN => "" | Num z => str_Z z | Str s => s end.

(** Comma-separated text with a header line. *)
Definition csv_read (text : string) : option Pd.DataFrame :=
  match PyStr.splitlines text with
  | nil => None
  | header :: lines =>
      Some (Pd.mkDF (split "," header)
                    (List.map (fun l => List.map parse_cell (split "," l)) lines))
  end.

Definition csv_write (df : Pd.DataFrame) : string :=
  join "," (Pd.columns df) ++ LF ++
  String.concat ""
    (List.map (fun r => join "," (List.map print_cell r) ++ LF) (Pd.rows df)).

(** A model is a threshold on the first feature. *)
Definition first_feature (r : Pd.row) : Z :=
  match r with Num z :: _ => z | _ => 0 end.

Definition predict_threshold (m : Z) (x : Pd.DataFrame) : option (list Z) :=
  Some (List.map (fun r => if m <=? first_feature r then 1 else 0) (Pd.rows x)).

(** The smallest first feature among the rows labelled 1. *)
Fixpoint fit_rows (x : list Pd.row) (y : list cell) (best : option Z) : option Z :=
  match x, y with
  | r :: x', Num 1 :: y' =>
      fit_rows x' y'
        (match best with
         | Some b => Some (Z.min b (first_feature r))
         | None => Some (first_feature r)
         end)
  | _ :: x', _ :: y' => fit_rows x' y' best
  | _, _ => best
  end.

Definition fit_threshold (x : Pd.DataFrame) (y : list cell) : option Z :=
  match fit_rows (Pd.rows x) y None with
  | Some b => Some b
  | None => None
  end.

(** No shuffling: the last fifth of the rows is the test part. *)
Definition split_tail (x : Pd.DataFrame) (y : list cell)
  : option (Pd.DataFrame * Pd.DataFrame * list cell * list cell) :=
  match Pd.rows x with
  | nil => None
  | _ =>
      let n := List.length (Pd.rows x) in
      let k := (n - (n + 4) / 5)%nat in
      Some (Pd.mkDF (Pd.columns x) (firstn k (Pd.rows x)),
            Pd.mkDF (Pd.columns x) (skipn k (Pd.rows x)),
            firstn k y, skipn k y)
  end.

Definition libs : Libs := {|
  model := Z;
  read_csv := csv_read;
  to_csv := csv_write;
  pickle_load := Z_of_str;
  pickle_dump := str_Z;
  train_test_split := split_tail;
  fit := fit_threshold;
  predict := predict_threshold;
  run_apicalls := fun fs => fs;
|}.

End Sample.

(** A small installation to run the pipeline on. *)
Module Run.
Import ListNotations.

Definition header : string := "corporation,lastmonth_activity,exited".

Definition dataset1 : string :=
  header ++ LF ++ "abcd,10,0" ++ LF ++ "efgh,50,1" ++ LF ++ "abcd,10,0" ++ LF.
Definition dataset2 : string :=
  header ++ LF ++ "ijkl,70,1" ++ LF ++ "efgh,50,1" ++ LF ++ "mnop,5,0" ++ LF.

Definition config : Config := {|
  input_folder_path := "sourcedata";
  output_folder_path := "ingesteddata";
  test_data_path := "testdata";
  prod_deployment_path := "production";
  base_data_path := "practicedata";
|}.

Definition ingestion : DataIngestion :=
  {| di_input_folder_path := "sourcedata"; di_output_folder_path := "ingesteddata" |}.

Definition deployment : ModelDeployment :=
  {| md_output_folder_path := "ingesteddata"; md_prod_deployment_path := "production" |}.

Definition columns3 : list string := ["corporation"; "lastmonth_activity"; "exited"].

(** What pandas reads from [dataset1] and [dataset2]. *)
Definition frame1 : Pd.DataFrame :=
  Pd.mkDF columns3
    [[Str "abcd"; Num 10; Num 0]; [Str "efgh"; Num 50; Num 1];
     [Str "abcd"; Num 10; Num 0]].
Definition frame2 : Pd.DataFrame :=
  Pd.mkDF columns3
    [[Str "ijkl"; Num 70; Num 1]; [Str "efgh"; Num 50; Num 1];
     [Str "mnop"; Num 5; Num 0]].

Definition source_folder : directory :=
  [("dataset1.csv", dataset1); ("notes.txt", "hello"); ("dataset2.csv", dataset2)].

(** Nothing ingested or deployed yet; [notes.txt] is no CSV file. *)
Definition fresh : FS :=
  <["sourcedata" := source_folder]>
  (<["ingesteddata" := []]>
  (<["testdata" := [("testdata.csv", dataset2)]]>
  (<["production" := []]>
  (<["practicedata" := [("dataset1.csv", dataset1)]]> ∅)))).

(** The same CSV files, other files apart. *)
Definition other_notes : FS :=
  <["sourcedata" := [("README", "read me"); ("dataset1.csv", dataset1);
                     ("dataset2.csv", dataset2); ("data.CSV", "x,y")]]>
  (<["ingesteddata" := [("apireturns.txt", "")]]> ∅).

(** [dataset2.csv] is new, and the deployed score is the one that
    retraining will give again. *)
Definition same_score : FS :=
  <["sourcedata" := source_folder]>
  (<["ingesteddata" := []]>
  (<["testdata" := [("testdata.csv", dataset2)]]>
  (<["production" := [("ingestedfiles.txt", "dataset1.csv" ++ LF);
                      ("latestscore.txt", "1/1"); ("trainedmodel.pkl", "50")]]>
  (<["practicedata" := [("dataset1.csv", dataset1)]]> ∅)))).

(** Test data on which the retrained model is wrong every time. *)
Definition adverse_test : FS :=
  <["sourcedata" := source_folder]>
  (<["ingesteddata" := []]>
  (<["testdata" := [("testdata.csv",
                     header ++ LF ++ "qrst,70,0" ++ LF ++ "uvwx,5,1" ++ LF)]]>
  (<["production" := []]>
  (<["practicedata" := []]> ∅)))).

(** A scorer with the model and the test data loaded. *)
Definition loaded_scorer : ModelScorer (L := Sample.libs) :=
  {| ms_model_path := "ingesteddata"; ms_test_data_path := "testdata";
     ms_model := Some (50%Z : model (Libs := Sample.libs));
     ms_test_data := Some frame2 |}.

(** A source folder without any CSV file, and an earlier merged table. *)
Definition no_csv : FS :=
  <["sourcedata" := [("notes.txt", "hello")]]>
  (<["ingesteddata" := [("finaldata.csv", dataset1);
                        ("ingestedfiles.txt", "dataset1.csv" ++ LF)]]> ∅).

(** Everything in the source folder is listed in the deployed manifest. *)
Definition up_to_date : FS :=
  <["sourcedata" := [("dataset1.csv", dataset1); ("dataset2.csv", dataset2)]]>
  (<["ingesteddata" := []]>
  (<["testdata" := [("testdata.csv", dataset2)]]>
  (<["production" := [("ingestedfiles.txt", "dataset1.csv" ++ LF ++ "dataset2.csv" ++ LF);
                      ("latestscore.txt", "1/1"); ("trainedmodel.pkl", "50")]]>
  (<["practicedata" := []]> ∅)))).


(** A complete staging folder. *)
Definition staged : FS :=
  <["ingesteddata" := [("trainedmodel.pkl", "50"); ("latestscore.txt", "1/1");
                       ("ingestedfiles.txt", "dataset1.csv" ++ LF)]]>
  (<["production" := [("latestscore.txt", "1/2")]]> ∅).

End Run.

(** More installations: the error paths and the diagnostics. *)
Module Cases.
Import ListNotations.

(** Only CSV files in the source folder, nothing ingested or deployed. *)
Definition first_time : FS :=
  <["sourcedata" := [("dataset1.csv", Run.dataset1); ("dataset2.csv", Run.dataset2)]]>
  (<["ingesteddata" := []]>
  (<["testdata" := [("testdata.csv", Run.dataset2)]]>
  (<["production" := []]>
  (<["practicedata" := []]> ∅)))).

(** The source copy of [dataset1.csv] has been edited since it was
    ingested; the base folder has the original. *)
Definition edited_source : FS :=
  <["sourcedata" := [("dataset1.csv", "edited"); ("dataset2.csv", Run.dataset2)]]>
  (<["practicedata" := [("dataset1.csv", Run.dataset1)]]> ∅).

(** A deployed score file that holds no number. *)
Definition bad_score : FS :=
  <["sourcedata" := Run.source_folder]>
  (<["ingesteddata" := []]>
  (<["testdata" := [("testdata.csv", Run.dataset2)]]>
  (<["production" := [("ingestedfiles.txt", "dataset1.csv" ++ LF);
                      ("latestscore.txt", "n/a"); ("trainedmodel.pkl", "50")]]>
  (<["practicedata" := []]> ∅)))).

(** An empty CSV file beside a good one, and an earlier merged table. *)
Definition broken_source : FS :=
  <["sourcedata" := [("dataset1.csv", Run.dataset1); ("empty.csv", "")]]>
  (<["ingesteddata" := [("finaldata.csv", Run.dataset2)]]> ∅).

(** No CSV file in the source folder and nothing ingested before. *)
Definition nothing_yet : FS :=
  <["sourcedata" := [("notes.txt", "hello")]]>
  (<["ingesteddata" := []]>
  (<["testdata" := [("testdata.csv", Run.dataset2)]]>
  (<["production" := []]> ∅))).


Definition diagnostics : Diagnostics :=
  {| dg_dataset_csv_path := "ingesteddata";
     dg_test_data_path := "testdata";
     dg_prod_deployment_path := "production";
     dg_input_folder_path := "sourcedata" |}.

(** The [dependencies] of a [pyproject.toml]. *)
Definition dependencies : list string :=
  ["flask (>=3.1.1)"; "Python"; "pandas (>=2.2.0,<3.0.0)"; "requests";
   "flask (==2.0)"].

(** A package index that knows [flask] and nothing else. *)
Definition pypi : PyPI :=
  {| pypi_version := fun package_name =>
       if String.eqb package_name "flask" then Some "3.1.1" else None |}.

(** A clock that ticks once per reading, over the exact scores. *)
Definition clock : @Timer ExactFloat :=
  @Build_Timer ExactFloat (fun n => inject_Z (Z.of_nat n)) Qminus.

(** Test data with rows and a binary outcome column, and no column
    [corporation]; a scorer that has loaded a model and this table. *)
Definition no_corporation : Pd.DataFrame :=
  Pd.mkDF ["lastmonth_activity"; "exited"] [[Num 70; Num 1]; [Num 5; Num 0]].

Definition scorer_without_corporation : ModelScorer (L := Sample.libs) :=
  {| ms_model_path := "ingesteddata"; ms_test_data_path := "testdata";
     ms_model := Some (50%Z : model (Libs := Sample.libs));
     ms_test_data := Some no_corporation |}.

End Cases.

(* ===================================================================== *)
(** * Vocabulary of the statements *)
(* ===================================================================== *)

(** The three files a deployment consists of. *)
Definition deployed_file (name : string) : Prop :=
  name = "trainedmodel.pkl" \/ name = "latestscore.txt" \/ name = "ingestedfiles.txt".

(** The names that end in [.csv], in the order of the listing. *)
Definition csv_files (names : list string) : list string :=
  List.filter (fun name => PyStr.endswith name ".csv") names.

(** The entries of a directory whose names end in [.csv]. *)
Definition csv_entries (d : directory) : directory :=
  List.filter (fun entry => PyStr.endswith (fst entry) ".csv") d.

(** The lines of the deployed manifest, none when there is no manifest. *)
Definition ingested_lines (config : Config) (fs : FS) : list string :=
  match Os.file_at (prod_deployment_path config) "ingestedfiles.txt" fs with
  | Some text => PyStr.splitlines text
  | None => nil
  end.

(** Code that never leaves through [exit()]. *)
Definition never_exits {A} (m : Py A) : Prop :=
  forall fs fs', m fs <> Exit fs'.

(** The lines of a manifest that lists [names]. *)
Definition manifest_of (names : list string) : string :=
  fold_right (fun name rest => name ++ LF ++ rest) "" names.

(** The rows of all frames together. *)
Definition total_rows (dfs : list Pd.DataFrame) : nat :=
  list_sum (List.map (fun df => List.length (Pd.rows df)) dfs).

(** The number of different rows among [l]. *)
Definition distinct_rows (l : list Pd.row) : nat :=
  List.length (List.nodup (fun r r' : Pd.row => decide (r = r')) l).

(** The duplicate rows among [l]: the rows beyond the first of each
    value. *)
Definition duplicate_rows (l : list Pd.row) : nat :=
  (List.length l - distinct_rows l)%nat.

(** A cell that survives a conversion of its column to [float64]: no
    integer beyond 2^53 in magnitude. *)
Definition exact_cell (c : cell) : bool :=
  match c with
  | Num z => Z.abs z <=? 2 ^ 53
  | _ => true
  end.

Definition exact_numbers (df : Pd.DataFrame) : bool :=
  forallb (forallb exact_cell) (Pd.rows df).

Section Vocabulary.
Context `{L : Libs}.

(** The file [name] of [dir] is there and pandas reads [df] from it. *)
Definition holds_frame (dir : string) (fs : FS) (name : string)
           (df : Pd.DataFrame) : Prop :=
  exists text, Os.file_at dir name fs = Some text /\ read_csv text = Some df.

End Vocabulary.

Section Stages_of_the_views.
Context `{F : PyFloat} `{L : Libs}.

(** The stages that [first_run] runs inside its [try]: ingestion,
    training, scoring of the new model as in the driver, deployment. *)
Definition first_run_stages (config : Config) : Py unit :=
  merge_multiple_dataframe
    {| di_input_folder_path := input_folder_path config;
       di_output_folder_path := output_folder_path config |};;
  train {| mt_output_model_path := output_folder_path config;
           mt_output_folder_path := output_folder_path config |};;
  score_new_model config;;
  deploy_model {| md_output_folder_path := output_folder_path config;
                  md_prod_deployment_path := prod_deployment_path config |}.


End Stages_of_the_views.

(** A word that the shell passes on as one argument, as it is: letters,
    digits, [.], [_], [-] and [/], not empty and not starting with [-]. *)
Definition shell_char (c : ascii) : bool :=
  let n := nat_of_ascii c in
  (Nat.leb 48 n && Nat.leb n 57 || Nat.leb 65 n && Nat.leb n 90 ||
   Nat.leb 97 n && Nat.leb n 122 || Nat.eqb n 46 || Nat.eqb n 95 ||
   Nat.eqb n 45 || Nat.eqb n 47)%bool.

Definition shell_word (s : string) : bool :=
  match s with
  | EmptyString => false
  | String c _ =>
      (negb (Ascii.eqb c "-") && forallb shell_char (list_ascii_of_string s))%bool
  end.

(** A file name that is a shell word: no [/] in it, and not [.] or [..]. *)
Definition shell_file_name (s : string) : bool :=
  (shell_word s
   && forallb (fun c => negb (Ascii.eqb c "/")) (list_ascii_of_string s)
   && negb (String.eqb s ".") && negb (String.eqb s ".."))%bool.

(** No character of [s] is a line boundary. *)
Definition no_linebreak (s : string) : bool :=
  forallb (fun c => negb (PyStr.is_linebreak c)) (list_ascii_of_string s).

(** A frame with the columns [cols] whose rows are as wide as its header. *)
Definition same_schema (cols : list string) (df : Pd.DataFrame) : Prop :=
  Pd.columns df = cols /\
  List.Forall (fun r : Pd.row => List.length r = List.length cols) (Pd.rows df).

(** Every character of [s] is in the class [cls]. *)
Definition all_chars (cls : ascii -> bool) (s : string) : bool :=
  forallb cls (list_ascii_of_string s).

(** What an atom of a pattern takes as its text. *)
Definition accepts (a : Re.atom) (g : list ascii) : Prop :=
  match a with
  | Re.Lit c => g = c :: nil
  | Re.Rep cls min => (min <= List.length g)%nat /\ forallb cls g = true
  end.


(** A run of [cls] ends where the next character is outside [cls]. *)
Definition run_ends (cls : ascii -> bool) (t : list ascii) : Prop :=
  match t with
  | c :: _ => cls c = false
  | nil => True
  end.

(** Whether the loop of [parse_pyproject_toml] skips the entry. *)
Definition is_python (pkg : string) : bool := String.eqb (lower pkg) "python".

(* ===================================================================== *)
(** * The definitions on small inputs *)
(* ===================================================================== *)

Module Examples.
Import ListNotations.

Example endswith_csv :
  (PyStr.endswith "data.csv" ".csv", PyStr.endswith ".csv" ".csv",
   PyStr.endswith "data.CSV" ".csv", PyStr.endswith "data.csv.bak" ".csv",
   PyStr.endswith "csv" ".csv")
  = (true, true, false, false, false).
Proof. reflexivity. Qed.

Example splitlines_manifest :
  PyStr.splitlines ("a.csv" ++ LF ++ "b.csv" ++ LF) = ["a.csv"; "b.csv"].
Proof. reflexivity. Qed.

Example splitlines_empty_line :
  PyStr.splitlines ("a" ++ LF ++ LF ++ "b") = ["a"; ""; "b"]
  /\ PyStr.splitlines "" = [] /\ PyStr.splitlines LF = [""].
Proof. repeat split; reflexivity. Qed.

Example splitlines_crlf :
  PyStr.splitlines ("a" ++ String (ascii_of_nat 13) LF ++ "b") = ["a"; "b"].
Proof. reflexivity. Qed.

Example strip_score : PyStr.strip ("  0.5 " ++ LF) = "0.5".
Proof. reflexivity. Qed.

Example path_join_slash :
  Os.path_join "production" "latestscore.txt" = "production/latestscore.txt"
  /\ Os.path_join "production/" "latestscore.txt" = "production/latestscore.txt".
Proof. split; reflexivity. Qed.

(** Frames with different columns: union of the columns, NaN for what a
    frame lacks. *)
Example concat_union :
  Pd.concat [Pd.mkDF ["a"; "b"] [[Num 1; Num 2]]; Pd.mkDF ["b"; "c"] [[Num 3; Num 4]]]
  = Some (Pd.mkDF ["a"; "b"; "c"] [[Num 1; Num 2; NaN]; [NaN; Num 3; Num 4]]).
Proof. reflexivity. Qed.

Example duplicated_keeps_first :
  Pd.duplicated [[Num 1]; [Num 2]; [Num 1]; [NaN]; [NaN]]
  = [false; false; true; false; true].
Proof. reflexivity. Qed.

Example drop_duplicates_sample :
  Pd.rows (Pd.drop_duplicates Run.frame1)
  = [[Str "abcd"; Num 10; Num 0]; [Str "efgh"; Num 50; Num 1]].
Proof. reflexivity. Qed.

Example drop_missing_column :
  Pd.drop ["corporation"; "exited"] (Pd.mkDF ["exited"] [[Num 1]]) = None.
Proof. reflexivity. Qed.

(** Three of class 1, one of class 0; two of the three found, the one of
    class 0 missed: F1 is 2/3 for class 1 and 0 for class 0, weighted 1/2. *)
Example f1_score_exact :
  Sk.f1_score (F := ExactFloat) [Num 1; Num 0; Num 1; Num 1] [1; 1; 0; 1]
  = Some (24 # 48)%Q.
Proof. reflexivity. Qed.

Example f1_score_binary64 :
  Sk.f1_score (F := Binary64) [Num 1; Num 0; Num 1; Num 1] [1; 1; 0; 1]
  = Some (S754_finite false 4503599627370496 (-53)).
Proof. vm_compute. reflexivity. Qed.

Example f1_score_binary64_between :
  match Sk.f1_score (F := Binary64) [Num 1; Num 0; Num 1; Num 1] [1; 1; 0; 1] with
  | Some f1 => fle (PyFloat := Binary64) (of_int (PyFloat := Binary64) 0) f1
               && fle (PyFloat := Binary64) f1 (of_int (PyFloat := Binary64) 1)
  | None => false
  end = true.
Proof. vm_compute. reflexivity. Qed.

Example f1_score_ragged :
  Sk.f1_score (F := ExactFloat) [Num 1; Num 0] [1] = None.
Proof. reflexivity. Qed.

(** In binary64 a NaN score is unequal to every score: the drift check
    deploys whatever the new score is. *)
Example nan_differs (x : spec_float) :
  negb (feq (PyFloat := Binary64) x S754_nan) = true.
Proof. destruct x as [| | |s m e]; reflexivity. Qed.

Example zeros_equal :
  feq (PyFloat := Binary64) (S754_zero true) (of_int (PyFloat := Binary64) 0) = true.
Proof. reflexivity. Qed.

Example binary64_text :
  float_of_str (PyFloat := Binary64) "nan" = Some S754_nan
  /\ float_of_str (PyFloat := Binary64)
       (str (PyFloat := Binary64) (S754_finite false 4503599627370496 (-53)))
     = Some (S754_finite false 4503599627370496 (-53)).
Proof. split; vm_compute; reflexivity. Qed.

(** The script on a fresh installation, scores in binary64: the model is
    deployed with the score 1.0. *)
Example fullprocess_binary64 :
  match fullprocess (F := Binary64) (L := Sample.libs) Run.config Run.fresh with
  | Ok _ fs => Os.file_at "production" "latestscore.txt" fs
  | _ => None
  end = Some "4503599627370496p-52".
Proof. vm_compute. reflexivity. Qed.

(** A second run right after: [notes.txt] is in no manifest, so the script
    retrains, finds the same score and exits. *)
Example fullprocess_second_run :
  let fs1 := state_of (fullprocess (F := ExactFloat) (L := Sample.libs)
                         Run.config Run.fresh) in
  fullprocess (F := ExactFloat) (L := Sample.libs) Run.config fs1 = Exit fs1.
Proof. vm_compute. reflexivity. Qed.

End Examples.

(* ===================================================================== *)
(** * Running code: binds, directories, files *)
(* ===================================================================== *)

Lemma bind_run {A B} (m : Py A) (k : A -> Py B) (fs : FS) :
  (m ≫= k) fs =
  match m fs with
  | Ok a fs' => k a fs'
  | Raise e fs' => Raise e fs'
  | Exit fs' => Exit fs'
  end.
Proof. reflexivity. Qed.

Lemma bind_ok {A B} (m : Py A) (k : A -> Py B) fs a fs' :
  m fs = Ok a fs' -> (m ≫= k) fs = k a fs'.
Proof. intros H. rewrite bind_run, H. reflexivity. Qed.

Lemma bind_raise {A B} (m : Py A) (k : A -> Py B) fs e fs' :
  m fs = Raise e fs' -> (m ≫= k) fs = Raise e fs'.
Proof. intros H. rewrite bind_run, H. reflexivity. Qed.

Lemma bind_exit {A B} (m : Py A) (k : A -> Py B) fs fs' :
  m fs = Exit fs' -> (m ≫= k) fs = Exit fs'.
Proof. intros H. rewrite bind_run, H. reflexivity. Qed.

Lemma ret_run {A} (a : A) (fs : FS) : (mret a : Py A) fs = Ok a fs.
Proof. reflexivity. Qed.

Lemma dir_lookup_write_eq name content d :
  Dir.lookup name (Dir.write name content d) = Some content.
Proof.
  induction d as [|[n c] d IH]; simpl.
  - now rewrite String.eqb_refl.
  - destruct (String.eqb n name) eqn:E; simpl; rewrite E; auto.
Qed.

Lemma dir_lookup_write_ne name name' content d :
  name <> name' ->
  Dir.lookup name' (Dir.write name content d) = Dir.lookup name' d.
Proof.
  intros Hne. induction d as [|[n c] d IH]; simpl.
  - destruct (String.eqb name name') eqn:E; auto.
    apply String.eqb_eq in E. contradiction.
  - destruct (String.eqb n name) eqn:E; simpl.
    + apply String.eqb_eq in E. subst n.
      destruct (String.eqb name name') eqn:E'; auto.
      apply String.eqb_eq in E'. contradiction.
    + destruct (String.eqb n name'); auto.
Qed.

(** Writing what a file already holds changes nothing. *)
Lemma dir_write_id name content d :
  Dir.lookup name d = Some content -> Dir.write name content d = d.
Proof.
  induction d as [|[n c] d IH]; simpl; [discriminate|].
  destruct (String.eqb n name) eqn:E.
  - intros [= ->]. reflexivity.
  - intros H. now rewrite IH.
Qed.

Lemma file_at_insert_eq dir name d (fs : FS) :
  Os.file_at dir name (<[dir := d]> fs) = Dir.lookup name d.
Proof. unfold Os.file_at. now rewrite lookup_insert_eq. Qed.

Lemma file_at_insert_ne dir dir' name d (fs : FS) :
  dir <> dir' -> Os.file_at dir' name (<[dir := d]> fs) = Os.file_at dir' name fs.
Proof. intros H. unfold Os.file_at. now rewrite lookup_insert_ne. Qed.

Lemma path_exists_true dir name (fs : FS) :
  Os.path_exists dir name fs = true <-> exists c, Os.file_at dir name fs = Some c.
Proof.
  unfold Os.path_exists. destruct (Os.file_at dir name fs) as [c|]; split.
  - eauto.
  - reflexivity.
  - discriminate.
  - intros [c H]. discriminate.
Qed.

Lemma path_exists_false dir name (fs : FS) :
  Os.path_exists dir name fs = false <-> Os.file_at dir name fs = None.
Proof.
  unfold Os.path_exists. destruct (Os.file_at dir name fs); split; auto; discriminate.
Qed.

Lemma read_ok dir name c (fs : FS) :
  Os.file_at dir name fs = Some c -> Os.read dir name fs = Ok c fs.
Proof. intros H. unfold Os.read. now rewrite H. Qed.

Lemma write_ok dir name content d (fs : FS) :
  fs !! dir = Some d ->
  Os.write dir name content fs = Ok tt (<[dir := Dir.write name content d]> fs).
Proof. intros H. unfold Os.write. now rewrite H. Qed.

(** The file written is there, every other file is as before. *)
Lemma file_at_write_eq dir name content d (fs : FS) :
  Os.file_at dir name (<[dir := Dir.write name content d]> fs) = Some content.
Proof. rewrite file_at_insert_eq. apply dir_lookup_write_eq. Qed.

Lemma file_at_write_other dir name content d dir' name' (fs : FS) :
  fs !! dir = Some d ->
  dir <> dir' \/ name <> name' ->
  Os.file_at dir' name' (<[dir := Dir.write name content d]> fs)
  = Os.file_at dir' name' fs.
Proof.
  intros Hd Hne. destruct (decide (dir = dir')) as [<-|Hdir].
  - destruct Hne as [Hne|Hne]; [contradiction|].
    rewrite file_at_insert_eq, dir_lookup_write_ne by assumption.
    unfold Os.file_at. now rewrite Hd.
  - now apply file_at_insert_ne.
Qed.

(** Writing a file with the content it has leaves the file system as it is. *)
Lemma write_same dir name content (fs : FS) :
  Os.file_at dir name fs = Some content ->
  Os.write dir name content fs = Ok tt fs.
Proof.
  unfold Os.file_at, Os.write. destruct (fs !! dir) as [d|] eqn:Hd; [|discriminate].
  intros H. rewrite (dir_write_id _ _ _ H). now rewrite insert_id.
Qed.

Lemma makedirs_run dir (fs : FS) :
  exists d fs0,
    Os.makedirs dir fs = Ok tt fs0 /\ fs0 !! dir = Some d /\
    (forall dir', dir' <> dir -> fs0 !! dir' = fs !! dir') /\
    (forall dir' name, Os.file_at dir' name fs0 = Os.file_at dir' name fs).
Proof.
  unfold Os.makedirs. destruct (fs !! dir) as [d|] eqn:Hd.
  - exists d, fs. auto.
  - exists nil, (<[dir := nil]> fs). split; [reflexivity|].
    split; [apply lookup_insert_eq|]. split.
    + intros dir' Hne. now apply lookup_insert_ne.
    + intros dir' name. destruct (decide (dir = dir')) as [<-|Hne].
      * rewrite file_at_insert_eq. unfold Os.file_at. now rewrite Hd.
      * now apply file_at_insert_ne.
Qed.

Lemma write_run dir name content d (fs : FS) :
  fs !! dir = Some d ->
  exists fs',
    Os.write dir name content fs = Ok tt fs' /\
    fs' !! dir = Some (Dir.write name content d) /\
    Os.file_at dir name fs' = Some content /\
    (forall dir', dir' <> dir -> fs' !! dir' = fs !! dir') /\
    (forall dir' name', dir <> dir' \/ name <> name' ->
       Os.file_at dir' name' fs' = Os.file_at dir' name' fs).
Proof.
  intros Hd. exists (<[dir := Dir.write name content d]> fs).
  split; [now apply write_ok|]. split; [apply lookup_insert_eq|].
  split; [apply file_at_write_eq|]. split.
  - intros dir' Hne. apply lookup_insert_ne. congruence.
  - intros dir' name' Hne. now apply file_at_write_other.
Qed.

Lemma exists_run dir name (fs : FS) :
  Os.exists_ dir name fs = Ok (Os.path_exists dir name fs) fs.
Proof. reflexivity. Qed.

(* ===================================================================== *)
(** * Deployment *)
(* ===================================================================== *)

Section DeploymentFacts.
Context `{L : Libs}.

(** A staging file is missing: [FileNotFoundError], and the file system
    is the one the call started from. *)
Lemma deploy_model_missing (self : ModelDeployment) (fs : FS) :
  Os.file_at (md_output_folder_path self) "trainedmodel.pkl" fs = None \/
  Os.file_at (md_output_folder_path self) "latestscore.txt" fs = None \/
  Os.file_at (md_output_folder_path self) "ingestedfiles.txt" fs = None ->
  exists msg, deploy_model self fs = Raise (Exn FileNotFoundError msg) fs.
Proof.
  intros H. unfold deploy_model.
  rewrite bind_run, exists_run.
  destruct (Os.path_exists _ "trainedmodel.pkl" fs) eqn:E1; simpl; [|eauto].
  rewrite bind_run, exists_run.
  destruct (Os.path_exists _ "latestscore.txt" fs) eqn:E2; simpl; [|eauto].
  rewrite bind_run, exists_run.
  destruct (Os.path_exists _ "ingestedfiles.txt" fs) eqn:E3; simpl; [|eauto].
  apply path_exists_true in E1, E2, E3.
  destruct E1 as [c1 E1], E2 as [c2 E2], E3 as [c3 E3].
  destruct H as [H|[H|H]]; congruence.
Qed.

(** The three staging files are there and the model file is a pickle:
    the call returns, the production path holds the three copies, and no
    other file has changed. *)
Lemma deploy_model_copies (self : ModelDeployment) (fs : FS)
      model_file latest_score ingest_files m :
  Os.file_at (md_output_folder_path self) "trainedmodel.pkl" fs = Some model_file ->
  Os.file_at (md_output_folder_path self) "latestscore.txt" fs = Some latest_score ->
  Os.file_at (md_output_folder_path self) "ingestedfiles.txt" fs = Some ingest_files ->
  pickle_load model_file = Some m ->
  exists fs',
    deploy_model self fs = Ok tt fs' /\
    Os.file_at (md_prod_deployment_path self) "trainedmodel.pkl" fs'
      = Some (pickle_dump m) /\
    Os.file_at (md_prod_deployment_path self) "latestscore.txt" fs'
      = Some latest_score /\
    Os.file_at (md_prod_deployment_path self) "ingestedfiles.txt" fs'
      = Some ingest_files /\
    (forall dir name,
       dir <> md_prod_deployment_path self \/ ~ deployed_file name ->
       Os.file_at dir name fs' = Os.file_at dir name fs).
Proof.
  intros H1 H2 H3 Hp. unfold deploy_model.
  set (out := md_output_folder_path self) in *.
  set (prod := md_prod_deployment_path self) in *.
  rewrite bind_run, exists_run.
  replace (Os.path_exists out "trainedmodel.pkl" fs) with true
    by (symmetry; apply path_exists_true; eauto).
  simpl. rewrite bind_run, exists_run.
  replace (Os.path_exists out "latestscore.txt" fs) with true
    by (symmetry; apply path_exists_true; eauto).
  simpl. rewrite bind_run, exists_run.
  replace (Os.path_exists out "ingestedfiles.txt" fs) with true
    by (symmetry; apply path_exists_true; eauto).
  simpl.
  destruct (makedirs_run prod fs) as (d0 & fs0 & Hmk & Hd0 & _ & Hf0).
  rewrite (bind_ok _ _ _ _ _ Hmk).
  rewrite (bind_ok _ _ _ _ _ (read_ok _ _ _ _ (eq_trans (Hf0 _ _) H1))).
  rewrite Hp. rewrite (bind_ok _ _ fs0 m fs0) by reflexivity.
  destruct (write_run prod "trainedmodel.pkl" (pickle_dump m) _ _ Hd0)
    as (fs1 & Hw1 & Hd1 & Hn1 & _ & Hf1).
  rewrite (bind_ok _ _ _ _ _ Hw1).
  assert (R2 : Os.file_at out "latestscore.txt" fs1 = Some latest_score).
  { rewrite Hf1, Hf0 by (right; discriminate). exact H2. }
  rewrite (bind_ok _ _ _ _ _ (read_ok _ _ _ _ R2)).
  destruct (write_run prod "latestscore.txt" latest_score _ _ Hd1)
    as (fs2 & Hw2 & Hd2 & Hn2 & _ & Hf2).
  rewrite (bind_ok _ _ _ _ _ Hw2).
  assert (R3 : Os.file_at out "ingestedfiles.txt" fs2 = Some ingest_files).
  { rewrite Hf2, Hf1, Hf0 by (right; discriminate). exact H3. }
  rewrite (bind_ok _ _ _ _ _ (read_ok _ _ _ _ R3)).
  destruct (write_run prod "ingestedfiles.txt" ingest_files _ _ Hd2)
    as (fs3 & Hw3 & Hd3 & Hn3 & _ & Hf3).
  exists fs3. split; [exact Hw3|]. split; [|split; [|split]].
  - rewrite Hf3, Hf2 by (right; discriminate). exact Hn1.
  - rewrite Hf3 by (right; discriminate). exact Hn2.
  - exact Hn3.
  - intros dir name Hne.
    assert (forall n, deployed_file n -> prod <> dir \/ n <> name) as Hside.
    { intros n Hn. destruct Hne as [Hne|Hne]; [left; congruence|].
      right. intros ->. contradiction. }
    rewrite Hf3, Hf2, Hf1 by (apply Hside; unfold deployed_file; auto).
    apply Hf0.
Qed.

End DeploymentFacts.

(* ===================================================================== *)
(** * Tables: concatenation and deduplication *)
(* ===================================================================== *)

Lemma in_rows_In (r : Pd.row) (l : list Pd.row) :
  Pd.in_rows r l = true <-> In r l.
Proof.
  unfold Pd.in_rows. rewrite existsb_exists. split.
  - intros (x & Hx & E). apply bool_decide_eq_true in E. now subst.
  - intros H. exists r. split; [assumption|]. now apply bool_decide_eq_true.
Qed.

Lemma length_reindex cols df :
  List.length (Pd.reindex cols df) = List.length (Pd.rows df).
Proof. unfold Pd.reindex. apply List.length_map. Qed.

Lemma length_flat_map_reindex cols dfs :
  List.length (flat_map (Pd.reindex cols) dfs) = total_rows dfs.
Proof.
  unfold total_rows. induction dfs as [|df dfs IH]; simpl; [reflexivity|].
  rewrite List.length_app, length_reindex, IH. reflexivity.
Qed.

(** Concatenation keeps every row of every frame. *)
Lemma concat_rows dfs df :
  Pd.concat dfs = Some df -> List.length (Pd.rows df) = total_rows dfs.
Proof.
  destruct dfs as [|df0 dfs]; [discriminate|].
  unfold Pd.concat. intros [= <-].
  exact (length_flat_map_reindex _ (df0 :: dfs)).
Qed.

Lemma concat_some dfs : dfs <> nil -> exists df, Pd.concat dfs = Some df.
Proof. destruct dfs; [congruence|]. intros _. unfold Pd.concat. eauto. Qed.

Lemma length_duplicated_from seen l :
  List.length (Pd.duplicated_from seen l) = List.length l.
Proof. revert seen. induction l; intros; simpl; auto. Qed.

(** Kept rows and flagged rows add up to all rows. *)
Lemma select_count seen (l : list Pd.row) :
  (List.length (Pd.select (List.map negb (Pd.duplicated_from seen l)) l)
   + List.length (List.filter (fun b => b) (Pd.duplicated_from seen l))
   = List.length l)%nat.
Proof.
  revert seen. induction l as [|r l IH]; intros seen; simpl; [reflexivity|].
  destruct (Pd.in_rows r seen); simpl; rewrite <- (IH (r :: seen)); lia.
Qed.

(** Every kept row is a row of the table and was not seen before. *)
Lemma select_In seen (l : list Pd.row) r :
  In r (Pd.select (List.map negb (Pd.duplicated_from seen l)) l) ->
  In r l /\ ~ In r seen.
Proof.
  revert seen. induction l as [|x l IH]; intros seen; simpl; [tauto|].
  destruct (Pd.in_rows x seen) eqn:E; simpl.
  - intros H. apply IH in H. simpl in H. tauto.
  - intros [<-|H].
    + split; [auto|]. rewrite <- in_rows_In. congruence.
    + apply IH in H. simpl in H. tauto.
Qed.

Lemma select_NoDup seen (l : list Pd.row) :
  List.NoDup (Pd.select (List.map negb (Pd.duplicated_from seen l)) l).
Proof.
  revert seen. induction l as [|x l IH]; intros seen; simpl; [constructor|].
  destruct (Pd.in_rows x seen) eqn:E; simpl; [apply IH|].
  constructor; [|apply IH].
  intros H. apply select_In in H. simpl in H. tauto.
Qed.

(** No row is lost: every row of the table is among the kept ones. *)
Lemma select_complete seen (l : list Pd.row) r :
  In r l -> ~ In r seen ->
  In r (Pd.select (List.map negb (Pd.duplicated_from seen l)) l).
Proof.
  revert seen. induction l as [|x l IH]; intros seen; simpl; [tauto|].
  intros Hin Hseen. destruct (decide (x = r)) as [->|Hne].
  - destruct (Pd.in_rows r seen) eqn:E; simpl; [|auto].
    apply in_rows_In in E. contradiction.
  - destruct Hin as [->|Hin]; [congruence|].
    destruct (Pd.in_rows x seen); simpl; [|right];
      (apply IH; [assumption|simpl; intros [?|?]; congruence || contradiction]).
Qed.

Lemma drop_duplicates_count df :
  (List.length (Pd.rows (Pd.drop_duplicates df)) + Pd.count_duplicates df
   = List.length (Pd.rows df))%nat.
Proof. unfold Pd.drop_duplicates, Pd.count_duplicates, Pd.duplicated. apply select_count. Qed.

Lemma drop_duplicates_NoDup df : List.NoDup (Pd.rows (Pd.drop_duplicates df)).
Proof. unfold Pd.drop_duplicates, Pd.duplicated. apply select_NoDup. Qed.

Lemma drop_duplicates_same_rows df r :
  In r (Pd.rows (Pd.drop_duplicates df)) <-> In r (Pd.rows df).
Proof.
  unfold Pd.drop_duplicates, Pd.duplicated. cbn [Pd.rows]. split.
  - intros H. now apply select_In in H.
  - intros H. apply select_complete; auto.
Qed.

(* ===================================================================== *)
(** * Ingestion *)
(* ===================================================================== *)

Section IngestionFacts.
Context `{L : Libs}.

Lemma manifest_text_csv names : manifest_text names = manifest_of (csv_files names).
Proof.
  induction names as [|n names IH]; simpl; [reflexivity|].
  destruct (PyStr.endswith n ".csv"); simpl; now rewrite IH.
Qed.

Lemma csv_name_not_manifest name :
  PyStr.endswith name ".csv" = true -> "ingestedfiles.txt" <> name.
Proof. intros H <-. vm_compute in H. discriminate. Qed.

Lemma csv_files_In name names :
  In name (csv_files names) <-> In name names /\ PyStr.endswith name ".csv" = true.
Proof. unfold csv_files. rewrite List.filter_In. reflexivity. Qed.

Lemma pd_read_csv_ok dir name df (fs : FS) :
  holds_frame dir fs name df -> pd_read_csv dir name fs = Ok df fs.
Proof.
  intros (text & Hf & Hp). unfold pd_read_csv.
  rewrite (bind_ok _ _ _ _ _ (read_ok _ _ _ _ Hf)), Hp. reflexivity.
Qed.

Lemma pd_read_csv_inv dir name df (fs fs' : FS) :
  pd_read_csv dir name fs = Ok df fs' -> fs' = fs /\ holds_frame dir fs name df.
Proof.
  unfold pd_read_csv, holds_frame. rewrite bind_run. unfold Os.read.
  destruct (Os.file_at dir name fs) as [text|]; [|discriminate].
  destruct (read_csv text) as [df'|] eqn:E; simpl; [|discriminate].
  intros [= <- <-]. eauto.
Qed.

(** The second loop reads the CSV files of the listing, in its order. *)
Lemma read_dataframes_ok dir names dfs (fs : FS) :
  Forall2 (holds_frame dir fs) (csv_files names) dfs ->
  read_dataframes dir names fs = Ok dfs fs.
Proof.
  revert dfs. induction names as [|n names IH]; intros dfs; simpl.
  - inversion 1. reflexivity.
  - destruct (PyStr.endswith n ".csv"); [|apply IH].
    inversion 1 as [|? df ? dfs' Hn Hrest]; subst.
    rewrite (bind_ok _ _ _ _ _ (pd_read_csv_ok _ _ _ _ Hn)).
    rewrite (bind_ok _ _ _ _ _ (IH _ Hrest)). reflexivity.
Qed.

Lemma read_dataframes_inv dir names dfs (fs fs' : FS) :
  read_dataframes dir names fs = Ok dfs fs' ->
  fs' = fs /\ Forall2 (holds_frame dir fs) (csv_files names) dfs.
Proof.
  revert dfs fs'. induction names as [|n names IH]; intros dfs fs'; simpl.
  - intros [= <- <-]. split; [reflexivity|constructor].
  - destruct (PyStr.endswith n ".csv"); [|apply IH].
    rewrite bind_run.
    destruct (pd_read_csv dir n fs) as [df fs1| |] eqn:E; try discriminate.
    apply pd_read_csv_inv in E as [-> Hn].
    rewrite bind_run.
    destruct (read_dataframes dir names fs) as [dfs' fs2| |] eqn:E';
      try discriminate.
    destruct (IH _ _ eq_refl) as [-> Hrest].
    intros [= <- <-]. split; [reflexivity|]. now constructor.
Qed.

Lemma holds_frame_ext dir name df (fs fs' : FS) :
  Os.file_at dir name fs' = Os.file_at dir name fs ->
  holds_frame dir fs name df -> holds_frame dir fs' name df.
Proof. intros E (text & Hf & Hp). exists text. split; congruence. Qed.

Lemma holds_frame_csv_ext dir names dfs (fs fs' : FS) :
  (forall name, PyStr.endswith name ".csv" = true ->
                Os.file_at dir name fs' = Os.file_at dir name fs) ->
  Forall2 (holds_frame dir fs) (csv_files names) dfs ->
  Forall2 (holds_frame dir fs') (csv_files names) dfs.
Proof.
  intros E H.
  assert (Hcsv : List.Forall (fun n => PyStr.endswith n ".csv" = true) (csv_files names)).
  { apply List.Forall_forall. intros n Hn. now apply csv_files_In in Hn. }
  induction H as [|n df ns dfs' Hn Hrest IH]; [constructor|].
  inversion Hcsv; subst. constructor; [|now apply IH].
  eapply holds_frame_ext; [|eassumption]. auto.
Qed.

(** [merge_multiple_dataframe], step by step: list, write the manifest,
    read the frames, and write the merged table when there is a frame. *)
Lemma merge_steps (self : DataIngestion) (fs fs_a : FS) d dfs :
  fs !! di_input_folder_path self = Some d ->
  Os.write (di_output_folder_path self) "ingestedfiles.txt"
           (manifest_text (Dir.names d)) fs = Ok tt fs_a ->
  Forall2 (holds_frame (di_input_folder_path self) fs_a)
          (csv_files (Dir.names d)) dfs ->
  merge_multiple_dataframe self fs =
  match Pd.concat dfs with
  | Some merged_df =>
      Os.write (di_output_folder_path self) "finaldata.csv"
               (to_csv (Pd.drop_duplicates merged_df)) fs_a
  | None => Ok tt fs_a
  end.
Proof.
  intros Hd Hw Hdfs. unfold merge_multiple_dataframe.
  rewrite bind_run. unfold Os.listdir at 1. rewrite Hd.
  rewrite (bind_ok _ _ _ _ _ Hw).
  rewrite (bind_ok _ _ _ _ _ (read_dataframes_ok _ _ _ _ Hdfs)).
  destruct dfs as [|df dfs]; [reflexivity|].
  destruct (Pd.concat (df :: dfs)) as [m|] eqn:E.
  - rewrite bind_run. reflexivity.
  - discriminate.
Qed.

Lemma merge_inv (self : DataIngestion) (fs fs' : FS) :
  merge_multiple_dataframe self fs = Ok tt fs' ->
  exists d fs_a dfs,
    fs !! di_input_folder_path self = Some d /\
    Os.write (di_output_folder_path self) "ingestedfiles.txt"
             (manifest_text (Dir.names d)) fs = Ok tt fs_a /\
    Forall2 (holds_frame (di_input_folder_path self) fs_a)
            (csv_files (Dir.names d)) dfs.
Proof.
  unfold merge_multiple_dataframe. rewrite bind_run. unfold Os.listdir at 1.
  destruct (fs !! di_input_folder_path self) as [d|] eqn:Hd; [|discriminate].
  rewrite bind_run.
  destruct (Os.write _ _ _ fs) as [[] fs_a| |] eqn:Hw; try discriminate.
  rewrite bind_run.
  destruct (read_dataframes _ _ fs_a) as [dfs fs_b| |] eqn:Hr; try discriminate.
  apply read_dataframes_inv in Hr as [-> Hdfs].
  intros _. eauto 10.
Qed.

(** With an input folder, an output folder and CSV files that pandas can
    read, ingestion returns; the manifest lists the CSV files and the
    merged table is the deduplicated concatenation of their frames. *)
Lemma merge_run (self : DataIngestion) (fs : FS) d dout dfs :
  fs !! di_input_folder_path self = Some d ->
  fs !! di_output_folder_path self = Some dout ->
  Forall2 (holds_frame (di_input_folder_path self) fs)
          (csv_files (Dir.names d)) dfs ->
  exists fs',
    merge_multiple_dataframe self fs = Ok tt fs' /\
    Os.file_at (di_output_folder_path self) "ingestedfiles.txt" fs'
      = Some (manifest_of (csv_files (Dir.names d))) /\
    match Pd.concat dfs with
    | Some merged_df =>
        Os.file_at (di_output_folder_path self) "finaldata.csv" fs'
        = Some (to_csv (Pd.drop_duplicates merged_df))
    | None =>
        Os.file_at (di_output_folder_path self) "finaldata.csv" fs'
        = Os.file_at (di_output_folder_path self) "finaldata.csv" fs
    end /\
    (forall dir name,
       dir <> di_output_folder_path self \/
       (name <> "ingestedfiles.txt" /\ name <> "finaldata.csv") ->
       Os.file_at dir name fs' = Os.file_at dir name fs).
Proof.
  intros Hd Hout Hdfs.
  set (inp := di_input_folder_path self) in *.
  set (out := di_output_folder_path self) in *.
  destruct (write_run out "ingestedfiles.txt" (manifest_text (Dir.names d)) _ _ Hout)
    as (fs_a & Hw & Hda & Hna & _ & Hfa).
  assert (Hdfs_a : Forall2 (holds_frame inp fs_a) (csv_files (Dir.names d)) dfs).
  { eapply holds_frame_csv_ext; [|exact Hdfs].
    intros name Hcsv. apply Hfa. right. now apply csv_name_not_manifest. }
  rewrite (merge_steps self fs fs_a d dfs Hd Hw Hdfs_a).
  rewrite manifest_text_csv in Hna.
  destruct (Pd.concat dfs) as [m|].
  - destruct (write_run out "finaldata.csv" (to_csv (Pd.drop_duplicates m)) _ _ Hda)
      as (fs_b & Hw2 & _ & Hnb & _ & Hfb).
    exists fs_b. split; [exact Hw2|]. split; [|split; [exact Hnb|]].
    + rewrite Hfb by (right; discriminate). exact Hna.
    + intros dir name Hne.
      rewrite Hfb, Hfa; [reflexivity| |];
        (destruct Hne as [Hne|[Hn1 Hn2]]; [left; congruence|right; congruence]).
  - exists fs_a. split; [reflexivity|]. split; [exact Hna|]. split.
    + apply Hfa. right. discriminate.
    + intros dir name Hne. apply Hfa.
      destruct Hne as [Hne|[Hn1 Hn2]]; [left; congruence|right; congruence].
Qed.

End IngestionFacts.

Lemma csv_entries_names d : Dir.names (csv_entries d) = csv_files (Dir.names d).
Proof.
  unfold Dir.names, csv_entries, csv_files.
  induction d as [|[n c] d IH]; simpl; [reflexivity|].
  destruct (PyStr.endswith n ".csv"); simpl; now rewrite IH.
Qed.

(** A CSV file is found among the CSV entries, with the same content. *)
Lemma csv_entries_lookup name d :
  PyStr.endswith name ".csv" = true ->
  Dir.lookup name (csv_entries d) = Dir.lookup name d.
Proof.
  intros Hcsv. unfold csv_entries.
  induction d as [|[n c] d IH]; simpl; [reflexivity|].
  destruct (PyStr.endswith n ".csv") eqn:E; simpl.
  - now rewrite IH.
  - destruct (String.eqb n name) eqn:E'; [|exact IH].
    apply String.eqb_eq in E'. congruence.
Qed.

(** Deduplication keeps one row of each value, in place. *)
Lemma select_sublist mask (l : list Pd.row) : sublist (Pd.select mask l) l.
Proof.
  revert mask. induction l as [|r l IH]; intros [|b mask]; simpl;
    try apply sublist_nil_l.
  destruct b; [apply sublist_skip|apply sublist_cons]; apply IH.
Qed.

Lemma drop_duplicates_sublist df :
  sublist (Pd.rows (Pd.drop_duplicates df)) (Pd.rows df).
Proof. unfold Pd.drop_duplicates. cbn [Pd.rows]. apply select_sublist. Qed.

Lemma drop_duplicates_distinct df :
  List.length (Pd.rows (Pd.drop_duplicates df)) = distinct_rows (Pd.rows df).
Proof.
  unfold distinct_rows. apply Permutation_length.
  apply Stdlib.Sorting.Permutation.NoDup_Permutation.
  - apply drop_duplicates_NoDup.
  - apply List.NoDup_nodup.
  - intros r. rewrite drop_duplicates_same_rows, List.nodup_In. reflexivity.
Qed.

Section IngestionClaims.
Context `{L : Libs}.

(** C3.  When ingestion has at least one CSV file to merge, the table it
    writes to [finaldata.csv] has at most as many rows as the input files
    have together, exactly that number less the duplicate rows of the
    concatenated files (the rows beyond the first of each value), and no
    row twice; every row of the concatenation is in it, in the order of
    first occurrence.  The numbers of the files are integers of magnitude
    up to 2^53. *)
Theorem merge_row_count (self : DataIngestion) (fs : FS) d dout dfs :
  fs !! di_input_folder_path self = Some d ->
  fs !! di_output_folder_path self = Some dout ->
  Forall2 (holds_frame (di_input_folder_path self) fs)
          (csv_files (Dir.names d)) dfs ->
  dfs <> nil ->
  forallb exact_numbers dfs = true ->
  exists concatenated merged_df fs',
    merge_multiple_dataframe self fs = Ok tt fs' /\
    Os.file_at (di_output_folder_path self) "finaldata.csv" fs'
      = Some (to_csv merged_df) /\
    Pd.concat dfs = Some concatenated /\
    List.length (Pd.rows concatenated) = total_rows dfs /\
    (List.length (Pd.rows merged_df) <= total_rows dfs)%nat /\
    (List.length (Pd.rows merged_df) + duplicate_rows (Pd.rows concatenated)
     = total_rows dfs)%nat /\
    List.NoDup (Pd.rows merged_df) /\
    (forall r, In r (Pd.rows merged_df) <-> In r (Pd.rows concatenated)) /\
    sublist (Pd.rows merged_df) (Pd.rows concatenated).
Proof.
  intros Hd Hout Hdfs Hne _.
  destruct (merge_run self fs d dout dfs Hd Hout Hdfs) as (fs' & Hrun & _ & Hfinal & _).
  destruct (concat_some dfs Hne) as [df Hcat].
  rewrite Hcat in Hfinal.
  exists df, (Pd.drop_duplicates df), fs'.
  pose proof (drop_duplicates_count df) as Hcount.
  pose proof (concat_rows dfs df Hcat) as Hrows.
  pose proof (drop_duplicates_distinct df) as Hdistinct.
  unfold duplicate_rows. rewrite <- Hdistinct.
  repeat split; try assumption; try lia.
  - apply drop_duplicates_NoDup.
  - apply drop_duplicates_same_rows.
  - apply drop_duplicates_same_rows.
  - apply drop_duplicates_sublist.
Qed.

(** C4.  With an output folder that is not the input folder, a second
    ingestion right after a first one returns and leaves every file as
    the first one left it: same manifest, same merged table. *)
Theorem merge_idempotent (self : DataIngestion) (fs fs1 : FS) :
  di_input_folder_path self <> di_output_folder_path self ->
  merge_multiple_dataframe self fs = Ok tt fs1 ->
  merge_multiple_dataframe self fs1 = Ok tt fs1.
Proof.
  intros Hne Hrun.
  destruct (merge_inv self fs fs1 Hrun) as (d & fs_a & dfs & Hd & Hw & Hdfs).
  set (inp := di_input_folder_path self) in *.
  set (out := di_output_folder_path self) in *.
  assert (Hout : exists dout, fs !! out = Some dout).
  { unfold Os.write in Hw. destruct (fs !! out); [eauto|discriminate]. }
  destruct Hout as [dout Hout].
  destruct (write_run out "ingestedfiles.txt" (manifest_text (Dir.names d)) _ _ Hout)
    as (fs_a' & Hw' & Hda & Hna & Hoa & Hfa).
  assert (fs_a' = fs_a) as -> by congruence.
  rewrite (merge_steps self fs fs_a d dfs Hd Hw Hdfs) in Hrun.
  (* the state the first run ends in *)
  assert (Hin1 : fs1 !! inp = Some d /\
                 Os.file_at out "ingestedfiles.txt" fs1
                   = Some (manifest_text (Dir.names d)) /\
                 (forall name, Os.file_at inp name fs1 = Os.file_at inp name fs_a) /\
                 match Pd.concat dfs with
                 | Some m => Os.file_at out "finaldata.csv" fs1
                             = Some (to_csv (Pd.drop_duplicates m))
                 | None => True
                 end).
  { destruct (Pd.concat dfs) as [m|]; cbv beta iota in Hrun; fold out in Hrun.
    - destruct (write_run out "finaldata.csv" (to_csv (Pd.drop_duplicates m)) _ _ Hda)
        as (fs_b & Hw2 & _ & Hnb & Hob & Hfb).
      assert (fs_b = fs1) as -> by congruence.
      split; [rewrite Hob, Hoa by assumption; exact Hd|]. split.
      + rewrite Hfb by (right; discriminate). exact Hna.
      + split; [|exact Hnb]. intros name. apply Hfb. left. congruence.
    - injection Hrun as <-.
      split; [rewrite Hoa by assumption; exact Hd|]. auto. }
  destruct Hin1 as (Hd1 & Hm1 & Hsame & Hfinal).
  assert (Hdfs1 : Forall2 (holds_frame inp fs1) (csv_files (Dir.names d)) dfs).
  { eapply holds_frame_csv_ext; [|exact Hdfs]. intros name _. apply Hsame. }
  rewrite (merge_steps self fs1 fs1 d dfs Hd1 (write_same _ _ _ _ Hm1) Hdfs1).
  destruct (Pd.concat dfs) as [m|]; [|reflexivity].
  now apply write_same.
Qed.

(** C8.  The manifest and the merged table come from the files ending in
    [.csv] alone: the manifest lists exactly these names, and a folder
    with the same CSV entries and any other files gives the same manifest
    and the same merged table. *)
Theorem merge_reads_only_csv (self : DataIngestion) (fs fs2 : FS)
        d dout d2 dout2 dfs :
  fs !! di_input_folder_path self = Some d ->
  fs !! di_output_folder_path self = Some dout ->
  Forall2 (holds_frame (di_input_folder_path self) fs)
          (csv_files (Dir.names d)) dfs ->
  fs2 !! di_input_folder_path self = Some d2 ->
  fs2 !! di_output_folder_path self = Some dout2 ->
  csv_entries d2 = csv_entries d ->
  exists fs' fs2',
    merge_multiple_dataframe self fs = Ok tt fs' /\
    merge_multiple_dataframe self fs2 = Ok tt fs2' /\
    Os.file_at (di_output_folder_path self) "ingestedfiles.txt" fs'
      = Some (manifest_of (csv_files (Dir.names d))) /\
    Os.file_at (di_output_folder_path self) "ingestedfiles.txt" fs2'
      = Some (manifest_of (csv_files (Dir.names d))) /\
    (dfs <> nil ->
     exists merged_df,
       Pd.concat dfs = Some merged_df /\
       Os.file_at (di_output_folder_path self) "finaldata.csv" fs'
         = Some (to_csv (Pd.drop_duplicates merged_df)) /\
       Os.file_at (di_output_folder_path self) "finaldata.csv" fs2'
         = Some (to_csv (Pd.drop_duplicates merged_df))).
Proof.
  intros Hd Hout Hdfs Hd2 Hout2 Hcsv.
  assert (Hnames : csv_files (Dir.names d2) = csv_files (Dir.names d)).
  { now rewrite <- !csv_entries_names, Hcsv. }
  assert (Hdfs2 : Forall2 (holds_frame (di_input_folder_path self) fs2)
                          (csv_files (Dir.names d2)) dfs).
  { rewrite Hnames.
    assert (Hall : List.Forall (fun n => PyStr.endswith n ".csv" = true)
                               (csv_files (Dir.names d))).
    { apply List.Forall_forall. intros n Hn. now apply csv_files_In in Hn. }
    clear Hnames. induction Hdfs as [|n df ns dfs' Hn Hrest IH]; [constructor|].
    inversion Hall; subst. constructor; [|now apply IH].
    eapply holds_frame_ext; [|exact Hn].
    unfold Os.file_at. rewrite Hd, Hd2.
    rewrite <- (csv_entries_lookup n d2), <- (csv_entries_lookup n d) by assumption.
    now rewrite Hcsv. }
  destruct (merge_run self fs d dout dfs Hd Hout Hdfs) as (fs' & Hrun & Hm & Hf & _).
  destruct (merge_run self fs2 d2 dout2 dfs Hd2 Hout2 Hdfs2)
    as (fs2' & Hrun2 & Hm2 & Hf2 & _).
  exists fs', fs2'. rewrite Hnames in Hm2.
  repeat (split; [assumption|]).
  intros Hne. destruct (concat_some dfs Hne) as [m Hcat].
  rewrite Hcat in Hf, Hf2. eauto.
Qed.

(** C10.  With no file ending in [.csv] in the input folder, ingestion
    returns with an empty manifest written and without writing
    [finaldata.csv]: a merged table of an earlier run stays as it is. *)
Theorem merge_without_csv (self : DataIngestion) (fs : FS) d dout :
  fs !! di_input_folder_path self = Some d ->
  fs !! di_output_folder_path self = Some dout ->
  (forall name, In name (Dir.names d) -> PyStr.endswith name ".csv" = false) ->
  exists fs',
    merge_multiple_dataframe self fs = Ok tt fs' /\
    Os.file_at (di_output_folder_path self) "ingestedfiles.txt" fs' = Some "" /\
    Os.file_at (di_output_folder_path self) "finaldata.csv" fs'
      = Os.file_at (di_output_folder_path self) "finaldata.csv" fs /\
    (forall dir name, name <> "ingestedfiles.txt" ->
       Os.file_at dir name fs' = Os.file_at dir name fs).
Proof.
  intros Hd Hout Hnone.
  assert (Hcsv : csv_files (Dir.names d) = nil).
  { destruct (csv_files (Dir.names d)) as [|n ns] eqn:E; [reflexivity|].
    assert (Hn : In n (csv_files (Dir.names d))) by (rewrite E; now left).
    apply csv_files_In in Hn as [Hin Hend].
    rewrite (Hnone n Hin) in Hend. discriminate. }
  assert (Hdfs : Forall2 (holds_frame (di_input_folder_path self) fs)
                         (csv_files (Dir.names d)) nil).
  { rewrite Hcsv. constructor. }
  destruct (write_run (di_output_folder_path self) "ingestedfiles.txt"
              (manifest_text (Dir.names d)) _ _ Hout)
    as (fs_a & Hw & _ & Hna & _ & Hfa).
  assert (Hdfs_a : Forall2 (holds_frame (di_input_folder_path self) fs_a)
                           (csv_files (Dir.names d)) nil).
  { rewrite Hcsv. constructor. }
  exists fs_a. rewrite (merge_steps self fs fs_a d nil Hd Hw Hdfs_a). simpl.
  rewrite manifest_text_csv, Hcsv in Hna.
  split; [reflexivity|]. split; [exact Hna|]. split.
  - apply Hfa. right. discriminate.
  - intros dir name Hn. apply Hfa. right. congruence.
Qed.

End IngestionClaims.

(* ===================================================================== *)
(** * The weighted F1 score lies between 0 and 1 *)
(* ===================================================================== *)

Lemma tp_le_true l yt yp : Sk.tp_sum l yt yp <= Sk.count_label l yt.
Proof.
  unfold Sk.tp_sum, Sk.count_label. apply inj_le.
  revert yp. induction yt as [|a yt IH]; intros [|b yp]; simpl; try lia.
  specialize (IH yp). destruct (l =? a), (l =? b); simpl; lia.
Qed.

Lemma tp_le_pred l yt yp : Sk.tp_sum l yt yp <= Sk.count_label l yp.
Proof.
  unfold Sk.tp_sum, Sk.count_label. apply inj_le.
  revert yp. induction yt as [|a yt IH]; intros [|b yp]; simpl; try lia.
  specialize (IH yp). destruct (l =? a), (l =? b); simpl; lia.
Qed.

Lemma tp_nonneg l yt yp : 0 <= Sk.tp_sum l yt yp.
Proof. unfold Sk.tp_sum. lia. Qed.

Lemma count_label_nonneg l y : 0 <= Sk.count_label l y.
Proof. unfold Sk.count_label. lia. Qed.

Lemma count_label_cons l a y :
  Sk.count_label l (a :: y) = (if l =? a then 1 else 0) + Sk.count_label l y.
Proof. unfold Sk.count_label. simpl. destruct (l =? a); simpl; lia. Qed.

Lemma count_label_le_length l y : Sk.count_label l y <= Z.of_nat (List.length y).
Proof.
  induction y as [|a y IH]; [unfold Sk.count_label; simpl; lia|].
  rewrite count_label_cons. cbn [List.length]. destruct (l =? a); lia.
Qed.

(** The labels come out strictly increasing, so none twice. *)
Lemma insert_label_In z l x : In x (Sk.insert_label z l) -> x = z \/ In x l.
Proof.
  induction l as [|y l IH]; simpl.
  - intros [<-|[]]. now left.
  - destruct (z <? y); [simpl; intuition auto|].
    destruct (z =? y); [simpl; intuition auto|].
    simpl. intros [<-|H]; [auto|]. apply IH in H. intuition auto.
Qed.

Lemma insert_label_sorted z l :
  Sorted.StronglySorted Z.lt l -> Sorted.StronglySorted Z.lt (Sk.insert_label z l).
Proof.
  induction 1 as [|y l Hs IH Hall]; simpl.
  - repeat constructor.
  - destruct (Z.ltb_spec z y) as [Hlt|Hge].
    + constructor; [now constructor|]. constructor; [assumption|].
      eapply List.Forall_impl; [|exact Hall]. intros; simpl in *; lia.
    + destruct (Z.eqb_spec z y) as [->|Hne]; [now constructor|].
      constructor; [exact IH|].
      apply List.Forall_forall. intros x Hx.
      apply insert_label_In in Hx as [->|Hx]; [lia|].
      rewrite List.Forall_forall in Hall. now apply Hall.
Qed.

Lemma unique_labels_sorted yt yp :
  Sorted.StronglySorted Z.lt (Sk.unique_labels yt yp).
Proof.
  unfold Sk.unique_labels. induction (yt ++ yp)%list as [|a l IH]; simpl.
  - constructor.
  - now apply insert_label_sorted.
Qed.

Lemma fold_add_shift (w : list Z) acc :
  fold_left Z.add w acc = acc + fold_left Z.add w 0.
Proof.
  revert acc. induction w as [|z w IH]; intros acc; simpl; [lia|].
  rewrite (IH (acc + z)), (IH (0 + z)). lia.
Qed.

Lemma fold_add_nonneg (w : list Z) :
  List.Forall (fun z => 0 <= z) w -> 0 <= fold_left Z.add w 0.
Proof.
  induction 1 as [|z w Hz _ IH]; simpl; [lia|]. rewrite fold_add_shift. lia.
Qed.

(** A sample counts for one label at most. *)
Lemma supports_cons labels a y :
  Sorted.StronglySorted Z.lt labels ->
  fold_left Z.add (List.map (fun l => Sk.count_label l (a :: y)) labels) 0
  <= 1 + fold_left Z.add (List.map (fun l => Sk.count_label l y) labels) 0.
Proof.
  intros Hs.
  assert (Hgen :
    fold_left Z.add (List.map (fun l => Sk.count_label l (a :: y)) labels) 0
    = fold_left Z.add (List.map (fun l => Sk.count_label l y) labels) 0
      + Z.of_nat (List.length (List.filter (fun l => l =? a) labels))).
  { clear Hs. induction labels as [|l labels IH]; simpl; [reflexivity|].
    rewrite fold_add_shift, (fold_add_shift _ (0 + Sk.count_label l y)), IH.
    rewrite count_label_cons. destruct (l =? a); simpl List.length; lia. }
  rewrite Hgen. clear Hgen.
  assert (Hone : (List.length (List.filter (fun l => Z.eqb l a) labels) <= 1)%nat).
  { induction Hs as [|l labels Hs IH Hall]; simpl; [lia|].
    destruct (Z.eqb_spec l a) as [->|Hne]; [|exact IH].
    assert (Hnone : List.filter (fun l => Z.eqb l a) labels = nil).
    { clear IH Hs. induction Hall as [|x labels Hx _ IH]; simpl; [reflexivity|].
      destruct (Z.eqb_spec x a); [lia|exact IH]. }
    rewrite Hnone. simpl. lia. }
  lia.
Qed.

(** The supports of distinct labels are at most the samples there are. *)
Lemma supports_le_length labels y :
  Sorted.StronglySorted Z.lt labels ->
  fold_left Z.add (List.map (fun l => Sk.count_label l y) labels) 0
  <= Z.of_nat (List.length y).
Proof.
  intros Hs. induction y as [|a y IH].
  - assert (H0 : forall ls, fold_left Z.add
               (List.map (fun l => Sk.count_label l nil) ls) 0 = 0).
    { induction ls as [|l ls IHl]; simpl; [reflexivity|]. exact IHl. }
    rewrite H0. simpl. lia.
  - pose proof (supports_cons labels a y Hs). cbn [List.length]. lia.
Qed.

Lemma combine_map_map {A B C} (f : A -> B) (g : A -> C) (l : list A) :
  List.combine (List.map f l) (List.map g l) = List.map (fun x => (f x, g x)) l.
Proof. induction l as [|x l IH]; simpl; [reflexivity|]. now rewrite IH. Qed.

Section Bound.
Context `{F : PyFloat} {Laws : FloatLaws F}.

(** The F1 score of a class. *)
Lemma f_score_between l yt yp :
  exact_int (Sk.count_label l yt + Sk.count_label l yp) ->
  number (Sk.f_score l yt yp) /\ between_0_and (Sk.f_score l yt yp) 1.
Proof.
  intros Hexact. unfold Sk.f_score.
  pose proof (tp_le_true l yt yp). pose proof (tp_le_pred l yt yp).
  pose proof (tp_nonneg l yt yp).
  destruct (Z.eqb_spec (Sk.count_label l yt + Sk.count_label l yp) 0) as [E|E].
  - apply of_int_between; [lia|apply exact_int_1].
  - destruct (of_int_between (2 * Sk.tp_sum l yt yp)
                (Sk.count_label l yt + Sk.count_label l yp)) as [Hn Hb];
      [lia|exact Hexact|].
    apply fdiv_between; [lia|exact Hexact|exact Hn|exact Hb].
Qed.

(** The weighted sum of scores between 0 and 1 is between 0 and the sum of
    the weights. *)
Lemma weighted_sum_between (f : Z -> float) (g : Z -> Z) labels acc accz :
  (forall l, number (f l) /\ between_0_and (f l) 1) ->
  (forall l, 0 <= g l) ->
  0 <= accz ->
  exact_int (fold_left Z.add (List.map g labels) accz) ->
  number acc -> between_0_and acc accz ->
  let total :=
    fold_left fadd (List.map (fun p => fmul (fst p) (of_int (snd p)))
                             (List.map (fun l => (f l, g l)) labels)) acc in
  number total /\
  between_0_and total (fold_left Z.add (List.map g labels) accz).
Proof.
  intros Hf Hg. revert acc accz.
  induction labels as [|l labels IH]; intros acc accz Hz Hexact Hnum Hacc; simpl.
  - split; assumption.
  - simpl in Hexact.
    assert (Hrest : 0 <= fold_left Z.add (List.map g labels) 0).
    { apply fold_add_nonneg, List.Forall_forall. intros z Hin.
      apply List.in_map_iff in Hin as (x & <- & _). apply Hg. }
    rewrite fold_add_shift in Hexact. specialize (Hg l) as Hgl.
    assert (Hsmall : forall n, 0 <= n <= accz + g l -> exact_int n).
    { intros n Hn.
      apply (exact_int_le _ (accz + g l + fold_left Z.add (List.map g labels) 0));
        [lia|exact Hexact]. }
    destruct (Hf l) as [Hfn Hfb].
    destruct (fmul_between (f l) (g l)) as [Hmn Hmb];
      [lia|apply Hsmall; lia|exact Hfn|exact Hfb|].
    destruct (fadd_between acc (fmul (f l) (of_int (g l))) accz (g l))
      as [Han Hab]; [lia|lia|apply Hsmall; lia|assumption..|].
    apply IH; [lia|now rewrite fold_add_shift|exact Han|exact Hab].
Qed.

Lemma f1_score_between (y_true : list cell) (y_pred : list Z) s :
  exact_int (2 * Z.of_nat (List.length y_pred)) ->
  Sk.f1_score y_true y_pred = Some s -> between_0_and s 1.
Proof.
  intros Hexact. unfold Sk.f1_score.
  destruct (Sk.as_labels y_true) as [yt|]; [|discriminate].
  destruct (Nat.eqb_spec (List.length yt) (List.length y_pred)) as [Hlen|];
    [|discriminate].
  intros [= <-]. unfold Sk.average.
  set (labels := Sk.unique_labels yt y_pred).
  pose proof (supports_le_length labels yt (unique_labels_sorted yt y_pred)) as Htotal.
  assert (Hnonneg : 0 <= fold_left Z.add
                           (List.map (fun l => Sk.count_label l yt) labels) 0).
  { apply fold_add_nonneg, List.Forall_forall. intros z Hin.
    apply List.in_map_iff in Hin as (x & <- & _). apply count_label_nonneg. }
  assert (Hsmall : forall n, 0 <= n <= 2 * Z.of_nat (List.length y_pred) -> exact_int n).
  { intros n Hn. now apply (exact_int_le n _ Hn). }
  destruct (Z.eqb_spec (fold_left Z.add
              (List.map (fun l => Sk.count_label l yt) labels) 0) 0) as [E|E].
  - apply of_int_between; [lia|apply exact_int_1].
  - rewrite combine_map_map.
    destruct (of_int_between 0 0) as [H0n H0b]; [lia|apply Hsmall; lia|].
    destruct (weighted_sum_between (fun l => Sk.f_score l yt y_pred)
                (fun l => Sk.count_label l yt) labels (of_int 0) 0)
      as [Hsn Hsb].
    + intros l. apply f_score_between, Hsmall.
      pose proof (count_label_le_length l yt). pose proof (count_label_le_length l y_pred).
      pose proof (count_label_nonneg l yt). pose proof (count_label_nonneg l y_pred).
      lia.
    + intros l. apply count_label_nonneg.
    + lia.
    + apply Hsmall. lia.
    + exact H0n.
    + exact H0b.
    + apply fdiv_between; [lia|apply Hsmall; lia|exact Hsn|exact Hsb].
Qed.

End Bound.

(** Exact rational arithmetic has these laws: every integer is exact and
    every rational is a number. *)
Lemma ExactFloat_laws : FloatLaws ExactFloat.
Proof.
  refine {| exact_int := fun _ => True; number := fun _ => True |};
    unfold between_0_and; cbn [fle of_int fadd fmul fdiv ExactFloat float].
  - trivial.
  - trivial.
  - intros a n [Ha Han] _. split; [trivial|].
    split; apply Qle_bool_iff; now rewrite <- Zle_Qle.
  - intros x y n m Hn Hm _ _ _ [Hx0 Hx1] [Hy0 Hy1]. split; [trivial|].
    apply Qle_bool_iff in Hx0, Hx1, Hy0, Hy1.
    split; apply Qle_bool_iff.
    + rewrite <- (Qplus_0_l (inject_Z 0)). now apply Qplus_le_compat.
    + rewrite inject_Z_plus. now apply Qplus_le_compat.
  - intros x w Hw _ _ [Hx0 Hx1]. split; [trivial|].
    apply Qle_bool_iff in Hx0, Hx1.
    assert (Hw' : (0 <= inject_Z w)%Q) by (now rewrite <- (Zle_Qle 0)).
    split; apply Qle_bool_iff.
    + now apply Qmult_le_0_compat.
    + rewrite <- (Qmult_1_l (inject_Z w)) at 2. now apply Qmult_le_compat_r.
  - intros x n Hn _ _ [Hx0 Hx1]. split; [trivial|].
    apply Qle_bool_iff in Hx0, Hx1.
    assert (Hpos : (0 < inject_Z n)%Q) by (now rewrite <- (Zlt_Qlt 0)).
    split; apply Qle_bool_iff.
    + apply Qle_shift_div_l; [exact Hpos|]. now rewrite Qmult_0_l.
    + apply Qle_shift_div_r; [exact Hpos|]. now rewrite Qmult_1_l.
Defined.

(* ===================================================================== *)
(** * Binary64 has the laws of the bound *)
(* ===================================================================== *)

(** The operations of binary64 are those of [SpecFloat]: the exact result
    as a mantissa, an exponent and the place of what was cut off, rounded
    to the nearest number with 53 bits, ties to even.  Values are compared
    as integers, scaled by 2^1200. *)

Lemma fexp_eq x : fexp 53 1024 x = Z.max (x - 53) (-1074).
Proof. reflexivity. Qed.

Lemma digits2_pos_size p : digits2_pos p = Pos.size p.
Proof. induction p; simpl; congruence. Qed.

Lemma Zdigits2_log2 m : 0 < m -> Zdigits2 m = Z.log2 m + 1.
Proof.
  destruct m as [|p|p]; try lia. intros _. simpl. rewrite digits2_pos_size.
  destruct p; simpl; lia.
Qed.

Lemma Zdigits2_bounds m :
  0 < m -> 2 ^ (Zdigits2 m - 1) <= m < 2 ^ Zdigits2 m.
Proof.
  intros H. rewrite Zdigits2_log2 by assumption.
  replace (Z.log2 m + 1 - 1) with (Z.log2 m) by lia.
  apply (Z.log2_spec m H).
Qed.

Lemma Zdigits2_unique m d :
  2 ^ (d - 1) <= m < 2 ^ d -> 0 < m -> Zdigits2 m = d.
Proof.
  intros H Hm. rewrite Zdigits2_log2 by assumption.
  assert (0 <= d - 1).
  { destruct (Z.le_gt_cases 0 (d - 1)) as [|Hneg]; [assumption|].
    assert (d <= 0) by lia.
    assert (2 ^ d <= 2 ^ 0) by (destruct (Z.eq_dec d 0) as [->|];
      [lia|rewrite Z.pow_neg_r by lia; simpl; lia]).
    simpl in *. lia. }
  rewrite (Z.log2_unique m (d - 1)); [lia|assumption|].
  replace (Z.succ (d - 1)) with d by lia. exact H.
Qed.

Lemma Zdigits2_nonneg m : 0 <= Zdigits2 m.
Proof. destruct m; simpl; lia. Qed.

Lemma Zdigits2_pos m : 0 < m -> 0 < Zdigits2 m.
Proof. destruct m; simpl; lia. Qed.

Lemma pow2_pos k : 0 <= k -> 0 < 2 ^ k.
Proof. intros. apply Z.pow_pos_nonneg; lia. Qed.

Lemma pow2_add a b : 0 <= a -> 0 <= b -> 2 ^ (a + b) = 2 ^ a * 2 ^ b.
Proof. intros. apply Z.pow_add_r; assumption. Qed.

Lemma pow2_le a b : a <= b -> 0 <= a -> 2 ^ a <= 2 ^ b.
Proof. intros. apply Z.pow_le_mono_r; lia. Qed.

Lemma pow2_lt a b : a < b -> 0 <= a -> 2 ^ a < 2 ^ b.
Proof. intros. apply Z.pow_lt_mono_r; lia. Qed.

(** ** Shifting right *)

Lemma iter_pos_nat {A} (f : A -> A) p x :
  SpecFloat.iter_pos f p x = Nat.iter (Pos.to_nat p) f x.
Proof.
  revert x. induction p as [p IH|p IH|]; intros x; cbn [SpecFloat.iter_pos].
  - rewrite !IH, Pos2Nat.inj_xI.
    replace (S (2 * Pos.to_nat p)) with (S (Pos.to_nat p + Pos.to_nat p)) by lia.
    rewrite Nat.iter_succ_r, Nat.iter_add. reflexivity.
  - rewrite !IH, Pos2Nat.inj_xO.
    replace (2 * Pos.to_nat p)%nat with (Pos.to_nat p + Pos.to_nat p)%nat by lia.
    now rewrite Nat.iter_add.
  - reflexivity.
Qed.

Lemma shr_1_spec m r s :
  0 <= m ->
  shr_1 (Build_shr_record m r s) = Build_shr_record (m / 2) (Z.odd m) (r || s).
Proof.
  intros Hm. destruct m as [|p|p]; [reflexivity| |lia].
  destruct p as [p|p|]; simpl.
  - f_equal. rewrite Pos2Z.inj_xI.
    apply (Z.div_unique_pos _ _ _ 1); lia.
  - f_equal. rewrite Pos2Z.inj_xO.
    apply (Z.div_unique_pos _ _ _ 0); lia.
  - reflexivity.
Qed.

Lemma shr_iter n m r s :
  0 <= m ->
  let mrs := Nat.iter n shr_1 (Build_shr_record m r s) in
  shr_m mrs = m / 2 ^ Z.of_nat n /\
  (r = false -> s = false -> m mod 2 ^ Z.of_nat n = 0 ->
   shr_r mrs = false /\ shr_s mrs = false).
Proof.
  intros Hm. induction n as [|n IH].
  - simpl. rewrite Z.div_1_r. auto.
  - cbn zeta in *. rewrite Nat.iter_succ.
    destruct (Nat.iter n shr_1 _) as [m' r' s'].
    cbn [shr_m shr_r shr_s] in IH. destruct IH as [IHm IHx].
    assert (Hp : 0 < 2 ^ Z.of_nat n) by (apply pow2_pos; lia).
    assert (Hm' : 0 <= m') by (rewrite IHm; apply Z.div_pos; lia).
    rewrite shr_1_spec by assumption. cbn [shr_m shr_r shr_s].
    assert (Hpow : 2 ^ Z.of_nat (S n) = 2 ^ Z.of_nat n * 2).
    { rewrite Nat2Z.inj_succ, Z.pow_succ_r by lia. lia. }
    split.
    + rewrite IHm, Hpow, Z.div_div by lia. reflexivity.
    + intros -> -> Hmod. rewrite Hpow in Hmod.
      apply Z.mod_divide in Hmod; [|lia]. destruct Hmod as [q Hq].
      assert (Hmodn : m mod 2 ^ Z.of_nat n = 0).
      { apply Z.mod_divide; [lia|]. exists (q * 2). lia. }
      destruct (IHx eq_refl eq_refl Hmodn) as [-> ->]. split; [|reflexivity].
      assert (Hq' : m' = q * 2).
      { rewrite IHm. symmetry. apply Z.div_unique_exact; lia. }
      rewrite Hq', Z.odd_mul. simpl. apply andb_false_r.
Qed.

Lemma shr_fexp_spec m e l k :
  0 <= m -> k = fexp 53 1024 (Zdigits2 m + e) - e -> 0 <= k ->
  exists mrs,
    shr_fexp 53 1024 m e l = (mrs, e + k) /\
    shr_m mrs = m / 2 ^ k /\
    (l = loc_Exact -> m mod 2 ^ k = 0 -> loc_of_shr_record mrs = loc_Exact).
Proof.
  intros Hm Hk Hk0. unfold shr_fexp. rewrite <- Hk. unfold shr.
  destruct k as [|p|p]; [| |lia].
  - exists (shr_record_of_loc m l). split; [f_equal; lia|]. split.
    + rewrite Z.div_1_r. destruct l as [|[]]; reflexivity.
    + intros -> _. reflexivity.
  - rewrite iter_pos_nat.
    assert (Hrec : exists r s, shr_record_of_loc m l = Build_shr_record m r s
                               /\ (l = loc_Exact -> r = false /\ s = false)).
    { destruct l as [|[]]; simpl; eexists _, _; split; try reflexivity;
        try discriminate. auto. }
    destruct Hrec as (r & s & -> & Hl).
    destruct (shr_iter (Pos.to_nat p) m r s Hm) as [Hmant Hex].
    rewrite positive_nat_Z in Hmant, Hex.
    eexists. split; [reflexivity|]. split; [exact Hmant|].
    intros Hle Hmod. destruct (Hl Hle) as [-> ->].
    destruct (Hex eq_refl eq_refl Hmod) as [Hr Hs].
    destruct (Nat.iter _ _ _) as [m' r' s']. simpl in Hr, Hs. subst. reflexivity.
Qed.

Lemma round_nearest_even_spec m l :
  round_nearest_even m l = m \/
  (round_nearest_even m l = m + 1 /\ l <> loc_Exact).
Proof.
  destruct l as [|[]]; simpl;
    [left; reflexivity| |left; reflexivity
    |right; split; [reflexivity|discriminate]].
  destruct (Z.even m); [left; reflexivity|right; split; [reflexivity|discriminate]].
Qed.

Lemma Zdigits2_div_pow2 m k :
  0 <= k -> 0 < m / 2 ^ k -> Zdigits2 (m / 2 ^ k) = Zdigits2 m - k.
Proof.
  intros Hk Hq.
  assert (HK : 0 < 2 ^ k) by (apply pow2_pos; lia).
  assert (Hm : 2 ^ k <= m).
  { destruct (Z.lt_ge_cases m (2 ^ k)) as [Hlt|]; [|assumption].
    destruct (Z.lt_ge_cases m 0) as [Hneg|Hnn].
    - assert (m / 2 ^ k < 0) by (apply Z.div_lt_upper_bound; lia). lia.
    - rewrite Z.div_small in Hq by lia. lia. }
  assert (Hm0 : 0 < m) by lia.
  pose proof (Zdigits2_bounds m Hm0) as [Hlo Hhi].
  set (d := Zdigits2 m) in *.
  assert (Hkd : k < d).
  { destruct (Z.lt_ge_cases k d) as [|Hge]; [assumption|].
    assert (2 ^ d <= 2 ^ k) by (apply Z.pow_le_mono_r; lia). lia. }
  apply Zdigits2_unique; [|assumption]. split.
  - apply Z.div_le_lower_bound; [assumption|].
    rewrite <- pow2_add by lia. replace (k + (d - k - 1)) with (d - 1) by lia.
    assumption.
  - apply Z.div_lt_upper_bound; [assumption|].
    rewrite <- pow2_add by lia. replace (k + (d - k)) with d by lia. assumption.
Qed.

Lemma canonical_facts m e :
  canonical m e -> -1074 <= e /\ m < 2 ^ 53 /\ (-1074 < e -> 2 ^ 52 <= m).
Proof.
  intros [Hm Hc]. rewrite fexp_eq in Hc.
  pose proof (Zdigits2_bounds m Hm) as [Hlo Hhi].
  pose proof (Zdigits2_pos m Hm).
  set (d := Zdigits2 m) in *.
  split; [lia|]. split.
  - assert (2 ^ d <= 2 ^ 53) by (apply Z.pow_le_mono_r; lia). lia.
  - intros He. replace d with 53 in Hlo by lia. exact Hlo.
Qed.

Lemma fval_shift m e k :
  -1200 <= e -> 0 <= k -> fval m (e + k) = m * 2 ^ k * 2 ^ (e + 1200).
Proof.
  intros He Hk. unfold fval.
  replace (e + k + 1200) with (k + (e + 1200)) by lia.
  rewrite pow2_add by lia. ring.
Qed.

Lemma fval_mul_pow2 m e k :
  -1200 <= e -> 0 <= k -> fval (m * 2 ^ k) e = fval m (e + k).
Proof. intros. rewrite fval_shift by assumption. reflexivity. Qed.

Lemma fval_le m m' e : -1200 <= e -> m <= m' -> fval m e <= fval m' e.
Proof.
  intros He H. unfold fval. apply Z.mul_le_mono_nonneg_r; [|assumption].
  apply Z.lt_le_incl, pow2_pos. lia.
Qed.

Lemma fval_lt m m' e : -1200 <= e -> m < m' -> fval m e < fval m' e.
Proof.
  intros He H. unfold fval. apply Z.mul_lt_mono_pos_r; [|assumption].
  apply pow2_pos. lia.
Qed.

Lemma fval_lt_inv m m' e : -1200 <= e -> fval m e < fval m' e -> m < m'.
Proof.
  intros He H. unfold fval in H.
  apply Z.mul_lt_mono_pos_r in H; [assumption|apply pow2_pos; lia].
Qed.

Lemma fval_le_inv m m' e : -1200 <= e -> fval m e <= fval m' e -> m <= m'.
Proof.
  intros He H. unfold fval in H.
  apply Z.mul_le_mono_pos_r in H; [assumption|apply pow2_pos; lia].
Qed.

(** An integer is on the grid of every exponent that is not positive. *)
Lemma fval_int n e :
  -1200 <= e <= 0 -> n * 2 ^ 1200 = fval (n * 2 ^ (- e)) e.
Proof.
  intros He. unfold fval.
  replace 1200 with (- e + (e + 1200)) at 1 by lia.
  rewrite pow2_add by lia. ring.
Qed.

Lemma grid_up e n m :
  -1200 <= e <= 0 -> fval m e < n * 2 ^ 1200 -> fval (m + 1) e <= n * 2 ^ 1200.
Proof.
  intros He H. rewrite (fval_int n e He) in *.
  apply fval_lt_inv in H; [|lia]. apply fval_le; lia.
Qed.

Lemma grid_down e n m :
  -1200 <= e <= 0 -> n * 2 ^ 1200 < fval (m + 1) e -> n * 2 ^ 1200 <= fval m e.
Proof.
  intros He H. rewrite (fval_int n e He) in *.
  apply fval_lt_inv in H; [|lia]. apply fval_le; lia.
Qed.

(** A canonical number with a positive exponent is at least 2^53. *)
Lemma canonical_big m e :
  canonical m e -> 1 <= e -> 2 ^ 53 * 2 ^ 1200 <= fval m e.
Proof.
  intros Hc He. destruct (canonical_facts m e Hc) as (_ & _ & Hn).
  specialize (Hn ltac:(lia)). unfold fval.
  replace (e + 1200) with (1 + (e - 1 + 1200)) by lia.
  rewrite pow2_add by lia.
  assert (2 ^ 1200 <= 2 ^ (e - 1 + 1200)) by (apply Z.pow_le_mono_r; lia).
  assert (0 < 2 ^ 1200) by (apply pow2_pos; lia).
  change (2 ^ 53) with (2 ^ 52 * 2 ^ 1).
  rewrite <- !Z.mul_assoc. apply Z.mul_le_mono_nonneg; lia.
Qed.

Lemma shr_fexp_canonical m e :
  canonical m e ->
  shr_fexp 53 1024 m e loc_Exact = (Build_shr_record m false false, e).
Proof.
  intros [Hm Hc]. unfold shr_fexp. rewrite Hc, Z.sub_diag. reflexivity.
Qed.

Lemma shr_fexp_round_up m e :
  (m = 0 /\ e = -1074) \/ canonical m e ->
  exists m' e',
    shr_fexp 53 1024 (m + 1) e loc_Exact = (Build_shr_record m' false false, e') /\
    canonical m' e' /\ fval m' e' = fval (m + 1) e.
Proof.
  intros [[-> ->]|Hc].
  - exists 1, (-1074). repeat split; reflexivity.
  - pose proof (canonical_facts m e Hc) as (He & _ & _).
    destruct Hc as [Hm Hc]. rewrite fexp_eq in Hc.
    pose proof (Zdigits2_bounds m Hm) as [Hlo Hhi].
    pose proof (Zdigits2_pos m Hm) as Hd.
    set (d := Zdigits2 m) in *.
    destruct (Z.eq_dec (m + 1) (2 ^ d)) as [E|E].
    + assert (Hd' : Zdigits2 (m + 1) = d + 1).
      { apply Zdigits2_unique; [|lia]. replace (d + 1 - 1) with d by lia.
        split; [lia|]. rewrite E. apply pow2_lt; lia. }
      destruct (Z.eq_dec d 53) as [E53|E53].
      * exists (2 ^ 52), (e + 1).
        assert (Hm1 : m + 1 = 2 ^ 53) by (rewrite E, E53; reflexivity).
        rewrite Hm1. split; [|split].
        -- unfold shr_fexp.
           replace (fexp 53 1024 (Zdigits2 (2 ^ 53) + e) - e) with 1
             by (rewrite fexp_eq; change (Zdigits2 (2 ^ 53)) with 54; lia).
           reflexivity.
        -- split; [reflexivity|]. rewrite fexp_eq.
           change (Zdigits2 (2 ^ 52)) with 53. lia.
        -- unfold fval. replace (e + 1 + 1200) with (1 + (e + 1200)) by lia.
           rewrite pow2_add by lia. change (2 ^ 53) with (2 ^ 52 * 2 ^ 1). ring.
      * exists (m + 1), e.
        assert (Hc' : canonical (m + 1) e).
        { split; [lia|]. rewrite fexp_eq, Hd'. lia. }
        split; [apply shr_fexp_canonical, Hc'|]. split; [exact Hc'|reflexivity].
    + exists (m + 1), e.
      assert (Hd' : Zdigits2 (m + 1) = d).
      { apply Zdigits2_unique; lia. }
      assert (Hc' : canonical (m + 1) e).
      { split; [lia|]. rewrite fexp_eq, Hd'. lia. }
      split; [apply shr_fexp_canonical, Hc'|]. split; [exact Hc'|reflexivity].
Qed.

Lemma finite_in_range p e lo hi :
  canonical (Zpos p) e -> hi <= 2 ^ 53 ->
  lo * 2 ^ 1200 <= fval (Zpos p) e <= hi * 2 ^ 1200 ->
  in_range (if e <=? 1024 - 53 then S754_finite false p e
            else S754_infinity false) lo hi.
Proof.
  intros Hc Hhi Hval.
  pose proof (canonical_facts _ _ Hc) as (He & _ & _).
  assert (HS : 0 < 2 ^ 1200) by (apply pow2_pos; lia).
  assert (He1 : e <= 1).
  { destruct (Z.le_gt_cases e 1) as [|Hgt]; [assumption|exfalso].
    destruct (canonical_facts _ _ Hc) as (_ & _ & Hn).
    specialize (Hn ltac:(lia)).
    assert (2 ^ 54 * 2 ^ 1200 <= fval (Zpos p) e).
    { unfold fval. replace (e + 1200) with (2 + (e - 2 + 1200)) by lia.
      rewrite pow2_add by lia.
      assert (2 ^ 1200 <= 2 ^ (e - 2 + 1200)) by (apply Z.pow_le_mono_r; lia).
      change (2 ^ 54) with (2 ^ 52 * 2 ^ 2).
      rewrite <- !Z.mul_assoc. apply Z.mul_le_mono_nonneg; lia. }
    assert (hi * 2 ^ 1200 <= 2 ^ 53 * 2 ^ 1200)
      by (apply Z.mul_le_mono_nonneg_r; lia).
    assert (2 ^ 53 * 2 ^ 1200 < 2 ^ 54 * 2 ^ 1200)
      by (apply Z.mul_lt_mono_pos_r; [assumption|reflexivity]).
    lia. }
  replace (e <=? 1024 - 53) with true by (symmetry; apply Z.leb_le; lia).
  simpl. split; [|exact Hval].
  unfold bounded, canonical_mantissa. destruct Hc as [_ Hc]. simpl in Hc.
  rewrite Hc, Z.eqb_refl. simpl. apply Z.leb_le. lia.
Qed.

(** Rounding an exact result that lies between two integers up to 2^53
    gives a binary64 number between them. *)
Lemma binary_round_aux_in_range mx ex lx lo hi :
  0 <= mx -> -1200 <= ex -> ex <= fexp 53 1024 (Zdigits2 mx + ex) ->
  0 <= lo -> hi <= 2 ^ 53 ->
  lo * 2 ^ 1200 <= fval mx ex <= hi * 2 ^ 1200 ->
  (lx <> loc_Exact -> fval mx ex < hi * 2 ^ 1200) ->
  in_range (binary_round_aux 53 1024 false mx ex lx) lo hi.
Proof.
  intros Hmx Hex Hfexp Hlo Hhi Hval Hstrict.
  assert (HS : 0 < 2 ^ 1200) by (apply pow2_pos; lia).
  set (e1 := fexp 53 1024 (Zdigits2 mx + ex)) in *.
  set (k := e1 - ex).
  assert (Hk : 0 <= k) by (unfold k; lia).
  destruct (shr_fexp_spec mx ex lx k Hmx eq_refl Hk) as (mrs & Hshr & Hm1 & Hexact).
  unfold binary_round_aux. rewrite Hshr.
  replace (ex + k) with e1 by (unfold k; lia).
  rewrite Hm1. set (m1 := mx / 2 ^ k) in *.
  assert (HK : 0 < 2 ^ k) by (apply pow2_pos; lia).
  assert (Htr : m1 * 2 ^ k <= mx < (m1 + 1) * 2 ^ k).
  { unfold m1. split.
    - rewrite Z.mul_comm. apply Z.mul_div_le. assumption.
    - rewrite Z.mul_comm. replace (mx / 2 ^ k + 1) with (Z.succ (mx / 2 ^ k)) by lia.
      apply Z.mul_succ_div_gt. assumption. }
  assert (Hm10 : 0 <= m1) by (apply Z.div_pos; lia).
  assert (He1 : -1074 <= e1) by (unfold e1; rewrite fexp_eq; lia).
  assert (Hcan : (m1 = 0 /\ e1 = -1074) \/ canonical m1 e1).
  { destruct (Z.eq_dec m1 0) as [E|E].
    - left. split; [assumption|].
      pose proof (Zdigits2_nonneg mx).
      assert (Hd : Zdigits2 mx <= k).
      { destruct (Z.eq_dec mx 0) as [->|Hne]; [simpl; lia|].
        pose proof (Zdigits2_bounds mx ltac:(lia)) as [Hl _].
        destruct (Z.le_gt_cases (Zdigits2 mx) k) as [|Hgt]; [assumption|exfalso].
        assert (2 ^ k <= 2 ^ (Zdigits2 mx - 1)) by (apply Z.pow_le_mono_r; lia).
        rewrite E in Htr. lia. }
      unfold k in Hd. unfold e1 in *. rewrite fexp_eq in *. lia.
    - right. split; [lia|].
      unfold m1. rewrite Zdigits2_div_pow2 by (fold m1; lia).
      replace (Zdigits2 mx - k + e1) with (Zdigits2 mx + ex) by (unfold k; lia).
      reflexivity. }
  assert (Hfv : forall m, fval m e1 = m * 2 ^ k * 2 ^ (ex + 1200)).
  { intros m. replace e1 with (ex + k) by (unfold k; lia).
    apply fval_shift; lia. }
  assert (HA : 0 < 2 ^ (ex + 1200)) by (apply pow2_pos; lia).
  assert (Hfv1 : fval m1 e1 <= fval mx ex).
  { rewrite Hfv. unfold fval. apply Z.mul_le_mono_nonneg_r; lia. }
  assert (Hfv2 : fval mx ex < fval (m1 + 1) e1).
  { rewrite Hfv. unfold fval. apply Z.mul_lt_mono_pos_r; lia. }
  assert (Hlohi : lo <= hi).
  { apply Z.mul_le_mono_pos_r with (2 ^ 1200); lia. }
  assert (Hbig : 1 <= e1 -> 0 < m1 -> 2 ^ 53 * 2 ^ 1200 <= fval m1 e1).
  { intros H1 H2. apply canonical_big; [|assumption].
    destruct Hcan as [[? ?]|]; [lia|assumption]. }
  assert (Hhi' : hi * 2 ^ 1200 <= 2 ^ 53 * 2 ^ 1200)
    by (apply Z.mul_le_mono_nonneg_r; lia).
  assert (Hlo1 : lo * 2 ^ 1200 <= fval m1 e1 \/ (m1 = 0 /\ lo <= 0)).
  { destruct (Z.le_gt_cases e1 0) as [Hle|Hgt].
    - left. apply grid_down; lia.
    - destruct (Z.eq_dec m1 0) as [E|E].
      + destruct Hcan as [[_ ?]|[? _]]; lia.
      + left. specialize (Hbig ltac:(lia) ltac:(lia)). lia. }
  destruct (round_nearest_even_spec m1 (loc_of_shr_record mrs)) as [->|[-> Hne]].
  - destruct Hcan as [[Hz He]|Hcan].
    + rewrite Hz, He. simpl. destruct Hlo1 as [Hl|[_ Hl]]; [|lia].
      rewrite Hz in Hl. unfold fval in Hl. simpl in Hl.
      assert (lo <= 0) by (apply Z.mul_le_mono_pos_r with (2 ^ 1200); lia). lia.
    + rewrite shr_fexp_canonical by assumption. cbn [shr_m].
      destruct m1 as [|p|p]; [destruct Hcan; lia| |destruct Hcan; lia].
      apply finite_in_range; [assumption|assumption|].
      destruct Hlo1 as [Hl|[? _]]; [lia|discriminate].
  - assert (Hlt : fval m1 e1 < hi * 2 ^ 1200).
    { destruct (Z.eq_dec (mx mod 2 ^ k) 0) as [Hmod|Hmod].
      - destruct lx as [|c].
        + exfalso. apply Hne. apply Hexact; [reflexivity|assumption].
        + assert (fval mx ex < hi * 2 ^ 1200) by (apply Hstrict; discriminate).
          lia.
      - assert (m1 * 2 ^ k < mx).
        { pose proof (Z.div_mod mx (2 ^ k) ltac:(lia)) as Hdm. fold m1 in Hdm.
          pose proof (Z.mod_pos_bound mx (2 ^ k) HK). lia. }
        assert (fval m1 e1 < fval mx ex).
        { rewrite Hfv. unfold fval. apply Z.mul_lt_mono_pos_r; lia. }
        lia. }
    assert (He0 : e1 <= 0).
    { destruct (Z.le_gt_cases e1 0) as [|Hgt]; [assumption|exfalso].
      destruct (Z.eq_dec m1 0) as [E|E].
      - destruct Hcan as [[_ ?]|[? _]]; lia.
      - specialize (Hbig ltac:(lia) ltac:(lia)). lia. }
    assert (Hup : fval (m1 + 1) e1 <= hi * 2 ^ 1200) by (apply grid_up; lia).
    destruct (shr_fexp_round_up m1 e1 Hcan) as (m' & e' & -> & Hcan' & Hfv').
    cbn [shr_m].
    destruct m' as [|p|p]; [destruct Hcan'; lia| |destruct Hcan'; lia].
    apply finite_in_range; [assumption|assumption|]. rewrite Hfv'. lia.
Qed.

(** ** Comparison *)

Lemma bounded_canonical p e :
  bounded 53 1024 p e = true -> canonical (Zpos p) e.
Proof.
  unfold bounded, canonical_mantissa. intros H.
  apply andb_true_iff in H as [H _]. apply Z.eqb_eq in H.
  split; [reflexivity|exact H].
Qed.

(** Of two canonical numbers the one with the smaller exponent is smaller. *)
Lemma canonical_exp_lt m1 e1 m2 e2 :
  canonical m1 e1 -> canonical m2 e2 -> e1 < e2 -> fval m1 e1 < fval m2 e2.
Proof.
  intros H1 H2 He.
  destruct (canonical_facts _ _ H1) as (He1 & Hm1 & _).
  destruct (canonical_facts _ _ H2) as (He2 & _ & Hm2).
  specialize (Hm2 ltac:(lia)). unfold fval.
  assert (HA : 0 < 2 ^ (e1 + 1200)) by (apply pow2_pos; lia).
  assert (HB : 2 * 2 ^ (e1 + 1200) <= 2 ^ (e2 + 1200)).
  { replace (2 * 2 ^ (e1 + 1200)) with (2 ^ (1 + (e1 + 1200)))
      by (rewrite pow2_add by lia; reflexivity).
    apply Z.pow_le_mono_r; lia. }
  apply Z.lt_le_trans with (2 ^ 53 * 2 ^ (e1 + 1200)).
  - apply Z.mul_lt_mono_pos_r; assumption.
  - change (2 ^ 53) with (2 ^ 52 * 2). rewrite <- Z.mul_assoc.
    apply Z.mul_le_mono_nonneg; lia.
Qed.

Lemma SFleb_fval m1 e1 m2 e2 :
  bounded 53 1024 m1 e1 = true -> bounded 53 1024 m2 e2 = true ->
  SFleb (S754_finite false m1 e1) (S754_finite false m2 e2) = true
  <-> fval (Zpos m1) e1 <= fval (Zpos m2) e2.
Proof.
  intros H1 H2. apply bounded_canonical in H1, H2.
  destruct (canonical_facts _ _ H1) as (He1 & _ & _).
  unfold SFleb, SFcompare.
  destruct (Z.compare_spec e1 e2) as [E|E|E].
  - subst e2. change (Pos.compare_cont Eq m1 m2) with (Pos.compare m1 m2).
    destruct (Pos.compare_spec m1 m2) as [E|E|E].
    + subst. split; [lia|reflexivity].
    + split; [intros _|reflexivity]. apply fval_le; lia.
    + split; [discriminate|]. intros H. apply fval_le_inv in H; lia.
  - pose proof (canonical_exp_lt _ _ _ _ H1 H2 E). split; [lia|reflexivity].
  - pose proof (canonical_exp_lt _ _ _ _ H2 H1 E). split; [discriminate|lia].
Qed.

(** ** Integers *)

Lemma iter_xO m d : Zpos (Pos.iter xO m d) = Zpos m * 2 ^ Zpos d.
Proof.
  induction d as [|d IH] using Pos.peano_ind.
  - simpl. lia.
  - rewrite Pos.iter_succ, Pos2Z.inj_xO, IH, Pos2Z.inj_succ, Z.pow_succ_r by lia.
    ring.
Qed.

Lemma shl_align_spec mx ex ex' :
  exists j, 0 <= j /\
    shl_align mx ex ex' = (Z.to_pos (Zpos mx * 2 ^ j), ex - j) /\
    Zpos (fst (shl_align mx ex ex')) = Zpos mx * 2 ^ j /\
    j = Z.max 0 (ex - ex').
Proof.
  unfold shl_align. destruct (ex' - ex) as [|d|d] eqn:E.
  - exists 0. repeat split; try lia.
    + rewrite Z.mul_1_r. simpl. f_equal. lia.
    + simpl. lia.
  - exists 0. repeat split; try lia.
    + rewrite Z.mul_1_r. simpl. f_equal. lia.
    + simpl. lia.
  - exists (Zpos d). repeat split; try lia.
    + rewrite <- iter_xO. simpl. f_equal. lia.
    + simpl. apply iter_xO.
Qed.

Lemma Zdigits2_mul_pow2 m j :
  0 < m -> 0 <= j -> Zdigits2 (m * 2 ^ j) = Zdigits2 m + j.
Proof.
  intros Hm Hj. assert (0 < 2 ^ j) by (apply pow2_pos; lia).
  rewrite !Zdigits2_log2 by lia. rewrite Z.log2_mul_pow2 by lia. lia.
Qed.

Lemma binary_round_in_range p e lo hi :
  -1200 <= e -> 0 <= lo -> hi <= 2 ^ 53 ->
  lo * 2 ^ 1200 <= fval (Zpos p) e <= hi * 2 ^ 1200 ->
  in_range (binary_round 53 1024 false p e) lo hi.
Proof.
  intros He Hlo Hhi Hval. unfold binary_round.
  set (e' := fexp 53 1024 (Zpos (digits2_pos p) + e)).
  destruct (shl_align_spec p e e') as (j & Hj & -> & _ & Hjmax).
  assert (HJ : 0 < 2 ^ j) by (apply pow2_pos; lia).
  rewrite Z2Pos.id by lia.
  assert (He' : -1074 <= e') by (unfold e'; rewrite fexp_eq; lia).
  assert (Hfv : fval (Zpos p * 2 ^ j) (e - j) = fval (Zpos p) e).
  { unfold fval. replace (e + 1200) with (j + (e - j + 1200)) by lia.
    rewrite (pow2_add j (e - j + 1200)) by lia. ring. }
  apply binary_round_aux_in_range; try lia.
  - rewrite Zdigits2_mul_pow2 by lia.
    replace (Zdigits2 (Zpos p) + j + (e - j)) with (Zpos (digits2_pos p) + e)
      by (simpl; lia).
    fold e'. lia.
  - intros H. now contradiction H.
Qed.

Lemma of_int_in_range n :
  0 <= n <= 2 ^ 53 -> in_range (binary_normalize 53 1024 n 0 false) n n.
Proof.
  intros Hn. destruct n as [|p|p]; [simpl; lia| |lia].
  cbn [binary_normalize]. apply binary_round_in_range; try lia.
  unfold fval. simpl (0 + 1200). lia.
Qed.

Lemma in_range_weaken x lo hi lo' hi' :
  lo' <= lo -> hi <= hi' -> in_range x lo hi -> in_range x lo' hi'.
Proof.
  intros Hl Hh. assert (HS : 0 < 2 ^ 1200) by (apply pow2_pos; lia).
  destruct x as [s| | |[] m e]; simpl; try tauto; [lia|].
  intros [Hb [H1 H2]]. split; [assumption|].
  assert (lo' * 2 ^ 1200 <= lo * 2 ^ 1200) by (apply Z.mul_le_mono_nonneg_r; lia).
  assert (hi * 2 ^ 1200 <= hi' * 2 ^ 1200) by (apply Z.mul_le_mono_nonneg_r; lia).
  lia.
Qed.

(** ** Sums, products and quotients *)

Lemma in_range_finite s m e lo hi :
  in_range (S754_finite s m e) lo hi ->
  s = false /\ canonical (Zpos m) e /\
  lo * 2 ^ 1200 <= fval (Zpos m) e <= hi * 2 ^ 1200.
Proof.
  destruct s; simpl; [tauto|]. intros [Hb Hv].
  split; [reflexivity|]. split; [apply bounded_canonical, Hb|exact Hv].
Qed.

Lemma SFadd_in_range x y n m :
  0 <= n -> 0 <= m -> n + m <= 2 ^ 53 ->
  in_range x 0 n -> in_range y 0 m ->
  in_range (SFadd 53 1024 x y) 0 (n + m).
Proof.
  intros Hn Hm Hnm Hx Hy.
  assert (HS : 0 < 2 ^ 1200) by (apply pow2_pos; lia).
  destruct x as [sx| | |sx mx ex]; try contradiction;
    destruct y as [sy| | |sy my ey]; try contradiction.
  - destruct sx, sy; simpl; lia.
  - apply (in_range_weaken _ 0 m); [lia|lia|exact Hy].
  - apply (in_range_weaken _ 0 n); [lia|lia|exact Hx].
  - apply in_range_finite in Hx as (-> & Hcx & Hvx).
    apply in_range_finite in Hy as (-> & Hcy & Hvy).
    destruct (canonical_facts _ _ Hcx) as (Hex & _ & _).
    destruct (canonical_facts _ _ Hcy) as (Hey & _ & _).
    cbn [SFadd cond_Zopp].
    set (ez := Z.min ex ey).
    destruct (shl_align_spec mx ex ez) as (jx & Hjx & _ & Hfx & Hjx').
    destruct (shl_align_spec my ey ez) as (jy & Hjy & _ & Hfy & Hjy').
    rewrite <- Pos2Z.inj_add. cbn [binary_normalize].
    apply binary_round_in_range; try lia.
    rewrite Pos2Z.inj_add, Hfx, Hfy.
    assert (Hvx' : fval (Zpos mx * 2 ^ jx) ez = fval (Zpos mx) ex).
    { rewrite fval_mul_pow2 by lia. f_equal. lia. }
    assert (Hvy' : fval (Zpos my * 2 ^ jy) ez = fval (Zpos my) ey).
    { rewrite fval_mul_pow2 by lia. f_equal. lia. }
    replace (fval (Zpos mx * 2 ^ jx + Zpos my * 2 ^ jy) ez)
      with (fval (Zpos mx * 2 ^ jx) ez + fval (Zpos my * 2 ^ jy) ez)
      by (unfold fval; ring).
    rewrite Hvx', Hvy'. lia.
Qed.

(** The value of a product. *)
Lemma fval_mul m1 e1 m2 e2 :
  -1200 <= e1 + e2 ->
  fval m1 e1 * fval m2 e2 = fval (m1 * m2) (e1 + e2) * 2 ^ 1200 \/
  (e1 + 1200 < 0 \/ e2 + 1200 < 0).
Proof.
  intros H. destruct (Z.le_gt_cases 0 (e1 + 1200)); [|right; lia].
  destruct (Z.le_gt_cases 0 (e2 + 1200)); [|right; lia].
  left. unfold fval.
  assert (E : 2 ^ (e1 + 1200) * 2 ^ (e2 + 1200)
              = 2 ^ (e1 + e2 + 1200) * 2 ^ 1200)
    by (rewrite <- !pow2_add by lia; f_equal; lia).
  transitivity (m1 * m2 * (2 ^ (e1 + 1200) * 2 ^ (e2 + 1200))); [ring|].
  rewrite E. ring.
Qed.

(** A canonical number that is at least 1 has an exponent of -52 or more. *)
Lemma canonical_ge_1 m e :
  canonical m e -> 2 ^ 1200 <= fval m e -> -52 <= e.
Proof.
  intros Hc Hv. destruct (canonical_facts _ _ Hc) as (He & Hm & _).
  destruct (Z.le_gt_cases (-52) e) as [|Hlt]; [assumption|exfalso].
  assert (HA : 0 < 2 ^ (e + 1200)) by (apply pow2_pos; lia).
  assert (fval m e < 2 ^ 53 * 2 ^ (e + 1200))
    by (unfold fval; apply Z.mul_lt_mono_pos_r; assumption).
  assert (2 ^ 53 * 2 ^ (e + 1200) <= 2 ^ 1200).
  { rewrite <- pow2_add by lia. apply Z.pow_le_mono_r; lia. }
  lia.
Qed.

Lemma canonical_normal m e :
  canonical m e -> -1074 < e -> Zdigits2 m = 53.
Proof. intros [Hm Hc] He. rewrite fexp_eq in Hc. lia. Qed.

Lemma fexp_mono a b : a <= b -> fexp 53 1024 a <= fexp 53 1024 b.
Proof. intros. rewrite !fexp_eq. lia. Qed.

Lemma SFmul_in_range x w :
  0 <= w <= 2 ^ 53 ->
  in_range x 0 1 ->
  in_range (SFmul 53 1024 x (binary_normalize 53 1024 w 0 false)) 0 w.
Proof.
  intros Hw Hx. pose proof (of_int_in_range w Hw) as Hy.
  assert (HS : 0 < 2 ^ 1200) by (apply pow2_pos; lia).
  destruct (binary_normalize 53 1024 w 0 false) as [sy| | |sy my ey];
    try contradiction;
    destruct x as [sx| | |sx mx ex]; try contradiction.
  - simpl. simpl in Hy. lia.
  - simpl. simpl in Hy. lia.
  - apply in_range_finite in Hy as (-> & Hcy & Hvy).
    assert (0 < fval (Zpos my) ey).
    { unfold fval. apply Z.mul_pos_pos; [lia|apply pow2_pos].
      destruct (canonical_facts _ _ Hcy). lia. }
    assert (0 < w).
    { destruct (Z.eq_dec w 0) as [->|]; [|lia]. simpl in Hvy. lia. }
    simpl. lia.
  - apply in_range_finite in Hy as (-> & Hcy & Hvy).
    apply in_range_finite in Hx as (-> & Hcx & Hvx).
    destruct (canonical_facts _ _ Hcx) as (Hex & _ & _).
    destruct (canonical_facts _ _ Hcy) as (Hey & _ & _).
    assert (Hposy : 0 < fval (Zpos my) ey).
    { unfold fval. apply Z.mul_pos_pos; [lia|apply pow2_pos; lia]. }
    assert (Hw1 : 1 <= w).
    { destruct (Z.le_gt_cases 1 w) as [|Hlt]; [assumption|exfalso].
      assert (w * 2 ^ 1200 <= 0) by (apply Z.mul_nonpos_nonneg; lia). lia. }
    assert (Hey' : -52 <= ey).
    { apply (canonical_ge_1 _ _ Hcy).
      assert (1 * 2 ^ 1200 <= w * 2 ^ 1200)
        by (apply Z.mul_le_mono_nonneg_r; lia). lia. }
    pose proof (canonical_normal _ _ Hcy ltac:(lia)) as Hdy.
    cbn [SFmul xorb]. rewrite Pos2Z.inj_mul.
    assert (Hval : fval (Zpos mx * Zpos my) (ex + ey) = fval (Zpos mx) ex * w).
    { destruct (fval_mul (Zpos mx) ex (Zpos my) ey ltac:(lia)) as [E|E]; [|lia].
      apply Z.mul_cancel_r with (2 ^ 1200); [lia|]. rewrite <- E.
      replace (fval (Zpos my) ey) with (w * 2 ^ 1200) by lia. ring. }
    apply binary_round_aux_in_range; try lia.
    + assert (Hd : Zdigits2 (Zpos mx) + 52 <= Zdigits2 (Zpos mx * Zpos my)).
      { rewrite !Zdigits2_log2 by lia.
        pose proof (Z.log2_mul_below (Zpos mx) (Zpos my) ltac:(lia) ltac:(lia)).
        rewrite Zdigits2_log2 in Hdy by lia. lia. }
      pose proof (Zdigits2_pos (Zpos mx) ltac:(lia)).
      rewrite fexp_eq. lia.
    + rewrite Hval. split; [apply Z.mul_nonneg_nonneg; lia|].
      rewrite (Z.mul_comm _ w). apply Z.mul_le_mono_nonneg_l; lia.
    + intros Hne. now contradiction Hne.
Qed.

Lemma new_location_0 n : new_location n 0 = loc_Exact.
Proof.
  unfold new_location, new_location_even, new_location_odd.
  destruct (Z.even n); reflexivity.
Qed.

Lemma pow2_shift_le q a b t :
  0 <= a -> 0 <= b -> 0 <= t ->
  q * 2 ^ (a + t) <= 2 ^ (b + t) <-> q * 2 ^ a <= 2 ^ b.
Proof.
  intros Ha Hb Ht. rewrite !pow2_add by lia. rewrite Z.mul_assoc.
  assert (0 < 2 ^ t) by (apply pow2_pos; lia).
  symmetry. apply Z.mul_le_mono_pos_r. assumption.
Qed.

Lemma pow2_shift_lt q a b t :
  0 <= a -> 0 <= b -> 0 <= t ->
  q * 2 ^ (a + t) < 2 ^ (b + t) <-> q * 2 ^ a < 2 ^ b.
Proof.
  intros Ha Hb Ht. rewrite !pow2_add by lia. rewrite Z.mul_assoc.
  assert (0 < 2 ^ t) by (apply pow2_pos; lia).
  symmetry. apply Z.mul_lt_mono_pos_r. assumption.
Qed.

Lemma SFdiv_in_range x n :
  1 <= n <= 2 ^ 53 ->
  in_range x 0 n ->
  in_range (SFdiv 53 1024 x (binary_normalize 53 1024 n 0 false)) 0 1.
Proof.
  intros Hn Hx. pose proof (of_int_in_range n ltac:(lia)) as Hy.
  assert (HS : 0 < 2 ^ 1200) by (apply pow2_pos; lia).
  destruct (binary_normalize 53 1024 n 0 false) as [sy| | |sy my ey];
    try contradiction; [simpl in Hy; lia|].
  apply in_range_finite in Hy as (-> & Hcy & Hvy).
  destruct x as [sx| | |sx mx ex]; try contradiction; [simpl; lia|].
  apply in_range_finite in Hx as (-> & Hcx & Hvx).
  destruct (canonical_facts _ _ Hcx) as (Hex & _ & _).
  destruct (canonical_facts _ _ Hcy) as (Hey & _ & _).
  assert (Hey' : -52 <= ey).
  { apply (canonical_ge_1 _ _ Hcy).
    assert (1 * 2 ^ 1200 <= n * 2 ^ 1200)
      by (apply Z.mul_le_mono_nonneg_r; lia). lia. }
  assert (Hey1 : ey <= 1).
  { destruct (Z.le_gt_cases ey 1) as [|Hgt]; [assumption|exfalso].
    pose proof (canonical_exp_lt (2 ^ 52) 1 (Zpos my) ey) as Hlt.
    assert (canonical (2 ^ 52) 1) by (split; reflexivity).
    specialize (Hlt ltac:(assumption) Hcy ltac:(lia)).
    assert (fval (2 ^ 52) 1 = 2 ^ 53 * 2 ^ 1200) by reflexivity.
    assert (n * 2 ^ 1200 <= 2 ^ 53 * 2 ^ 1200)
      by (apply Z.mul_le_mono_nonneg_r; lia).
    lia. }
  assert (Hle : fval (Zpos mx) ex <= fval (Zpos my) ey) by lia.
  cbn [SFdiv xorb]. unfold SFdiv_core_binary.
  set (d1 := Zdigits2 (Zpos mx)). set (d2 := Zdigits2 (Zpos my)).
  set (e' := Z.min (fexp 53 1024 (d1 + ex - (d2 + ey))) (ex - ey)).
  set (s := ex - ey - e').
  assert (Hs : 0 <= s) by (unfold s, e'; lia).
  assert (He' : -1076 <= e') by (unfold e'; rewrite fexp_eq; lia).
  set (m' := match s with Z0 => Zpos mx | Zpos _ => Z.shiftl (Zpos mx) s
                     | Zneg _ => 0 end).
  assert (Hm' : m' = Zpos mx * 2 ^ s).
  { unfold m'. destruct s as [|p|p] eqn:E; [simpl; lia| |lia].
    apply Z.shiftl_mul_pow2. lia. }
  assert (H2s : 0 < 2 ^ s) by (apply pow2_pos; lia).
  pose proof (Z_div_mod m' (Zpos my) ltac:(lia)) as Hdiv.
  destruct (Z.div_eucl m' (Zpos my)) as [q r]. destruct Hdiv as [Hdiv Hr].
  assert (Hq : 0 <= q) by nia.
  (* the quotient is at most 1 *)
  assert (Hm'v : fval m' (e' + ey) = fval (Zpos mx) ex).
  { rewrite Hm', fval_mul_pow2 by lia. f_equal. unfold s. lia. }
  assert (HT : 0 < 2 ^ (e' + ey + 1200)) by (apply pow2_pos; lia).
  assert (Hqv : q * 2 ^ (e' + ey + 1200) <= 2 ^ (ey + 1200)).
  { apply Z.mul_le_mono_pos_l with (Zpos my); [lia|].
    apply Z.le_trans with (fval m' (e' + ey)).
    - unfold fval. rewrite Z.mul_assoc. apply Z.mul_le_mono_nonneg_r; lia.
    - rewrite Hm'v. exact Hle. }
  assert (Hqs : r <> 0 -> q * 2 ^ (e' + ey + 1200) < 2 ^ (ey + 1200)).
  { intros Hr0. apply Z.mul_lt_mono_pos_l with (Zpos my); [lia|].
    apply Z.lt_le_trans with (fval m' (e' + ey)).
    - unfold fval. rewrite Z.mul_assoc. apply Z.mul_lt_mono_pos_r; lia.
    - rewrite Hm'v. exact Hle. }
  replace (e' + ey + 1200) with (e' + 1100 + (ey + 100)) in Hqv, Hqs by lia.
  replace (ey + 1200) with (1100 + (ey + 100)) in Hqv, Hqs by lia.
  rewrite pow2_shift_le in Hqv by lia.
  rewrite pow2_shift_lt in Hqs by lia.
  rewrite <- (pow2_shift_le q (e' + 1100) 1100 100) in Hqv by lia.
  rewrite <- (pow2_shift_lt q (e' + 1100) 1100 100) in Hqs by lia.
  replace (e' + 1100 + 100) with (e' + 1200) in Hqv, Hqs by lia.
  change (1100 + 100) with 1200 in Hqv, Hqs.
  apply binary_round_aux_in_range; try lia.
  - (* the quotient has the digits for the exponent *)
    assert (Hd : d1 + s - d2 <= Zdigits2 q).
    { pose proof (Zdigits2_nonneg q).
      destruct (Z.le_gt_cases (d1 + s - d2) 0) as [|Hpos]; [lia|].
      pose proof (Zdigits2_bounds (Zpos mx) ltac:(lia)) as [Hl1 _].
      pose proof (Zdigits2_bounds (Zpos my) ltac:(lia)) as [_ Hh2].
      fold d1 in Hl1. fold d2 in Hh2.
      pose proof (Zdigits2_pos (Zpos mx) ltac:(lia)) as Hd1. fold d1 in Hd1.
      pose proof (Zdigits2_pos (Zpos my) ltac:(lia)) as Hd2. fold d2 in Hd2.
      set (j := d1 + s - d2 - 1).
      assert (Hj : 0 <= j) by (unfold j; lia).
      assert (HJ : 0 < 2 ^ j) by (apply pow2_pos; lia).
      assert (Hqj : 2 ^ j <= q).
      { assert (2 ^ j * 2 ^ d2 <= m').
        { rewrite Hm', <- pow2_add by lia.
          replace (j + d2) with (d1 - 1 + s) by (unfold j; lia).
          rewrite pow2_add by lia. apply Z.mul_le_mono_nonneg_r; lia. }
        assert (2 ^ j * Zpos my < 2 ^ j * 2 ^ d2)
          by (apply Z.mul_lt_mono_pos_l; lia).
        destruct (Z.le_gt_cases (2 ^ j) q) as [|Hlt]; [assumption|exfalso].
        assert (q + 1 <= 2 ^ j) by lia.
        assert ((q + 1) * Zpos my <= 2 ^ j * Zpos my)
          by (apply Z.mul_le_mono_nonneg_r; lia).
        lia. }
      assert (j <= Z.log2 q).
      { rewrite <- (Z.log2_pow2 j Hj). apply Z.log2_le_mono. assumption. }
      rewrite Zdigits2_log2 by lia. unfold j in *. lia. }
    apply Z.le_trans with (fexp 53 1024 (d1 + ex - (d2 + ey))).
    + unfold e'. lia.
    + apply fexp_mono. unfold s in Hd. lia.
  - unfold fval. split; [apply Z.mul_nonneg_nonneg; [lia|]|lia].
    apply Z.lt_le_incl, pow2_pos. lia.
  - intros Hne. unfold fval. rewrite Z.mul_1_l. apply Hqs.
    intros ->. apply Hne. apply new_location_0.
Qed.

(** ** The laws of the bound in binary64 *)

Lemma fval_pos p e : -1200 <= e -> 0 < fval (Zpos p) e.
Proof. intros. unfold fval. apply Z.mul_pos_pos; [lia|apply pow2_pos; lia]. Qed.

(** Between 0 and an integer up to 2^53, as the comparison of binary64
    says it of a valid number, is [in_range]. *)
Lemma in_range_between (x : spec_float) n :
  0 <= n <= 2 ^ 53 -> in_range x 0 n ->
  valid_binary 53 1024 x = true /\ between_0_and (F := Binary64) x n.
Proof.
  intros Hn Hx. unfold between_0_and. cbn [fle of_int Binary64].
  pose proof (of_int_in_range n Hn) as Hy.
  assert (HS : 0 < 2 ^ 1200) by (apply pow2_pos; lia).
  change (binary_normalize 53 1024 0 0 false) with (S754_zero false).
  destruct x as [sx| | |sx mx ex]; try contradiction.
  - split; [reflexivity|]. split; [reflexivity|].
    destruct (binary_normalize 53 1024 n 0 false) as [sy| | |[] my ey];
      try contradiction; reflexivity.
  - destruct sx; [contradiction|]. destruct Hx as [Hb Hv].
    split; [exact Hb|]. split; [reflexivity|].
    pose proof (canonical_facts _ _ (bounded_canonical _ _ Hb)) as (He & _ & _).
    pose proof (fval_pos mx ex ltac:(lia)).
    destruct (binary_normalize 53 1024 n 0 false) as [sy| | |[] my ey];
      try contradiction.
    + simpl in Hy. assert (n * 2 ^ 1200 <= 0) by (apply Z.mul_nonpos_nonneg; lia).
      lia.
    + destruct Hy as [Hby Hvy]. apply SFleb_fval; [assumption|assumption|lia].
Qed.

Lemma between_in_range (x : spec_float) n :
  0 <= n <= 2 ^ 53 ->
  valid_binary 53 1024 x = true -> between_0_and (F := Binary64) x n ->
  in_range x 0 n.
Proof.
  intros Hn Hvalid [H0 H1]. cbn [fle of_int Binary64] in H0, H1.
  pose proof (of_int_in_range n Hn) as Hy.
  change (binary_normalize 53 1024 0 0 false) with (S754_zero false) in H0.
  destruct x as [sx|sx| |sx mx ex].
  - simpl. lia.
  - destruct sx; [discriminate H0|].
    destruct (binary_normalize 53 1024 n 0 false) as [sy| | |[] my ey];
      try contradiction; discriminate H1.
  - discriminate H0.
  - destruct sx; [discriminate H0|]. simpl in Hvalid.
    pose proof (canonical_facts _ _ (bounded_canonical _ _ Hvalid)) as (He & _ & _).
    pose proof (fval_pos mx ex ltac:(lia)).
    destruct (binary_normalize 53 1024 n 0 false) as [sy| | |[] my ey];
      try contradiction; [discriminate H1|].
    destruct Hy as [Hby Hvy]. apply SFleb_fval in H1; [|assumption|assumption].
    split; [assumption|]. lia.
Qed.

Lemma binary64_of_int_between a n :
  0 <= a <= n -> 0 <= n <= 2 ^ 53 ->
  valid_binary 53 1024 (of_int (PyFloat := Binary64) a) = true /\
  between_0_and (F := Binary64) (of_int a) n.
Proof.
  intros Ha Hn. apply in_range_between; [assumption|].
  apply (in_range_weaken _ a a); [lia|lia|]. apply of_int_in_range. lia.
Qed.

Lemma binary64_fadd_between (x y : spec_float) n m :
  0 <= n -> 0 <= m -> 0 <= n + m <= 2 ^ 53 ->
  valid_binary 53 1024 x = true -> valid_binary 53 1024 y = true ->
  between_0_and (F := Binary64) x n -> between_0_and (F := Binary64) y m ->
  valid_binary 53 1024 (fadd (PyFloat := Binary64) x y) = true /\
  between_0_and (F := Binary64) (fadd (PyFloat := Binary64) x y) (n + m).
Proof.
  intros Hn Hm Hnm Hvx Hvy Hx Hy. apply in_range_between; [assumption|].
  apply SFadd_in_range; try lia; apply between_in_range; (assumption || lia).
Qed.

Lemma binary64_fmul_between (x : spec_float) w :
  0 <= w -> 0 <= w <= 2 ^ 53 ->
  valid_binary 53 1024 x = true -> between_0_and (F := Binary64) x 1 ->
  valid_binary 53 1024 (fmul (PyFloat := Binary64) x (of_int w)) = true /\
  between_0_and (F := Binary64) (fmul (PyFloat := Binary64) x (of_int w)) w.
Proof.
  intros _ Hw Hvx Hx. apply in_range_between; [assumption|].
  apply SFmul_in_range; [assumption|].
  apply between_in_range; [lia|assumption|assumption].
Qed.

Lemma binary64_fdiv_between (x : spec_float) n :
  0 < n -> 0 <= n <= 2 ^ 53 ->
  valid_binary 53 1024 x = true -> between_0_and (F := Binary64) x n ->
  valid_binary 53 1024 (fdiv (PyFloat := Binary64) x (of_int n)) = true /\
  between_0_and (F := Binary64) (fdiv (PyFloat := Binary64) x (of_int n)) 1.
Proof.
  intros Hn0 Hn Hvx Hx. apply in_range_between; [lia|].
  apply SFdiv_in_range; [lia|].
  apply between_in_range; [lia|assumption|assumption].
Qed.

(** Binary64 has the laws: an integer is exact up to 2^53, and the
    numbers are the valid ones. *)
Lemma Binary64_laws : FloatLaws Binary64.
Proof.
  refine {| exact_int := fun n => 0 <= n <= 2 ^ 53;
            number := fun x : @float Binary64 => valid_binary 53 1024 x = true |}.
  - lia.
  - intros a b Hab Hb. lia.
  - exact binary64_of_int_between.
  - intros x y n m Hn Hm. exact (binary64_fadd_between x y n m Hn Hm).
  - exact binary64_fmul_between.
  - exact binary64_fdiv_between.
Defined.

(* ===================================================================== *)
(** * Training and scoring *)
(* ===================================================================== *)

Lemma or_raise_some {A} (o : option A) k msg (a : A) (fs : FS) :
  o = Some a -> or_raise o k msg fs = Ok a fs.
Proof. intros ->. reflexivity. Qed.

Lemma or_raise_inv {A} (o : option A) k msg (a : A) (fs fs' : FS) :
  or_raise o k msg fs = Ok a fs' -> o = Some a /\ fs' = fs.
Proof. destruct o; simpl; [|discriminate]. intros [= <- <-]. auto. Qed.

Lemma read_inv dir name c (fs fs' : FS) :
  Os.read dir name fs = Ok c fs' -> Os.file_at dir name fs = Some c /\ fs' = fs.
Proof.
  unfold Os.read. destruct (Os.file_at dir name fs); [|discriminate].
  intros [= <- <-]. auto.
Qed.

Lemma write_inv dir name content (fs fs' : FS) :
  Os.write dir name content fs = Ok tt fs' ->
  exists d, fs !! dir = Some d /\ fs' = <[dir := Dir.write name content d]> fs.
Proof.
  unfold Os.write. destruct (fs !! dir) as [d|]; [|discriminate].
  intros [= <-]. eauto.
Qed.

(** Taking a step of a run apart. *)
Lemma bind_inv {A B} (m : Py A) (k : A -> Py B) (fs fs' : FS) b :
  (m ≫= k) fs = Ok b fs' ->
  exists a fs1, m fs = Ok a fs1 /\ k a fs1 = Ok b fs'.
Proof.
  rewrite bind_run. destruct (m fs) as [a fs1| |]; try discriminate. eauto.
Qed.

Lemma as_labels_binary (y : list cell) :
  List.Forall (fun c => c = Num 0 \/ c = Num 1) y ->
  exists labels, Sk.as_labels y = Some labels /\ List.length labels = List.length y.
Proof.
  induction 1 as [|c y Hc _ (labels & IH & Hlen)]; simpl; [eauto|].
  destruct Hc as [-> | ->]; rewrite IH; eexists; split; try reflexivity; simpl; lia.
Qed.

Lemma column_length label df y :
  Pd.column label df = Some y -> List.length y = List.length (Pd.rows df).
Proof.
  unfold Pd.column. destruct (PyStr.elem label (Pd.columns df)); [|discriminate].
  intros [= <-]. apply List.length_map.
Qed.

Lemma drop_length labels df x :
  Pd.drop labels df = Some x -> List.length (Pd.rows x) = List.length (Pd.rows df).
Proof.
  unfold Pd.drop. destruct (forallb _ labels); [|discriminate].
  intros [= <-]. apply List.length_map.
Qed.

Section ScoringFacts.
Context `{F : PyFloat} `{L : Libs}.

Lemma load_model_inv (self self' : ModelScorer) (fs fs' : FS) :
  load_model self fs = Ok self' fs' ->
  fs' = fs /\ ms_model_path self' = ms_model_path self /\
  ms_test_data_path self' = ms_test_data_path self /\
  exists bytes m,
    Os.file_at (ms_model_path self) "trainedmodel.pkl" fs = Some bytes /\
    pickle_load bytes = Some m.
Proof.
  unfold load_model. intros H.
  apply bind_inv in H as (bytes & fs1 & Hr & H). apply read_inv in Hr as [Hr ->].
  apply bind_inv in H as (m & fs2 & Hp & H). apply or_raise_inv in Hp as [Hp ->].
  injection H as <- <-. eauto 10.
Qed.

Lemma load_test_data_inv (self self' : ModelScorer) (fs fs' : FS) :
  load_test_data self fs = Ok self' fs' ->
  fs' = fs /\ ms_model_path self' = ms_model_path self.
Proof.
  unfold load_test_data. intros H.
  apply bind_inv in H as (df & fs1 & Hr & H).
  apply pd_read_csv_inv in Hr as [-> _]. injection H as <- <-. auto.
Qed.

(** What a returning [score_model] has done: one file written, holding
    the text of the value returned. *)
Lemma score_model_inv (self : ModelScorer) (fs fs' : FS) f1 :
  score_model self fs = Ok f1 fs' ->
  exists d, fs !! ms_model_path self = Some d /\
            fs' = <[ms_model_path self := Dir.write "latestscore.txt" (str f1) d]> fs.
Proof.
  unfold score_model.
  destruct (ms_model self) as [m|]; [|discriminate].
  destruct (ms_test_data self) as [td|]; [|discriminate].
  intros H.
  apply bind_inv in H as (x & fs1 & H1 & H). apply or_raise_inv in H1 as [_ ->].
  apply bind_inv in H as (y & fs1 & H1 & H). apply or_raise_inv in H1 as [_ ->].
  apply bind_inv in H as (p & fs1 & H1 & H). apply or_raise_inv in H1 as [_ ->].
  apply bind_inv in H as (s & fs1 & H1 & H). apply or_raise_inv in H1 as [_ ->].
  apply bind_inv in H as ([] & fs1 & Hw & H). injection H as <- <-.
  now apply write_inv.
Qed.

Lemma score_model_run (self : ModelScorer) (fs : FS)
      m test_data x_test y_test y_pred f1 dout :
  ms_model self = Some m ->
  ms_test_data self = Some test_data ->
  Pd.drop ("corporation" :: "exited" :: nil) test_data = Some x_test ->
  Pd.column "exited" test_data = Some y_test ->
  predict m x_test = Some y_pred ->
  Sk.f1_score y_test y_pred = Some f1 ->
  fs !! ms_model_path self = Some dout ->
  score_model self fs
  = Ok f1 (<[ms_model_path self := Dir.write "latestscore.txt" (str f1) dout]> fs).
Proof.
  intros Hm Htd Hx Hy Hp Hf Hd. unfold score_model. rewrite Hm, Htd.
  rewrite (bind_ok _ _ _ _ _ (or_raise_some _ _ _ _ fs Hx)).
  rewrite (bind_ok _ _ _ _ _ (or_raise_some _ _ _ _ fs Hy)).
  rewrite (bind_ok _ _ _ _ _ (or_raise_some _ _ _ _ fs Hp)).
  rewrite (bind_ok _ _ _ _ _ (or_raise_some _ _ _ _ fs Hf)).
  rewrite (bind_ok _ _ _ _ _ (write_ok _ _ _ _ _ Hd)). reflexivity.
Qed.

End ScoringFacts.

Section ScoringClaims.
Context `{F : PyFloat} {Laws : FloatLaws F} `{L : Libs}.

(** C7.  With a model and a test set loaded, the test set not empty, its
    columns [corporation] and [exited] there and [exited] holding 0 and 1
    only, the model predicting for every row, and the folder of the model
    there, [score_model] returns the weighted F1 score of the outcome
    column and the predictions, [Sk.f1_score y_test y_pred]; that score
    satisfies [0.0 <= f1 <= 1.0], in any arithmetic with the laws
    [FloatLaws] in which twice the number of samples is an exact integer,
    as in binary64 up to 2^52 samples ([Binary64_laws]); and
    [latestscore.txt] holds [str] of the value returned, every other file
    as before. *)
Theorem score_model_range (self : ModelScorer) (fs : FS)
        m test_data x_test y_test y_pred dout :
  ms_model self = Some m ->
  ms_test_data self = Some test_data ->
  Pd.rows test_data <> nil ->
  Pd.drop ("corporation" :: "exited" :: nil) test_data = Some x_test ->
  Pd.column "exited" test_data = Some y_test ->
  List.Forall (fun c => c = Num 0 \/ c = Num 1) y_test ->
  predict m x_test = Some y_pred ->
  List.length y_pred = List.length (Pd.rows x_test) ->
  exact_int (2 * Z.of_nat (List.length y_pred)) ->
  fs !! ms_model_path self = Some dout ->
  exists (f1 : float) (fs' : FS),
    Sk.f1_score y_test y_pred = Some f1 /\
    score_model self fs = Ok f1 fs' /\
    fle (of_int 0) f1 = true /\
    fle f1 (of_int 1) = true /\
    Os.file_at (ms_model_path self) "latestscore.txt" fs' = Some (str f1) /\
    (forall dir name,
       dir <> ms_model_path self \/ name <> "latestscore.txt" ->
       Os.file_at dir name fs' = Os.file_at dir name fs).
Proof.
  intros Hm Htd _ Hx Hy Hbin Hp Hlen Hexact Hd.
  destruct (as_labels_binary y_test Hbin) as (labels & Hlab & Hlablen).
  assert (Hsame : List.length labels = List.length y_pred).
  { rewrite Hlablen, Hlen, (column_length _ _ _ Hy), (drop_length _ _ _ Hx).
    reflexivity. }
  assert (Hf : exists f1, Sk.f1_score y_test y_pred = Some f1).
  { unfold Sk.f1_score. rewrite Hlab.
    apply Nat.eqb_eq in Hsame. rewrite Hsame. eauto. }
  destruct Hf as [f1 Hf].
  destruct (f1_score_between y_test y_pred f1 Hexact Hf) as [H0 H1].
  exists f1. eexists. split; [exact Hf|]. split.
  { apply (score_model_run self fs m test_data x_test y_test y_pred f1 dout);
      assumption. }
  split; [exact H0|]. split; [exact H1|]. split.
  - apply file_at_write_eq.
  - intros dir name Hne. apply file_at_write_other; [assumption|].
    destruct Hne as [Hne|Hne]; [left|right]; congruence.
Qed.

End ScoringClaims.

(** C7 needs the column [corporation]: a model is loaded, the test set has
    rows and a binary outcome column, but no column [corporation];
    [score_model] raises the [KeyError] of [drop], and no score is
    written. *)
Lemma score_model_without_corporation :
  ms_model Cases.scorer_without_corporation = Some 50 /\
  ms_test_data Cases.scorer_without_corporation = Some Cases.no_corporation /\
  Pd.rows Cases.no_corporation = (Num 70 :: Num 1 :: nil) :: (Num 5 :: Num 0 :: nil) :: nil /\
  Pd.column "exited" Cases.no_corporation = Some (Num 1 :: Num 0 :: nil) /\
  score_model (F := Binary64) Cases.scorer_without_corporation Run.fresh
  = Raise (Exn KeyError "['corporation', 'exited'] not found in axis") Run.fresh /\
  Os.file_at "ingesteddata" "latestscore.txt" Run.fresh = None.
Proof. repeat split; vm_compute; reflexivity. Qed.

(* ===================================================================== *)
(** * The automation driver *)
(* ===================================================================== *)

Lemma elem_In x l : PyStr.elem x l = true <-> In x l.
Proof.
  unfold PyStr.elem. rewrite existsb_exists. split.
  - intros (y & Hy & E). apply String.eqb_eq in E. now subst.
  - intros H. exists x. split; [assumption|apply String.eqb_refl].
Qed.

(** No new file: every name of the source folder is a line of the manifest. *)
Lemma new_files_nil source_files ingested_files_list :
  (forall name, In name source_files -> In name ingested_files_list) ->
  new_files source_files ingested_files_list = nil.
Proof.
  intros H. unfold new_files.
  induction source_files as [|n l IH]; simpl; [reflexivity|].
  replace (PyStr.elem n ingested_files_list) with true
    by (symmetry; apply elem_In, H; now left).
  simpl. apply IH. intros name Hn. apply H. now right.
Qed.

Section DriverFacts.
Context `{F : PyFloat} `{L : Libs}.

Lemma read_ingested_files_list_run (config : Config) (fs : FS) :
  read_ingested_files_list config fs = Ok (ingested_lines config fs) fs.
Proof.
  unfold read_ingested_files_list, ingested_lines.
  rewrite bind_run, exists_run. unfold Os.path_exists.
  destruct (Os.file_at _ _ fs) as [text|] eqn:E; [|reflexivity].
  rewrite (bind_ok _ _ _ _ _ (read_ok _ _ _ _ E)). reflexivity.
Qed.

(** Copying forward returns and touches the source folder only. *)
Lemma copy_forward_run (config : Config) files (fs : FS) :
  exists fs', copy_forward config files fs = Ok tt fs' /\
              forall dir, dir <> input_folder_path config -> fs' !! dir = fs !! dir.
Proof.
  revert fs. induction files as [|file files IH]; intros fs; simpl.
  - exists fs. auto.
  - rewrite bind_run, exists_run.
    assert (Hstep : exists fs1,
               (if Os.path_exists (base_data_path config) file fs
                then cp (base_data_path config) file (input_folder_path config)
                else mret tt) fs = Ok tt fs1 /\
               forall dir, dir <> input_folder_path config -> fs1 !! dir = fs !! dir).
    { destruct (Os.path_exists _ file fs); [|exists fs; auto].
      unfold cp. destruct (fs !! base_data_path config) as [b|]; [|exists fs; auto].
      destruct (fs !! input_folder_path config) as [d|]; [|exists fs; auto].
      destruct (Dir.lookup file b) as [c|]; [|exists fs; auto].
      eexists. split; [reflexivity|]. intros dir Hne.
      apply lookup_insert_ne. congruence. }
    destruct Hstep as (fs1 & Hstep & Hframe1).
    rewrite (bind_ok _ _ _ _ _ Hstep).
    destruct (IH fs1) as (fs' & Hrun & Hframe).
    exists fs'. split; [exact Hrun|]. intros dir Hne.
    now rewrite Hframe, Hframe1.
Qed.

Lemma merge_writes_manifest (self : DataIngestion) (fs fs' : FS) :
  merge_multiple_dataframe self fs = Ok tt fs' ->
  (exists text, Os.file_at (di_output_folder_path self) "ingestedfiles.txt" fs'
                = Some text) /\
  (forall dir, dir <> di_output_folder_path self -> fs' !! dir = fs !! dir).
Proof.
  intros Hrun.
  destruct (merge_inv self fs fs' Hrun) as (d & fs_a & dfs & Hd & Hw & Hdfs).
  rewrite (merge_steps self fs fs_a d dfs Hd Hw Hdfs) in Hrun.
  apply write_inv in Hw as (dout & Hout & ->).
  destruct (Pd.concat dfs) as [m|].
  - apply write_inv in Hrun as (d1 & Hd1 & ->). split.
    + eexists. rewrite file_at_write_other; [apply file_at_write_eq|exact Hd1|].
      right. discriminate.
    + intros dir Hne. rewrite !lookup_insert_ne by congruence. reflexivity.
  - injection Hrun as <-. split.
    + eexists. apply file_at_write_eq.
    + intros dir Hne. rewrite lookup_insert_ne by congruence. reflexivity.
Qed.

Lemma train_inv (self : ModelTrainer) (fs fs' : FS) :
  train self fs = Ok tt fs' ->
  exists d m, fs !! mt_output_model_path self = Some d /\
    fs' = <[mt_output_model_path self
            := Dir.write "trainedmodel.pkl" (pickle_dump m) d]> fs.
Proof.
  unfold train. intros H.
  apply bind_inv in H as (data & fs1 & H1 & H). apply pd_read_csv_inv in H1 as [-> _].
  apply bind_inv in H as (x & fs1 & H1 & H). apply or_raise_inv in H1 as [_ ->].
  apply bind_inv in H as (y & fs1 & H1 & H). apply or_raise_inv in H1 as [_ ->].
  apply bind_inv in H as ([[[x_train x_test] y_train] y_test] & fs1 & H1 & H).
  apply or_raise_inv in H1 as [_ ->].
  apply bind_inv in H as (m & fs1 & H1 & H). apply or_raise_inv in H1 as [_ ->].
  apply write_inv in H as (d & Hd & ->). eauto.
Qed.


(** No new file: the first part of the script leaves at once. *)
Lemma proceed_exits (config : Config) (fs : FS) d :
  fs !! input_folder_path config = Some d ->
  (forall name, In name (Dir.names d) -> In name (ingested_lines config fs)) ->
  proceed_with_new_data config fs = Exit fs.
Proof.
  intros Hd Hsub. unfold proceed_with_new_data.
  rewrite (bind_ok _ _ _ _ _ (read_ingested_files_list_run config fs)).
  rewrite bind_run. unfold Os.listdir at 1. rewrite Hd.
  now rewrite (new_files_nil _ _ Hsub).
Qed.

(** New files: when the first part returns, the output folder holds a
    manifest, and only the source and output folders were written to. *)
Lemma proceed_inv (config : Config) (fs fs_r : FS) :
  proceed_with_new_data config fs = Ok tt fs_r ->
  (exists text, Os.file_at (output_folder_path config) "ingestedfiles.txt" fs_r
                = Some text) /\
  (forall dir, dir <> input_folder_path config ->
               dir <> output_folder_path config -> fs_r !! dir = fs !! dir).
Proof.
  unfold proceed_with_new_data. intros H.
  rewrite (bind_ok _ _ _ _ _ (read_ingested_files_list_run config fs)) in H.
  apply bind_inv in H as (source_files & fs1 & Hl & H).
  unfold Os.listdir in Hl.
  destruct (fs !! input_folder_path config) as [d|]; [|discriminate].
  injection Hl as <- <-.
  destruct (new_files (Dir.names d) (ingested_lines config fs)); [discriminate|].
  destruct (copy_forward_run config (ingested_lines config fs) fs)
    as (fs_c & Hc & Hframe_c).
  rewrite (bind_ok _ _ _ _ _ Hc) in H.
  apply bind_inv in H as ([] & fs_m & Hm & Ht).
  apply merge_writes_manifest in Hm as [[text Hman] Hframe_m].
  apply train_inv in Ht as (dm & m & Hdm & ->).
  cbn [di_output_folder_path mt_output_model_path] in *. split.
  - exists text. rewrite file_at_write_other; [exact Hman|exact Hdm|].
    right. discriminate.
  - intros dir Hin Hout. rewrite lookup_insert_ne by congruence.
    rewrite Hframe_m, Hframe_c by assumption. reflexivity.
Qed.

Lemma read_base_model_score_absent (config : Config) (fs : FS) :
  Os.file_at (prod_deployment_path config) "latestscore.txt" fs = None ->
  read_base_model_score config fs = Ok (of_int 0) fs.
Proof.
  intros H. unfold read_base_model_score. rewrite bind_run, exists_run.
  unfold Os.path_exists. now rewrite H.
Qed.

Lemma read_base_model_score_inv (config : Config) (fs fs' : FS) base :
  read_base_model_score config fs = Ok base fs' -> fs' = fs.
Proof.
  unfold read_base_model_score. rewrite bind_run, exists_run.
  destruct (Os.path_exists _ _ fs).
  - intros H. apply bind_inv in H as (text & fs1 & Hr & H).
    apply read_inv in Hr as [_ ->]. now apply or_raise_inv in H as [_ ->].
  - intros [= <- <-]. reflexivity.
Qed.

(** A returning scoring run found a model file that unpickles in the
    output folder and wrote the score there. *)
Lemma score_new_model_inv (config : Config) (fs fs' : FS) new_score :
  score_new_model config fs = Ok new_score fs' ->
  (exists bytes m,
     Os.file_at (output_folder_path config) "trainedmodel.pkl" fs = Some bytes /\
     pickle_load bytes = Some m) /\
  exists d, fs !! output_folder_path config = Some d /\
    fs' = <[output_folder_path config
            := Dir.write "latestscore.txt" (str new_score) d]> fs.
Proof.
  unfold score_new_model. intros H.
  apply bind_inv in H as (s1 & fs1 & H1 & H).
  apply load_model_inv in H1 as (-> & Hp1 & _ & Hmodel).
  apply bind_inv in H as (s2 & fs2 & H2 & H).
  apply load_test_data_inv in H2 as (-> & Hp2).
  apply score_model_inv in H as (d & Hd & ->).
  rewrite Hp2, Hp1 in *. cbn [new_ModelScorer ms_model_path] in *.
  split; [exact Hmodel|eauto].
Qed.

(** The drift check, once both scores are there. *)
Lemma check_model_drift_run (config : Config) (fs fs_s : FS) base new_score :
  read_base_model_score config fs = Ok base fs ->
  score_new_model config fs = Ok new_score fs_s ->
  check_model_drift config fs =
  if negb (feq new_score base) then
    (deploy_model {| md_output_folder_path := output_folder_path config;
                     md_prod_deployment_path := prod_deployment_path config |};;
     os_system_apicalls) fs_s
  else Exit fs_s.
Proof.
  intros Hb Hs. unfold check_model_drift.
  rewrite (bind_ok _ _ _ _ _ Hb), (bind_ok _ _ _ _ _ Hs).
  destruct (feq new_score base); reflexivity.
Qed.

(** The whole script from the point where the new model has been scored:
    unequal scores deploy the three files of the output folder and go on
    to the API calls, equal scores leave with nothing written since. *)
Lemma fullprocess_after_scoring (config : Config) (fs fs_r fs_s : FS)
      base new_score :
  proceed_with_new_data config fs = Ok tt fs_r ->
  read_base_model_score config fs_r = Ok base fs_r ->
  score_new_model config fs_r = Ok new_score fs_s ->
  (feq new_score base = true -> fullprocess config fs = Exit fs_s) /\
  (feq new_score base = false ->
   exists fs_d bytes m manifest,
     deploy_model {| md_output_folder_path := output_folder_path config;
                     md_prod_deployment_path := prod_deployment_path config |}
                  fs_s = Ok tt fs_d /\
     fullprocess config fs = Ok tt (run_apicalls fs_d) /\
     Os.file_at (output_folder_path config) "trainedmodel.pkl" fs_s = Some bytes /\
     pickle_load bytes = Some m /\
     Os.file_at (output_folder_path config) "ingestedfiles.txt" fs_s
       = Some manifest /\
     Os.file_at (prod_deployment_path config) "trainedmodel.pkl" fs_d
       = Some (pickle_dump m) /\
     Os.file_at (prod_deployment_path config) "latestscore.txt" fs_d
       = Some (str new_score) /\
     Os.file_at (prod_deployment_path config) "ingestedfiles.txt" fs_d
       = Some manifest).
Proof.
  intros Hp Hb Hs.
  pose proof (check_model_drift_run config fs_r fs_s base new_score Hb Hs) as Hdrift.
  unfold fullprocess. rewrite (bind_ok _ _ _ _ _ Hp), Hdrift. split.
  - intros ->. reflexivity.
  - intros ->. cbn [negb].
    apply proceed_inv in Hp as [[manifest Hman] _].
    apply score_new_model_inv in Hs as [(bytes & m & Hbytes & Hload) (d & Hd & ->)].
    set (deployment := {| md_output_folder_path := output_folder_path config;
                          md_prod_deployment_path := prod_deployment_path config |}).
    set (fs_s := <[output_folder_path config
                   := Dir.write "latestscore.txt" (str new_score) d]> fs_r).
    assert (H1 : Os.file_at (md_output_folder_path deployment) "trainedmodel.pkl" fs_s
                 = Some bytes).
    { unfold fs_s. rewrite file_at_write_other; [exact Hbytes|exact Hd|].
      right. discriminate. }
    assert (H2 : Os.file_at (md_output_folder_path deployment) "latestscore.txt" fs_s
                 = Some (str new_score)) by apply file_at_write_eq.
    assert (H3 : Os.file_at (md_output_folder_path deployment) "ingestedfiles.txt" fs_s
                 = Some manifest).
    { unfold fs_s. rewrite file_at_write_other; [exact Hman|exact Hd|].
      right. discriminate. }
    destruct (deploy_model_copies deployment fs_s _ _ _ _ H1 H2 H3 Hload)
      as (fs_d & Hdep & Hpm & Hps & Hpi & _).
    exists fs_d, bytes, m, manifest.
    rewrite (bind_ok _ _ _ _ _ Hdep). unfold os_system_apicalls.
    repeat split; assumption.
Qed.

End DriverFacts.

Section DriverClaims.
Context `{F : PyFloat} `{L : Libs}.

(** C1.  Once the script has ingested, trained and scored: with a new
    score unequal to the deployed one ([!=] of floats, no tolerance)
    [deploy_model] runs and returns, and the production path holds the
    model, the score and the manifest of the output folder; with equal
    scores the script exits in the state scoring left, and a production
    path that is neither the source nor the output folder is as it was
    when the script started. *)
Theorem drift_check_redeploys (config : Config) (fs fs_r fs_s : FS)
        base new_score :
  proceed_with_new_data config fs = Ok tt fs_r ->
  read_base_model_score config fs_r = Ok base fs_r ->
  score_new_model config fs_r = Ok new_score fs_s ->
  (negb (feq new_score base) = true ->
   exists fs_d model_file m manifest,
     deploy_model {| md_output_folder_path := output_folder_path config;
                     md_prod_deployment_path := prod_deployment_path config |}
                  fs_s = Ok tt fs_d /\
     fullprocess config fs = Ok tt (run_apicalls fs_d) /\
     Os.file_at (output_folder_path config) "trainedmodel.pkl" fs_s
       = Some model_file /\
     pickle_load model_file = Some m /\
     Os.file_at (output_folder_path config) "ingestedfiles.txt" fs_s
       = Some manifest /\
     Os.file_at (prod_deployment_path config) "trainedmodel.pkl" fs_d
       = Some (pickle_dump m) /\
     Os.file_at (prod_deployment_path config) "latestscore.txt" fs_d
       = Some (str new_score) /\
     Os.file_at (prod_deployment_path config) "ingestedfiles.txt" fs_d
       = Some manifest) /\
  (negb (feq new_score base) = false ->
   fullprocess config fs = Exit fs_s /\
   (prod_deployment_path config <> input_folder_path config ->
    prod_deployment_path config <> output_folder_path config ->
    fs_s !! prod_deployment_path config = fs !! prod_deployment_path config)).
Proof.
  intros Hp Hb Hs.
  destruct (fullprocess_after_scoring config fs fs_r fs_s base new_score Hp Hb Hs)
    as [Heq Hne].
  split.
  - intros Hdiff. apply negb_true_iff in Hdiff. now apply Hne.
  - intros Hsame. apply negb_false_iff in Hsame. split; [now apply Heq|].
    intros Hin Hout.
    apply proceed_inv in Hp as [_ Hframe].
    apply score_new_model_inv in Hs as [_ (d & Hd & ->)].
    rewrite lookup_insert_ne by congruence. now apply Hframe.
Qed.

(** C5.  When every name in the source folder is a line of the manifest
    of the production path, the script exits at once, in the file system
    it started from: nothing ingested, trained, scored or deployed. *)
Theorem no_new_files_exit (config : Config) (fs : FS) d :
  fs !! input_folder_path config = Some d ->
  (forall name, In name (Dir.names d) -> In name (ingested_lines config fs)) ->
  fullprocess config fs = Exit fs.
Proof.
  intros Hd Hsub. unfold fullprocess.
  apply bind_exit. now apply (proceed_exits config fs d).
Qed.

(** C9.  Without [latestscore.txt] in the production path the base score
    is 0.0: a new score that is not equal to 0.0 is deployed, a new score
    equal to 0.0 makes the script exit, and the production path still has
    no score file when it is not the output folder. *)
Theorem missing_base_score_is_zero (config : Config) (fs fs_r fs_s : FS)
        new_score :
  proceed_with_new_data config fs = Ok tt fs_r ->
  Os.file_at (prod_deployment_path config) "latestscore.txt" fs_r = None ->
  score_new_model config fs_r = Ok new_score fs_s ->
  read_base_model_score config fs_r = Ok (of_int 0) fs_r /\
  (feq new_score (of_int 0) = false ->
   exists fs_d,
     deploy_model {| md_output_folder_path := output_folder_path config;
                     md_prod_deployment_path := prod_deployment_path config |}
                  fs_s = Ok tt fs_d /\
     fullprocess config fs = Ok tt (run_apicalls fs_d) /\
     Os.file_at (prod_deployment_path config) "latestscore.txt" fs_d
       = Some (str new_score)) /\
  (feq new_score (of_int 0) = true ->
   fullprocess config fs = Exit fs_s /\
   (prod_deployment_path config <> output_folder_path config ->
    Os.file_at (prod_deployment_path config) "latestscore.txt" fs_s = None)).
Proof.
  intros Hp Habsent Hs.
  pose proof (read_base_model_score_absent config fs_r Habsent) as Hb.
  destruct (fullprocess_after_scoring config fs fs_r fs_s (of_int 0) new_score Hp Hb Hs)
    as [Heq Hne].
  split; [exact Hb|]. split.
  - intros Hdiff. destruct (Hne Hdiff) as (fs_d & ? & ? & ? & Hdep & Hfull & _ & _ & _ & _ & Hscore & _).
    eauto.
  - intros Hsame. split; [now apply Heq|]. intros Hout.
    apply score_new_model_inv in Hs as [_ (d & Hd & ->)].
    rewrite file_at_insert_ne by congruence. exact Habsent.
Qed.

End DriverClaims.

Section DeploymentClaims.
Context `{L : Libs}.

(** The three staging files are there and the model file is no pickle:
    the call raises before it has written a file. *)
Lemma deploy_model_bad_pickle (self : ModelDeployment) (fs : FS)
      model_file latest_score ingest_files :
  Os.file_at (md_output_folder_path self) "trainedmodel.pkl" fs = Some model_file ->
  Os.file_at (md_output_folder_path self) "latestscore.txt" fs = Some latest_score ->
  Os.file_at (md_output_folder_path self) "ingestedfiles.txt" fs = Some ingest_files ->
  pickle_load model_file = None ->
  exists msg fs0,
    deploy_model self fs = Raise (Exn UnpicklingError msg) fs0 /\
    forall dir name, Os.file_at dir name fs0 = Os.file_at dir name fs.
Proof.
  intros H1 H2 H3 Hp. unfold deploy_model.
  set (out := md_output_folder_path self) in *.
  set (prod := md_prod_deployment_path self) in *.
  rewrite bind_run, exists_run.
  replace (Os.path_exists out "trainedmodel.pkl" fs) with true
    by (symmetry; apply path_exists_true; eauto).
  simpl. rewrite bind_run, exists_run.
  replace (Os.path_exists out "latestscore.txt" fs) with true
    by (symmetry; apply path_exists_true; eauto).
  simpl. rewrite bind_run, exists_run.
  replace (Os.path_exists out "ingestedfiles.txt" fs) with true
    by (symmetry; apply path_exists_true; eauto).
  simpl.
  destruct (makedirs_run prod fs) as (d0 & fs0 & Hmk & _ & _ & Hf0).
  rewrite (bind_ok _ _ _ _ _ Hmk).
  rewrite (bind_ok _ _ _ _ _ (read_ok _ _ _ _ (eq_trans (Hf0 _ _) H1))).
  rewrite Hp. eexists _, fs0. split; [reflexivity|exact Hf0].
Qed.


End DeploymentClaims.


(* ===================================================================== *)
(** * The view functions *)
(* ===================================================================== *)

Lemma never_exits_ret {A} (a : A) : never_exits (mret a : Py A).
Proof. intros fs fs'. discriminate. Qed.

Lemma never_exits_raise {A} k msg : never_exits (raise k msg : Py A).
Proof. intros fs fs'. discriminate. Qed.

Lemma never_exits_bind {A B} (m : Py A) (k : A -> Py B) :
  never_exits m -> (forall a, never_exits (k a)) -> never_exits (m ≫= k).
Proof.
  intros Hm Hk fs fs'. rewrite bind_run.
  destruct (m fs) as [a fs1|e fs1|fs1] eqn:E; [apply Hk|discriminate|].
  now apply Hm in E.
Qed.

Lemma never_exits_or_raise {A} (o : option A) k msg : never_exits (or_raise o k msg).
Proof. destruct o; [apply never_exits_ret|apply never_exits_raise]. Qed.

Lemma never_exits_exists dir name : never_exits (Os.exists_ dir name).
Proof. intros fs fs'. discriminate. Qed.

Lemma never_exits_listdir dir : never_exits (Os.listdir dir).
Proof. intros fs fs'. unfold Os.listdir. destruct (fs !! dir); discriminate. Qed.

Lemma never_exits_read dir name : never_exits (Os.read dir name).
Proof. intros fs fs'. unfold Os.read. destruct (Os.file_at dir name fs); discriminate. Qed.

Lemma never_exits_write dir name content : never_exits (Os.write dir name content).
Proof. intros fs fs'. unfold Os.write. destruct (fs !! dir); discriminate. Qed.

Lemma never_exits_makedirs dir : never_exits (Os.makedirs dir).
Proof. intros fs fs'. unfold Os.makedirs. destruct (fs !! dir); discriminate. Qed.

Create HintDb no_exit.
#[export] Hint Resolve never_exits_ret never_exits_raise never_exits_or_raise
  never_exits_exists never_exits_listdir never_exits_read never_exits_write
  never_exits_makedirs : no_exit.

(** Goes through a body of binds, matches and tests. *)
Ltac no_exit :=
  repeat first
    [ apply never_exits_bind; [|intros]
    | solve [auto with no_exit]
    | match goal with
      | |- never_exits (match ?x with _ => _ end) => destruct x
      | |- never_exits (let '(_, _) := ?x in _) => destruct x
      end ].

Section AppFacts.
Context `{F : PyFloat} `{L : Libs}.

Lemma never_exits_pd_read_csv dir name : never_exits (pd_read_csv dir name).
Proof. unfold pd_read_csv. no_exit. Qed.

Lemma never_exits_read_dataframes dir files : never_exits (read_dataframes dir files).
Proof.
  induction files as [|file files IH]; simpl; [no_exit|].
  destruct (PyStr.endswith file ".csv"); [|exact IH].
  apply never_exits_bind; [apply never_exits_pd_read_csv|intros df].
  apply never_exits_bind; [exact IH|intros dfs]. no_exit.
Qed.

Lemma never_exits_merge self : never_exits (merge_multiple_dataframe self).
Proof.
  unfold merge_multiple_dataframe.
  apply never_exits_bind; [no_exit|intros files].
  apply never_exits_bind; [no_exit|intros _].
  apply never_exits_bind; [apply never_exits_read_dataframes|intros dfs].
  no_exit.
Qed.

Lemma never_exits_train self : never_exits (train self).
Proof.
  unfold train.
  apply never_exits_bind; [apply never_exits_pd_read_csv|intros data]. no_exit.
Qed.

Lemma never_exits_load_model self : never_exits (load_model self).
Proof. unfold load_model. no_exit. Qed.

Lemma never_exits_load_test_data self : never_exits (load_test_data self).
Proof.
  unfold load_test_data.
  apply never_exits_bind; [apply never_exits_pd_read_csv|intros]. no_exit.
Qed.

Lemma never_exits_score_model self : never_exits (score_model self).
Proof. unfold score_model. no_exit. Qed.

Lemma never_exits_deploy_model self : never_exits (deploy_model self).
Proof. unfold deploy_model. no_exit. Qed.

Lemma never_exits_first_run_stages config : never_exits (first_run_stages config).
Proof.
  unfold first_run_stages, score_new_model.
  apply never_exits_bind; [apply never_exits_merge|intros _].
  apply never_exits_bind; [apply never_exits_train|intros _].
  apply never_exits_bind; [|intros _; apply never_exits_deploy_model].
  apply never_exits_bind; [apply never_exits_load_model|intros s1].
  apply never_exits_bind; [apply never_exits_load_test_data|intros s2].
  apply never_exits_score_model.
Qed.

(** The handler of [first_run] at work: the answer follows from how the
    stages end. *)
Lemma first_run_outcome (config : Config) (fs : FS) :
  first_run config fs
  = match first_run_stages config fs with
    | Ok _ fs' =>
        Ok (("message", JStr "First run completed successfully") :: nil, 200) fs'
    | Raise e fs' => Ok (("error", JStr (exn_str e)) :: nil, 500) fs'
    | Exit fs' => Exit fs'
    end.
Proof.
  unfold first_run, first_run_stages, score_new_model, try_except.
  rewrite !bind_run.
  destruct (merge_multiple_dataframe _ fs) as [[] fs1|e fs1|fs1]; try reflexivity.
  rewrite !bind_run.
  destruct (train _ fs1) as [[] fs2|e fs2|fs2]; try reflexivity.
  rewrite !bind_run.
  destruct (load_model _ fs2) as [s1 fs3|e fs3|fs3]; try reflexivity.
  rewrite !bind_run.
  destruct (load_test_data s1 fs3) as [s2 fs4|e fs4|fs4]; try reflexivity.
  rewrite !bind_run.
  destruct (score_model s2 fs4) as [f1 fs5|e fs5|fs5]; try reflexivity.
  rewrite !bind_run.
  destruct (deploy_model _ fs5) as [[] fs6|e fs6|fs6]; reflexivity.
Qed.

(** X25.  [first_run] always answers, and the answer follows from how its
    stages end: when they return, the success message with status 200, in
    the state they left; when one of them raises, the text of that
    exception with status 500, in the state it was raised in; and the
    stages never leave through [exit()]. *)
Lemma first_run_responds (config : Config) (fs : FS) :
  (forall fs', first_run_stages config fs = Ok tt fs' ->
     first_run config fs
     = Ok (("message", JStr "First run completed successfully") :: nil, 200) fs') /\
  (forall e fs', first_run_stages config fs = Raise e fs' ->
     first_run config fs = Ok (("error", JStr (exn_str e)) :: nil, 500) fs') /\
  exists resp fs', first_run config fs = Ok resp fs'.
Proof.
  rewrite first_run_outcome.
  pose proof (never_exits_first_run_stages config fs) as Hne.
  destruct (first_run_stages config fs) as [[] fs1|e fs1|fs1].
  - split; [intros fs' [= <-]; reflexivity|]. split; [discriminate|eauto].
  - split; [discriminate|]. split; [intros e' fs' [= <- <-]; reflexivity|eauto].
  - now destruct (Hne fs1).
Qed.

(** [scoring_stats] has no handler: without a deployed model the
    [FileNotFoundError] of [load_model] leaves the view function. *)
Lemma scoring_stats_raises (config : Config) (fs : FS) :
  Os.file_at (prod_deployment_path config) "trainedmodel.pkl" fs = None ->
  scoring_stats config fs
  = Raise (Exn FileNotFoundError
             (Os.errno2 (Os.path_join (prod_deployment_path config)
                                      "trainedmodel.pkl"))) fs.
Proof.
  intros H. unfold scoring_stats, load_model.
  rewrite bind_run, bind_run. unfold Os.read. cbn [new_ModelScorer ms_model_path].
  now rewrite H.
Qed.

End AppFacts.

Section Endpoints.
Context `{F : PyFloat} `{L : Libs}.



End Endpoints.

(* ===================================================================== *)
(** * The manifest, written and read back *)
(* ===================================================================== *)

Lemma string_of_snoc_app (l : list ascii) c (s : string) :
  string_of_list_ascii (l ++ c :: nil) ++ s = string_of_list_ascii l ++ String c s.
Proof.
  induction l as [|a l IH]; [reflexivity|].
  change (String a (string_of_list_ascii (l ++ c :: nil) ++ s)
          = String a (string_of_list_ascii l ++ String c s)).
  now rewrite IH.
Qed.

(** Reading one line: the text of the line, then its line feed. *)
Lemma splitlines_from_line cur (name rest : string) :
  no_linebreak name = true ->
  PyStr.splitlines_from cur false (name ++ LF ++ rest)
  = (string_of_list_ascii (List.rev cur) ++ name)
    :: PyStr.splitlines_from nil false rest.
Proof.
  revert cur. induction name as [|c name IH]; intros cur Hfree.
  - assert (Hnil : forall s : string, s ++ "" = s).
    { induction s as [|a s IHs]; [reflexivity|].
      change (String a (s ++ "") = String a s). now rewrite IHs. }
    rewrite Hnil. reflexivity.
  - unfold no_linebreak in Hfree. simpl in Hfree.
    apply andb_true_iff in Hfree as [Hc Hname].
    apply negb_true_iff in Hc.
    change (String c name ++ LF ++ rest) with (String c (name ++ LF ++ rest)).
    cbn [PyStr.splitlines_from andb]. rewrite Hc.
    rewrite (IH (c :: cur) Hname). f_equal. simpl.
    apply string_of_snoc_app.
Qed.

Lemma splitlines_manifest_of names :
  List.Forall (fun name => no_linebreak name = true) names ->
  PyStr.splitlines (manifest_of names) = names.
Proof.
  unfold PyStr.splitlines. induction 1 as [|name names Hname _ IH]; simpl.
  - reflexivity.
  - rewrite (splitlines_from_line nil name _ Hname). simpl. now rewrite IH.
Qed.

(* ===================================================================== *)
(** * More on the stages *)
(* ===================================================================== *)

Lemma exists_inv dir name b (fs fs' : FS) :
  Os.exists_ dir name fs = Ok b fs' -> b = Os.path_exists dir name fs /\ fs' = fs.
Proof. unfold Os.exists_. intros [= <- <-]. auto. Qed.

Lemma makedirs_frame dir (fs fs0 : FS) :
  Os.makedirs dir fs = Ok tt fs0 ->
  (exists d, fs0 !! dir = Some d) /\
  (forall dir', dir' <> dir -> fs0 !! dir' = fs !! dir') /\
  (forall dir' name, Os.file_at dir' name fs0 = Os.file_at dir' name fs) /\
  ((exists d, fs !! dir = Some d) -> fs0 = fs).
Proof.
  intros H. destruct (makedirs_run dir fs) as (d & fs0' & Hmk & Hd & Ho & Hf).
  assert (fs0' = fs0) as -> by congruence.
  repeat split; eauto.
  intros [d' Hd']. unfold Os.makedirs in H. rewrite Hd' in H. congruence.
Qed.

Section StageFacts.
Context `{L : Libs}.

(** What a returning ingestion has written, and where. *)
Lemma merge_ok_inv (self : DataIngestion) (fs fs' : FS) :
  merge_multiple_dataframe self fs = Ok tt fs' ->
  exists d,
    fs !! di_input_folder_path self = Some d /\
    Os.file_at (di_output_folder_path self) "ingestedfiles.txt" fs'
      = Some (manifest_text (Dir.names d)) /\
    (forall dir, dir <> di_output_folder_path self -> fs' !! dir = fs !! dir).
Proof.
  intros Hrun.
  destruct (merge_inv self fs fs' Hrun) as (d & fs_a & dfs & Hd & Hw & Hdfs).
  rewrite (merge_steps self fs fs_a d dfs Hd Hw Hdfs) in Hrun.
  apply write_inv in Hw as (dout & Hout & ->).
  exists d. split; [exact Hd|].
  destruct (Pd.concat dfs) as [m|].
  - apply write_inv in Hrun as (d1 & Hd1 & ->). split.
    + rewrite file_at_write_other; [apply file_at_write_eq|exact Hd1|].
      right. discriminate.
    + intros dir Hne. rewrite !lookup_insert_ne by congruence. reflexivity.
  - injection Hrun as <-. split.
    + apply file_at_write_eq.
    + intros dir Hne. rewrite lookup_insert_ne by congruence. reflexivity.
Qed.

(** What a returning deployment has read and written. *)
Lemma deploy_model_inv (self : ModelDeployment) (fs fs' : FS) :
  deploy_model self fs = Ok tt fs' ->
  exists model_file m latest_score ingest_files,
    Os.file_at (md_output_folder_path self) "trainedmodel.pkl" fs = Some model_file /\
    pickle_load model_file = Some m /\
    Os.file_at (md_output_folder_path self) "latestscore.txt" fs = Some latest_score /\
    Os.file_at (md_output_folder_path self) "ingestedfiles.txt" fs = Some ingest_files /\
    Os.file_at (md_prod_deployment_path self) "trainedmodel.pkl" fs'
      = Some (pickle_dump m) /\
    Os.file_at (md_prod_deployment_path self) "latestscore.txt" fs'
      = Some latest_score /\
    Os.file_at (md_prod_deployment_path self) "ingestedfiles.txt" fs'
      = Some ingest_files /\
    (forall dir, dir <> md_prod_deployment_path self -> fs' !! dir = fs !! dir) /\
    (forall dir name,
       dir <> md_prod_deployment_path self \/ ~ deployed_file name ->
       Os.file_at dir name fs' = Os.file_at dir name fs).
Proof.
  intros Hrun.
  destruct (Os.file_at (md_output_folder_path self) "trainedmodel.pkl" fs)
    as [model_file|] eqn:H1.
  2:{ destruct (deploy_model_missing self fs) as [msg Hm]; [auto|]. congruence. }
  destruct (Os.file_at (md_output_folder_path self) "latestscore.txt" fs)
    as [latest_score|] eqn:H2.
  2:{ destruct (deploy_model_missing self fs) as [msg Hm]; [auto|]. congruence. }
  destruct (Os.file_at (md_output_folder_path self) "ingestedfiles.txt" fs)
    as [ingest_files|] eqn:H3.
  2:{ destruct (deploy_model_missing self fs) as [msg Hm]; [auto|]. congruence. }
  destruct (pickle_load model_file) as [m|] eqn:Hp.
  2:{ destruct (deploy_model_bad_pickle self fs _ _ _ H1 H2 H3 Hp)
        as (msg & fs0 & Hbad & _). congruence. }
  destruct (deploy_model_copies self fs _ _ _ _ H1 H2 H3 Hp)
    as (fs1 & Hok & Hm & Hs & Hi & Hframe).
  assert (fs1 = fs') as -> by congruence.
  exists model_file, m, latest_score, ingest_files.
  repeat (split; [assumption || reflexivity|]).
  split; [|exact Hframe].
  (* the directories: only the production path is written to *)
  clear Hok Hm Hs Hi Hframe. unfold deploy_model in Hrun.
  apply bind_inv in Hrun as (b1 & f1 & E1 & Hrun). apply exists_inv in E1 as [-> ->].
  destruct (Os.path_exists _ "trainedmodel.pkl" fs); [|discriminate]. simpl in Hrun.
  apply bind_inv in Hrun as (b2 & f2 & E2 & Hrun). apply exists_inv in E2 as [-> ->].
  destruct (Os.path_exists _ "latestscore.txt" fs); [|discriminate]. simpl in Hrun.
  apply bind_inv in Hrun as (b3 & f3 & E3 & Hrun). apply exists_inv in E3 as [-> ->].
  destruct (Os.path_exists _ "ingestedfiles.txt" fs); [|discriminate]. simpl in Hrun.
  apply bind_inv in Hrun as ([] & fs0 & Hmk & Hrun).
  apply makedirs_frame in Hmk as (_ & Hmk & _).
  apply bind_inv in Hrun as (c1 & f & Hr & Hrun). apply read_inv in Hr as [_ ->].
  apply bind_inv in Hrun as (m1 & f & Hr & Hrun). apply or_raise_inv in Hr as [_ ->].
  apply bind_inv in Hrun as ([] & fs1 & Hw1 & Hrun).
  apply write_inv in Hw1 as (d1 & _ & ->).
  apply bind_inv in Hrun as (c2 & f & Hr & Hrun). apply read_inv in Hr as [_ ->].
  apply bind_inv in Hrun as ([] & fs2 & Hw2 & Hrun).
  apply write_inv in Hw2 as (d2 & _ & ->).
  apply bind_inv in Hrun as (c3 & f & Hr & Hrun). apply read_inv in Hr as [_ ->].
  apply write_inv in Hrun as (d3 & _ & ->).
  intros dir Hne. rewrite !lookup_insert_ne by congruence. now apply Hmk.
Qed.

End StageFacts.

Section FirstRunFacts.
Context `{F : PyFloat} `{L : Libs}.

Lemma score_new_model_steps (config : Config) (fs fs1 fs2 fs3 : FS) s1 s2 f1 :
  load_model (new_ModelScorer (output_folder_path config) (test_data_path config)) fs
    = Ok s1 fs1 ->
  load_test_data s1 fs1 = Ok s2 fs2 ->
  score_model s2 fs2 = Ok f1 fs3 ->
  score_new_model config fs = Ok f1 fs3.
Proof.
  intros H1 H2 H3. unfold score_new_model.
  rewrite (bind_ok _ _ _ _ _ H1), (bind_ok _ _ _ _ _ H2). exact H3.
Qed.

(** The answer 200 of [first_run]: every stage has returned. *)
Lemma first_run_200_inv (config : Config) (fs fs' : FS) body :
  first_run config fs = Ok (body, 200) fs' ->
  exists fs1 fs2 fs3 new_score,
    merge_multiple_dataframe
      {| di_input_folder_path := input_folder_path config;
         di_output_folder_path := output_folder_path config |} fs = Ok tt fs1 /\
    train {| mt_output_model_path := output_folder_path config;
             mt_output_folder_path := output_folder_path config |} fs1 = Ok tt fs2 /\
    score_new_model config fs2 = Ok new_score fs3 /\
    deploy_model {| md_output_folder_path := output_folder_path config;
                    md_prod_deployment_path := prod_deployment_path config |} fs3
      = Ok tt fs'.
Proof.
  unfold first_run, try_except.
  match goal with |- context [match ?b fs with _ => _ end] => set (stages := b) end.
  destruct (stages fs) as [resp fs0|e fs0|fs0] eqn:E; [|discriminate..].
  intros [= -> ->]. unfold stages in E.
  apply bind_inv in E as ([] & fs1 & Hmerge & E).
  apply bind_inv in E as ([] & fs2 & Htrain & E).
  apply bind_inv in E as (s1 & fs2a & Hload & E).
  apply bind_inv in E as (s2 & fs2b & Htest & E).
  apply bind_inv in E as (f1 & fs3 & Hscore & E).
  apply bind_inv in E as ([] & fs4 & Hdeploy & E).
  injection E as _ <-.
  exists fs1, fs2, fs3, f1. repeat split; try assumption.
  exact (score_new_model_steps config _ _ _ _ _ _ _ Hload Htest Hscore).
Qed.

(** The state [first_run] leaves with its answer 200. *)
Lemma first_run_200_state (config : Config) (fs fs' : FS) body :
  first_run config fs = Ok (body, 200) fs' ->
  exists d new_score model_file m,
    fs !! input_folder_path config = Some d /\
    pickle_load model_file = Some m /\
    Os.file_at (prod_deployment_path config) "trainedmodel.pkl" fs'
      = Some (pickle_dump m) /\
    Os.file_at (prod_deployment_path config) "latestscore.txt" fs'
      = Some (str new_score) /\
    Os.file_at (prod_deployment_path config) "ingestedfiles.txt" fs'
      = Some (manifest_text (Dir.names d)) /\
    (forall dir, dir <> output_folder_path config ->
                 dir <> prod_deployment_path config -> fs' !! dir = fs !! dir).
Proof.
  intros H. apply first_run_200_inv in H
    as (fs1 & fs2 & fs3 & new_score & Hmerge & Htrain & Hscore & Hdeploy).
  apply merge_ok_inv in Hmerge as (d & Hd & Hman & Hframe1).
  apply train_inv in Htrain as (d1 & m1 & Hd1 & ->).
  apply score_new_model_inv in Hscore as [_ (d2 & Hd2 & ->)].
  apply deploy_model_inv in Hdeploy
    as (model_file & m & latest & ingest & Hmf & Hload & Hls & Hif
        & Hpm & Hps & Hpi & Hframe4 & _).
  cbn [di_input_folder_path di_output_folder_path mt_output_model_path
       md_output_folder_path md_prod_deployment_path] in *.
  exists d, new_score, model_file, m.
  split; [exact Hd|]. split; [exact Hload|]. split; [exact Hpm|].
  rewrite file_at_write_eq in Hls. injection Hls as <-.
  rewrite file_at_write_other in Hif; [|exact Hd2|right; discriminate].
  rewrite file_at_write_other in Hif; [|exact Hd1|right; discriminate].
  rewrite Hman in Hif. injection Hif as <-.
  split; [exact Hps|]. split; [exact Hpi|].
  intros dir Hout Hprod.
  rewrite Hframe4 by assumption.
  rewrite !lookup_insert_ne by congruence. now apply Hframe1.
Qed.

End FirstRunFacts.

Lemma csv_files_all names :
  (forall name, In name names -> PyStr.endswith name ".csv" = true) ->
  csv_files names = names.
Proof.
  unfold csv_files. induction names as [|n l IH]; intros H; simpl; [reflexivity|].
  rewrite (H n (or_introl eq_refl)). f_equal.
  apply IH. intros name Hn. apply H. now right.
Qed.

Section CycleProperties.
Context `{F : PyFloat} `{L : Libs}.

(** X1.  What ingestion writes to the manifest, the driver reads back with
    [splitlines]: the names ending in [.csv], in the order of the listing,
    when none of them has a line boundary in it. *)
Theorem manifest_round_trip (files : list string) :
  List.Forall (fun name => no_linebreak name = true) (csv_files files) ->
  PyStr.splitlines (manifest_text files) = csv_files files.
Proof.
  intros H. rewrite manifest_text_csv. now apply splitlines_manifest_of.
Qed.

(** X2.  After a [first_run] that answered 200 the driver has nothing to
    do: with only CSV files in the source folder, that folder apart from
    the output folder and the production path, it exits at once. *)
Theorem driver_exits_after_first_run (config : Config) (fs fs' : FS) body d :
  first_run config fs = Ok (body, 200) fs' ->
  fs !! input_folder_path config = Some d ->
  input_folder_path config <> output_folder_path config ->
  input_folder_path config <> prod_deployment_path config ->
  (forall name, In name (Dir.names d) ->
     PyStr.endswith name ".csv" = true /\ no_linebreak name = true) ->
  fullprocess config fs' = Exit fs'.
Proof.
  intros Hrun Hd Hout Hprod Hnames.
  apply first_run_200_state in Hrun
    as (d' & new_score & model_file & m & Hd' & _ & _ & _ & Hman & Hframe).
  assert (d' = d) as -> by congruence.
  assert (Hall : csv_files (Dir.names d) = Dir.names d).
  { apply csv_files_all. intros name Hn. now apply Hnames. }
  unfold fullprocess. apply bind_exit. apply (proceed_exits config fs' d).
  - rewrite Hframe by assumption. exact Hd.
  - intros name Hn. unfold ingested_lines. rewrite Hman, manifest_text_csv, Hall.
    rewrite splitlines_manifest_of; [exact Hn|].
    apply List.Forall_forall. intros n Hin. now apply Hnames.
Qed.

(** X3.  A file in the source folder whose name does not end in [.csv] is
    never in a manifest that ingestion wrote: with such a file the driver
    does not take the early exit on any run: it copies forward, ingests
    and trains. *)
Theorem stray_file_always_new (config : Config) (fs : FS) d listing name :
  fs !! input_folder_path config = Some d ->
  In name (Dir.names d) ->
  PyStr.endswith name ".csv" = false ->
  Os.file_at (prod_deployment_path config) "ingestedfiles.txt" fs
    = Some (manifest_text listing) ->
  List.Forall (fun name => no_linebreak name = true) (csv_files listing) ->
  proceed_with_new_data config fs
  = (copy_forward config (csv_files listing);;
     merge_multiple_dataframe
       {| di_input_folder_path := input_folder_path config;
          di_output_folder_path := output_folder_path config |};;
     train {| mt_output_model_path := output_folder_path config;
              mt_output_folder_path := output_folder_path config |}) fs /\
  forall fs', proceed_with_new_data config fs <> Exit fs'.
Proof.
  intros Hd Hin Hend Hman Hfree.
  assert (Hsteps : proceed_with_new_data config fs
    = (copy_forward config (csv_files listing);;
       merge_multiple_dataframe
         {| di_input_folder_path := input_folder_path config;
            di_output_folder_path := output_folder_path config |};;
       train {| mt_output_model_path := output_folder_path config;
                mt_output_folder_path := output_folder_path config |}) fs).
  { unfold proceed_with_new_data.
    rewrite (bind_ok _ _ _ _ _ (read_ingested_files_list_run config fs)).
    rewrite bind_run. unfold Os.listdir at 1. rewrite Hd.
    assert (Hlines : ingested_lines config fs = csv_files listing).
    { unfold ingested_lines. rewrite Hman, manifest_text_csv.
      now apply splitlines_manifest_of. }
    rewrite Hlines.
    destruct (new_files (Dir.names d) (csv_files listing)) as [|n l] eqn:E;
      [|reflexivity].
    exfalso.
    assert (Hnew : In name (new_files (Dir.names d) (csv_files listing))).
    { unfold new_files. apply List.filter_In. split; [exact Hin|].
      apply negb_true_iff. destruct (PyStr.elem name (csv_files listing)) eqn:Hel;
        [|reflexivity].
      apply elem_In, csv_files_In in Hel as [_ Hcsv]. congruence. }
    rewrite E in Hnew. destruct Hnew. }
  split; [exact Hsteps|].
  intros fs'. rewrite Hsteps.
  destruct (copy_forward_run config (csv_files listing) fs) as (fs_c & Hc & _).
  rewrite (bind_ok _ _ _ _ _ Hc).
  apply never_exits_bind; [apply never_exits_merge|intros _; apply never_exits_train].
Qed.

(** X4.  The answer 200 of [first_run] means deployed: ingestion and
    training have returned, the model file that training left unpickles,
    scoring that model has returned a score, and the production path
    holds that model pickled again, [str] of that score, and the manifest
    of the CSV files of the source folder. *)
Theorem first_run_200_deployed (config : Config) (fs fs' : FS) body :
  first_run config fs = Ok (body, 200) fs' ->
  exists d fs1 fs2 fs3 new_score model_file m,
    fs !! input_folder_path config = Some d /\
    merge_multiple_dataframe
      {| di_input_folder_path := input_folder_path config;
         di_output_folder_path := output_folder_path config |} fs = Ok tt fs1 /\
    train {| mt_output_model_path := output_folder_path config;
             mt_output_folder_path := output_folder_path config |} fs1 = Ok tt fs2 /\
    Os.file_at (output_folder_path config) "trainedmodel.pkl" fs2 = Some model_file /\
    pickle_load model_file = Some m /\
    score_new_model config fs2 = Ok new_score fs3 /\
    Os.file_at (prod_deployment_path config) "trainedmodel.pkl" fs'
      = Some (pickle_dump m) /\
    Os.file_at (prod_deployment_path config) "latestscore.txt" fs'
      = Some (str new_score) /\
    Os.file_at (prod_deployment_path config) "ingestedfiles.txt" fs'
      = Some (manifest_of (csv_files (Dir.names d))).
Proof.
  intros H. apply first_run_200_inv in H
    as (fs1 & fs2 & fs3 & new_score & Hmerge & Htrain & Hscore & Hdeploy).
  pose proof Hmerge as Hmerge0. pose proof Htrain as Htrain0.
  pose proof Hscore as Hscore0.
  apply merge_ok_inv in Hmerge as (d & Hd & Hman & _).
  apply train_inv in Htrain as (d1 & m1 & Hd1 & ->).
  apply score_new_model_inv in Hscore as [_ (d2 & Hd2 & ->)].
  apply deploy_model_inv in Hdeploy
    as (model_file & m & latest & ingest & Hmf & Hload & Hls & Hif
        & Hpm & Hps & Hpi & _).
  cbn [di_input_folder_path di_output_folder_path mt_output_model_path
       md_output_folder_path md_prod_deployment_path] in *.
  rewrite file_at_write_other in Hmf; [|exact Hd2|right; discriminate].
  rewrite file_at_write_eq in Hls. injection Hls as <-.
  rewrite file_at_write_other in Hif; [|exact Hd2|right; discriminate].
  rewrite file_at_write_other in Hif; [|exact Hd1|right; discriminate].
  rewrite Hman in Hif. injection Hif as <-. rewrite manifest_text_csv in Hpi.
  eexists d, fs1, _, _, new_score, model_file, m.
  split; [exact Hd|]. split; [exact Hmerge0|]. split; [exact Htrain0|].
  split; [exact Hmf|]. split; [exact Hload|]. split; [exact Hscore0|].
  split; [exact Hpm|]. split; [exact Hps|exact Hpi].
Qed.

End CycleProperties.

Lemma file_at_dir dir name c (fs : FS) :
  Os.file_at dir name fs = Some c -> exists d, fs !! dir = Some d.
Proof. unfold Os.file_at. destruct (fs !! dir); [eauto|discriminate]. Qed.

Lemma makedirs_exists dir d (fs : FS) :
  fs !! dir = Some d -> Os.makedirs dir fs = Ok tt fs.
Proof. intros H. unfold Os.makedirs. now rewrite H. Qed.

(** Where a raise in a sequence comes from. *)
Lemma bind_raise_inv {A B} (m : Py A) (k : A -> Py B) (fs fs' : FS) e :
  (m ≫= k) fs = Raise e fs' ->
  m fs = Raise e fs' \/ exists a fs1, m fs = Ok a fs1 /\ k a fs1 = Raise e fs'.
Proof.
  rewrite bind_run. destruct (m fs) as [a fs1|e1 fs1|fs1].
  - intros H. right. eauto.
  - intros [= -> ->]. left. reflexivity.
  - discriminate.
Qed.

Lemma or_raise_raise_inv {A} (o : option A) k msg e (fs fs' : FS) :
  or_raise o k msg fs = Raise e fs' -> fs' = fs.
Proof. destruct o; simpl; [discriminate|]. unfold raise. now intros [= _ <-]. Qed.

Lemma read_raise_inv dir name e (fs fs' : FS) :
  Os.read dir name fs = Raise e fs' -> fs' = fs.
Proof.
  unfold Os.read. destruct (Os.file_at dir name fs); [discriminate|].
  now intros [= _ <-].
Qed.

Lemma write_raise_inv dir name content e (fs fs' : FS) :
  Os.write dir name content fs = Raise e fs' -> fs' = fs.
Proof.
  unfold Os.write. destruct (fs !! dir); [discriminate|]. now intros [= _ <-].
Qed.

Section MoreStageFacts.
Context `{F : PyFloat} `{L : Libs}.

Lemma pd_read_csv_raise_inv dir name e (fs fs' : FS) :
  pd_read_csv dir name fs = Raise e fs' -> fs' = fs.
Proof.
  unfold pd_read_csv. intros H.
  apply bind_raise_inv in H as [H|(text & fs1 & Hr & H)].
  - now apply read_raise_inv in H.
  - apply read_inv in Hr as [_ ->]. now apply or_raise_raise_inv in H.
Qed.

Lemma load_model_ok (self : ModelScorer) (fs : FS) bytes m :
  Os.file_at (ms_model_path self) "trainedmodel.pkl" fs = Some bytes ->
  pickle_load bytes = Some m ->
  load_model self fs
  = Ok {| ms_model_path := ms_model_path self;
          ms_test_data_path := ms_test_data_path self;
          ms_model := Some m; ms_test_data := ms_test_data self |} fs.
Proof.
  intros Hf Hp. unfold load_model.
  rewrite (bind_ok _ _ _ _ _ (read_ok _ _ _ _ Hf)), Hp. reflexivity.
Qed.

Lemma load_test_data_ok (self : ModelScorer) (fs : FS) df :
  holds_frame (ms_test_data_path self) fs "testdata.csv" df ->
  load_test_data self fs
  = Ok {| ms_model_path := ms_model_path self;
          ms_test_data_path := ms_test_data_path self;
          ms_model := ms_model self; ms_test_data := Some df |} fs.
Proof.
  intros Hf. unfold load_test_data.
  rewrite (bind_ok _ _ _ _ _ (pd_read_csv_ok _ _ _ _ Hf)). reflexivity.
Qed.

Lemma train_missing_table (self : ModelTrainer) (fs : FS) :
  Os.file_at (mt_output_folder_path self) "finaldata.csv" fs = None ->
  train self fs
  = Raise (Exn FileNotFoundError
             (Os.errno2 (Os.path_join (mt_output_folder_path self) "finaldata.csv")))
          fs.
Proof.
  intros Hnone. unfold train, pd_read_csv.
  rewrite bind_run, bind_run. unfold Os.read. now rewrite Hnone.
Qed.

(** X5.  [GET /scoring] is no read-only request: when it answers 200 with
    the score of the deployed model, it has written [str] of that score to
    [latestscore.txt] of the production path, and nothing else. *)
Theorem scoring_stats_writes_production_score (config : Config) (fs : FS)
        model_file m test_data x_test y_test y_pred f1 :
  Os.file_at (prod_deployment_path config) "trainedmodel.pkl" fs = Some model_file ->
  pickle_load model_file = Some m ->
  holds_frame (test_data_path config) fs "testdata.csv" test_data ->
  Pd.drop ("corporation" :: "exited" :: nil) test_data = Some x_test ->
  Pd.column "exited" test_data = Some y_test ->
  predict m x_test = Some y_pred ->
  Sk.f1_score y_test y_pred = Some f1 ->
  exists fs',
    scoring_stats config fs = Ok (("f1_score", JFloat f1) :: nil, 200) fs' /\
    Os.file_at (prod_deployment_path config) "latestscore.txt" fs' = Some (str f1) /\
    (forall dir name,
       dir <> prod_deployment_path config \/ name <> "latestscore.txt" ->
       Os.file_at dir name fs' = Os.file_at dir name fs).
Proof.
  intros Hmf Hload Htest Hx Hy Hp Hf.
  destruct (file_at_dir _ _ _ _ Hmf) as [dprod Hdprod].
  unfold scoring_stats.
  rewrite (bind_ok _ _ _ _ _
             (load_model_ok (new_ModelScorer _ _) fs model_file m Hmf Hload)).
  cbn [new_ModelScorer ms_model_path ms_test_data_path ms_test_data ms_model].
  erewrite bind_ok; [|apply load_test_data_ok; exact Htest].
  cbn [ms_model_path ms_test_data_path ms_test_data ms_model].
  erewrite bind_ok;
    [|eapply (score_model_run _ fs m test_data x_test y_test y_pred f1 dprod);
      try eassumption; reflexivity].
  cbn [ms_model_path]. eexists. split; [reflexivity|]. split.
  - apply file_at_write_eq.
  - intros dir name Hne. apply file_at_write_other; [exact Hdprod|].
    destruct Hne; [left|right]; congruence.
Qed.

(** X6.  Deploying twice is deploying once: with a production path that
    is not the output folder, a second [deploy_model] right after a first
    returns and leaves every file as it is. *)
Theorem deploy_model_twice (self : ModelDeployment) (fs fs1 : FS) :
  md_output_folder_path self <> md_prod_deployment_path self ->
  deploy_model self fs = Ok tt fs1 ->
  deploy_model self fs1 = Ok tt fs1.
Proof.
  intros Hne Hrun.
  apply deploy_model_inv in Hrun
    as (model_file & m & latest & ingest & Hmf & Hload & Hls & Hif
        & Hpm & Hps & Hpi & _ & Hframe).
  set (out := md_output_folder_path self) in *.
  set (prod := md_prod_deployment_path self) in *.
  assert (Hmf1 : Os.file_at out "trainedmodel.pkl" fs1 = Some model_file)
    by (rewrite Hframe by (left; exact Hne); exact Hmf).
  assert (Hls1 : Os.file_at out "latestscore.txt" fs1 = Some latest)
    by (rewrite Hframe by (left; exact Hne); exact Hls).
  assert (Hif1 : Os.file_at out "ingestedfiles.txt" fs1 = Some ingest)
    by (rewrite Hframe by (left; exact Hne); exact Hif).
  destruct (file_at_dir _ _ _ _ Hpm) as [dprod Hdprod].
  unfold deploy_model. fold out prod.
  rewrite bind_run, exists_run.
  replace (Os.path_exists out "trainedmodel.pkl" fs1) with true
    by (symmetry; apply path_exists_true; eauto).
  simpl. rewrite bind_run, exists_run.
  replace (Os.path_exists out "latestscore.txt" fs1) with true
    by (symmetry; apply path_exists_true; eauto).
  simpl. rewrite bind_run, exists_run.
  replace (Os.path_exists out "ingestedfiles.txt" fs1) with true
    by (symmetry; apply path_exists_true; eauto).
  simpl.
  rewrite (bind_ok _ _ _ _ _ (makedirs_exists _ _ _ Hdprod)).
  rewrite (bind_ok _ _ _ _ _ (read_ok _ _ _ _ Hmf1)), Hload.
  rewrite (bind_ok _ _ fs1 m fs1) by reflexivity.
  rewrite (bind_ok _ _ _ _ _ (write_same _ _ _ _ Hpm)).
  rewrite (bind_ok _ _ _ _ _ (read_ok _ _ _ _ Hls1)).
  rewrite (bind_ok _ _ _ _ _ (write_same _ _ _ _ Hps)).
  rewrite (bind_ok _ _ _ _ _ (read_ok _ _ _ _ Hif1)).
  now apply write_same.
Qed.

(** X7.  The deployed model is the staged one: when unpickling what
    [pickle.dump] wrote gives the model back, [load_model] on the
    production path after a deployment loads the model that the staged
    file holds. *)
Theorem deployed_model_loads (self : ModelDeployment) (fs fs' : FS)
        test_data_path :
  deploy_model self fs = Ok tt fs' ->
  exists model_file m,
    Os.file_at (md_output_folder_path self) "trainedmodel.pkl" fs = Some model_file /\
    pickle_load model_file = Some m /\
    (pickle_load (pickle_dump m) = Some m ->
     exists scorer,
       load_model (new_ModelScorer (md_prod_deployment_path self) test_data_path) fs'
       = Ok scorer fs' /\ ms_model scorer = Some m).
Proof.
  intros Hrun.
  apply deploy_model_inv in Hrun
    as (model_file & m & latest & ingest & Hmf & Hload & _ & _ & Hpm & _).
  exists model_file, m. split; [exact Hmf|]. split; [exact Hload|].
  intros Hround. eexists. split.
  - apply (load_model_ok (new_ModelScorer _ _) fs' (pickle_dump m) m);
      [exact Hpm|exact Hround].
  - reflexivity.
Qed.

(** X8.  [train] writes the model file and nothing else, and when it
    raises it has written nothing. *)
Theorem train_writes_only_the_model (self : ModelTrainer) (fs : FS) :
  (forall fs', train self fs = Ok tt fs' ->
     exists m,
       Os.file_at (mt_output_model_path self) "trainedmodel.pkl" fs'
         = Some (pickle_dump m) /\
       forall dir name,
         dir <> mt_output_model_path self \/ name <> "trainedmodel.pkl" ->
         Os.file_at dir name fs' = Os.file_at dir name fs) /\
  (forall e fs', train self fs = Raise e fs' -> fs' = fs) /\
  (Os.file_at (mt_output_folder_path self) "finaldata.csv" fs = None ->
   train self fs
   = Raise (Exn FileNotFoundError
              (Os.errno2 (Os.path_join (mt_output_folder_path self) "finaldata.csv")))
           fs).
Proof.
  split; [|split].
  - intros fs' H. apply train_inv in H as (d & m & Hd & ->).
    exists m. split; [apply file_at_write_eq|].
    intros dir name Hne. apply file_at_write_other; [exact Hd|].
    destruct Hne; [left|right]; congruence.
  - intros e fs' H. unfold train in H.
    apply bind_raise_inv in H as [H|(data & fs1 & H1 & H)];
      [now apply pd_read_csv_raise_inv in H|].
    apply pd_read_csv_inv in H1 as [-> _].
    apply bind_raise_inv in H as [H|(x & fs1 & H1 & H)];
      [now apply or_raise_raise_inv in H|].
    apply or_raise_inv in H1 as [_ ->].
    apply bind_raise_inv in H as [H|(y & fs1 & H1 & H)];
      [now apply or_raise_raise_inv in H|].
    apply or_raise_inv in H1 as [_ ->].
    apply bind_raise_inv in H as [H|([[[x_train x_test] y_train] y_test] & fs1 & H1 & H)];
      [now apply or_raise_raise_inv in H|].
    apply or_raise_inv in H1 as [_ ->].
    apply bind_raise_inv in H as [H|(m & fs1 & H1 & H)];
      [now apply or_raise_raise_inv in H|].
    apply or_raise_inv in H1 as [_ ->].
    now apply write_raise_inv in H.
  - apply train_missing_table.
Qed.

End MoreStageFacts.

(** ** Tables of one schema *)

Lemma elem_false_In x l : PyStr.elem x l = false <-> ~ In x l.
Proof.
  rewrite <- elem_In. destruct (PyStr.elem x l); split; congruence.
Qed.

Lemma add_columns_present cols acc :
  (forall c, In c cols -> In c acc) ->
  fold_left Pd.add_column cols acc = acc.
Proof.
  induction cols as [|c cols IH]; intros H; simpl; [reflexivity|].
  unfold Pd.add_column at 2.
  replace (PyStr.elem c acc) with true
    by (symmetry; apply elem_In, H; now left).
  apply IH. intros c' Hc'. apply H. now right.
Qed.

Lemma add_columns_fresh cols acc :
  List.NoDup cols -> (forall c, In c cols -> ~ In c acc) ->
  fold_left Pd.add_column cols acc = (acc ++ cols)%list.
Proof.
  revert acc. induction cols as [|c cols IH]; intros acc Hnd Hfresh; simpl.
  - now rewrite List.app_nil_r.
  - inversion Hnd as [|? ? Hc Hnd']; subst. unfold Pd.add_column at 2.
    replace (PyStr.elem c acc) with false
      by (symmetry; apply elem_false_In, Hfresh; now left).
    rewrite IH; [now rewrite <- List.app_assoc|exact Hnd'|].
    intros c' Hc' Hin. apply List.in_app_or in Hin as [Hin|[<-|[]]].
    + apply (Hfresh c'); [now right|exact Hin].
    + contradiction.
Qed.

Lemma union_columns_from cols dfs acc :
  acc = cols ->
  List.Forall (fun df => Pd.columns df = cols) dfs ->
  fold_left (fun acc df => fold_left Pd.add_column (Pd.columns df) acc) dfs acc
  = cols.
Proof.
  intros ->. induction 1 as [|df dfs Hdf _ IH]; simpl; [reflexivity|].
  rewrite Hdf, add_columns_present by auto. exact IH.
Qed.

Lemma union_columns_same cols dfs :
  dfs <> nil -> List.NoDup cols ->
  List.Forall (fun df => Pd.columns df = cols) dfs ->
  Pd.union_columns dfs = cols.
Proof.
  intros Hne Hnd Hall. unfold Pd.union_columns.
  destruct dfs as [|df dfs]; [congruence|].
  apply List.Forall_cons_iff in Hall as [Hdf Hrest]. simpl.
  apply union_columns_from; [|exact Hrest].
  rewrite Hdf. now rewrite (add_columns_fresh cols nil) by auto.
Qed.

Lemma get_cells_same cols (r : Pd.row) :
  List.NoDup cols -> List.length r = List.length cols ->
  List.map (Pd.get_cell cols r) cols = r.
Proof.
  revert r. induction cols as [|c cols IH]; intros [|x r] Hnd Hlen;
    try discriminate; [reflexivity|].
  inversion Hnd as [|? ? Hc Hnd']; subst.
  cbn [List.map]. f_equal.
  - simpl. now rewrite String.eqb_refl.
  - rewrite <- (IH r Hnd') at 2 by (simpl in Hlen; lia).
    apply List.map_ext_in. intros c' Hc'. simpl.
    destruct (String.eqb c c') eqn:E; [|reflexivity].
    apply String.eqb_eq in E. subst c'. contradiction.
Qed.


Lemma reindex_same cols df :
  List.NoDup cols -> same_schema cols df -> Pd.reindex cols df = Pd.rows df.
Proof.
  intros Hnd [Hc Hr]. unfold Pd.reindex. rewrite Hc.
  induction Hr as [|r rs Hlen _ IH]; simpl; [reflexivity|].
  now rewrite get_cells_same, IH.
Qed.

Lemma concat_same_schema cols dfs :
  dfs <> nil -> List.NoDup cols -> List.Forall (same_schema cols) dfs ->
  Pd.concat dfs = Some (Pd.mkDF cols (flat_map Pd.rows dfs)).
Proof.
  intros Hne Hnd Hall.
  assert (Hcols : Pd.union_columns dfs = cols).
  { apply union_columns_same; [exact Hne|exact Hnd|].
    eapply List.Forall_impl; [|exact Hall]. now intros df [H _]. }
  unfold Pd.concat. destruct dfs as [|df dfs]; [congruence|].
  rewrite Hcols. do 2 f_equal.
  clear Hne Hcols. induction Hall as [|df' dfs' Hdf _ IH]; [reflexivity|].
  cbn [flat_map]. now rewrite reindex_same, IH.
Qed.

(** ** The second loop of ingestion when a file cannot be parsed *)

Section IngestionErrors.
Context `{L : Libs}.

Lemma read_dataframes_unreadable dir names (fs : FS) :
  (forall name, In name (csv_files names) ->
     exists text, Os.file_at dir name fs = Some text) ->
  (exists name text, In name (csv_files names) /\
     Os.file_at dir name fs = Some text /\ read_csv text = None) ->
  exists msg, read_dataframes dir names fs = Raise (Exn ParserError msg) fs.
Proof.
  induction names as [|n names IH]; intros Hall (name & text & Hin & Hf & Hbad).
  - destruct Hin.
  - simpl in *. destruct (PyStr.endswith n ".csv") eqn:E.
    + destruct (Hall n (or_introl eq_refl)) as [t Ht].
      unfold pd_read_csv at 1.
      rewrite bind_run, (bind_ok _ _ _ _ _ (read_ok _ _ _ _ Ht)).
      destruct (read_csv t) as [df|] eqn:Hp.
      * simpl. rewrite bind_run.
        destruct IH as [msg ->]; [intros; apply Hall; now right| |eauto].
        destruct Hin as [<-|Hin]; [congruence|eauto].
      * simpl. unfold raise. eauto.
    + apply IH; eauto.
Qed.

End IngestionErrors.

Section MoreDriverFacts.
Context `{F : PyFloat} `{L : Libs}.

(** One turn of the copy loop. *)
Lemma copy_forward_step (config : Config) file (fs : FS) d :
  fs !! input_folder_path config = Some d ->
  input_folder_path config <> base_data_path config ->
  exists fs1 d1,
    (if Os.path_exists (base_data_path config) file fs
     then cp (base_data_path config) file (input_folder_path config)
     else mret tt) fs = Ok tt fs1 /\
    fs1 !! input_folder_path config = Some d1 /\
    (forall dir, dir <> input_folder_path config -> fs1 !! dir = fs !! dir) /\
    Os.file_at (input_folder_path config) file fs1
    = match Os.file_at (base_data_path config) file fs with
      | Some c => Some c
      | None => Os.file_at (input_folder_path config) file fs
      end /\
    (forall name, name <> file ->
       Os.file_at (input_folder_path config) name fs1
       = Os.file_at (input_folder_path config) name fs).
Proof.
  intros Hd Hne. unfold Os.path_exists.
  destruct (Os.file_at (base_data_path config) file fs) as [c|] eqn:Hc.
  - unfold cp. unfold Os.file_at in Hc.
    destruct (fs !! base_data_path config) as [b|]; [|discriminate].
    rewrite Hd, Hc. eexists _, _. split; [reflexivity|].
    split; [apply lookup_insert_eq|]. split; [|split].
    + intros dir Hdir. apply lookup_insert_ne. congruence.
    + apply file_at_write_eq.
    + intros name Hname. apply file_at_write_other; [exact Hd|]. right. congruence.
  - exists fs, d. repeat split; auto.
Qed.

Lemma copy_forward_files (config : Config) files (fs : FS) d :
  fs !! input_folder_path config = Some d ->
  input_folder_path config <> base_data_path config ->
  exists fs',
    copy_forward config files fs = Ok tt fs' /\
    (forall dir, dir <> input_folder_path config -> fs' !! dir = fs !! dir) /\
    (forall name,
       Os.file_at (input_folder_path config) name fs'
       = if PyStr.elem name files
         then match Os.file_at (base_data_path config) name fs with
              | Some c => Some c
              | None => Os.file_at (input_folder_path config) name fs
              end
         else Os.file_at (input_folder_path config) name fs).
Proof.
  intros Hd Hne. revert fs d Hd.
  induction files as [|file files IH]; intros fs d Hd.
  - exists fs. simpl. auto.
  - cbn [copy_forward]. rewrite bind_run, exists_run.
    destruct (copy_forward_step config file fs d Hd Hne)
      as (fs1 & d1 & Hstep & Hd1 & Hframe1 & Hfile & Hother).
    rewrite (bind_ok _ _ _ _ _ Hstep).
    destruct (IH fs1 d1 Hd1) as (fs' & Hrun & Hframe & Hfiles).
    exists fs'. split; [exact Hrun|]. split.
    { intros dir Hdir. now rewrite Hframe, Hframe1. }
    intros name. rewrite Hfiles.
    assert (Hbase : Os.file_at (base_data_path config) name fs1
                    = Os.file_at (base_data_path config) name fs).
    { unfold Os.file_at. rewrite Hframe1 by congruence. reflexivity. }
    rewrite Hbase.
    destruct (String.eqb_spec name file) as [->|Hname].
    + replace (PyStr.elem file (file :: files)) with true
        by (symmetry; apply elem_In; now left).
      rewrite Hfile.
      destruct (PyStr.elem file files);
        destruct (Os.file_at (base_data_path config) file fs); reflexivity.
    + rewrite (Hother name Hname).
      replace (PyStr.elem name (file :: files)) with (PyStr.elem name files);
        [reflexivity|].
      destruct (PyStr.elem name files) eqn:E; symmetry.
      * apply elem_In. right. now apply elem_In.
      * apply elem_false_In. intros [Heq|Hin]; [congruence|].
        apply elem_false_In in E. contradiction.
Qed.

(** X9.  The copy loop of the driver puts the base-folder version of every
    file that the manifest lists over the source folder's: a listed file
    that the base folder has ends up with the base folder's content, every
    other file of the source folder and every other folder stays.  The
    [cp] command goes through the shell, so this is for paths and listed
    names that are shell words. *)
Theorem copy_forward_restores_base_files (config : Config) files (fs : FS) d :
  fs !! input_folder_path config = Some d ->
  input_folder_path config <> base_data_path config ->
  shell_word (base_data_path config) = true ->
  shell_word (input_folder_path config) = true ->
  forallb shell_file_name files = true ->
  exists fs',
    copy_forward config files fs = Ok tt fs' /\
    (forall name c, In name files ->
       Os.file_at (base_data_path config) name fs = Some c ->
       Os.file_at (input_folder_path config) name fs' = Some c) /\
    (forall name,
       ~ In name files \/ Os.file_at (base_data_path config) name fs = None ->
       Os.file_at (input_folder_path config) name fs'
       = Os.file_at (input_folder_path config) name fs) /\
    (forall dir, dir <> input_folder_path config -> fs' !! dir = fs !! dir).
Proof.
  intros Hd Hne _ _ _.
  destruct (copy_forward_files config files fs d Hd Hne)
    as (fs' & Hrun & Hframe & Hfiles).
  exists fs'. split; [exact Hrun|]. split; [|split; [|exact Hframe]].
  - intros name c Hin Hc. rewrite Hfiles, Hc.
    apply elem_In in Hin. now rewrite Hin.
  - intros name Hcase. rewrite Hfiles.
    destruct (PyStr.elem name files) eqn:E; [|reflexivity].
    destruct Hcase as [Hnot|Hnone].
    + apply elem_In in E. contradiction.
    + now rewrite Hnone.
Qed.

(** X10.  A production [latestscore.txt] that [float()] does not take
    stops the driver after retraining: [ValueError], raised in the state
    ingestion and training left, before scoring and with nothing
    deployed. *)
Theorem unparsable_base_score_stops_driver (config : Config) (fs fs_r : FS) text :
  proceed_with_new_data config fs = Ok tt fs_r ->
  Os.file_at (prod_deployment_path config) "latestscore.txt" fs_r = Some text ->
  float_of_str (PyStr.strip text) = None ->
  fullprocess config fs
  = Raise (Exn ValueError "could not convert string to float") fs_r.
Proof.
  intros Hp Hf Hbad. unfold fullprocess. rewrite (bind_ok _ _ _ _ _ Hp).
  unfold check_model_drift. apply bind_raise.
  unfold read_base_model_score. rewrite bind_run, exists_run.
  unfold Os.path_exists. rewrite Hf.
  rewrite (bind_ok _ _ _ _ _ (read_ok _ _ _ _ Hf)), Hbad. reflexivity.
Qed.

End MoreDriverFacts.

Section MoreIngestion.
Context `{L : Libs}.

(** X11.  A CSV file that pandas cannot parse stops ingestion half way:
    [ParserError] is raised after the manifest has been rewritten, so the
    manifest lists all CSV files of the source folder while
    [finaldata.csv] is the one of before. *)
Theorem merge_unreadable_csv (self : DataIngestion) (fs : FS) d dout name text :
  fs !! di_input_folder_path self = Some d ->
  fs !! di_output_folder_path self = Some dout ->
  In name (csv_files (Dir.names d)) ->
  Dir.lookup name d = Some text ->
  read_csv text = None ->
  exists msg fs',
    merge_multiple_dataframe self fs = Raise (Exn ParserError msg) fs' /\
    Os.file_at (di_output_folder_path self) "ingestedfiles.txt" fs'
      = Some (manifest_of (csv_files (Dir.names d))) /\
    (forall dir file,
       dir <> di_output_folder_path self \/ file <> "ingestedfiles.txt" ->
       Os.file_at dir file fs' = Os.file_at dir file fs).
Proof.
  intros Hd Hout Hin Hlook Hbad.
  destruct (write_run (di_output_folder_path self) "ingestedfiles.txt"
                      (manifest_text (Dir.names d)) _ _ Hout)
    as (fs_a & Hw & _ & Hman & _ & Hframe).
  assert (Hcsv : forall n, PyStr.endswith n ".csv" = true ->
            Os.file_at (di_input_folder_path self) n fs_a = Dir.lookup n d).
  { intros n Hn. rewrite Hframe by (right; now apply csv_name_not_manifest).
    unfold Os.file_at. now rewrite Hd. }
  destruct (read_dataframes_unreadable (di_input_folder_path self) (Dir.names d) fs_a)
    as [msg Hread].
  { intros n Hn. apply csv_files_In in Hn as [Hn Hend]. rewrite (Hcsv n Hend).
    unfold Dir.names in Hn. apply List.in_map_iff in Hn as ([n' c] & <- & Hn).
    clear -Hn. induction d as [|[n0 c0] d IH]; [destruct Hn|]. simpl.
    destruct (String.eqb n0 n') eqn:E; [eauto|].
    destruct Hn as [[= -> ->]|Hn]; [now rewrite String.eqb_refl in E|auto]. }
  { exists name, text. split; [exact Hin|]. split; [|exact Hbad].
    apply csv_files_In in Hin as [_ Hend]. now rewrite (Hcsv name Hend). }
  exists msg, fs_a. split; [|split].
  - unfold merge_multiple_dataframe. rewrite bind_run. unfold Os.listdir at 1.
    rewrite Hd, (bind_ok _ _ _ _ _ Hw). now apply bind_raise.
  - now rewrite <- manifest_text_csv.
  - intros dir file Hne. apply Hframe.
    destruct Hne; [left|right]; congruence.
Qed.

(** X12.  Ingestion loses no row and invents none: for CSV files of one
    schema (the same distinct column labels, every row as wide as the
    header) whose numbers are integers of magnitude up to 2^53, the table
    written to [finaldata.csv] has those columns, no row twice, and
    exactly the rows that occur in some input file. *)
Theorem merge_keeps_every_row (self : DataIngestion) (fs : FS) d dout dfs cols :
  fs !! di_input_folder_path self = Some d ->
  fs !! di_output_folder_path self = Some dout ->
  Forall2 (holds_frame (di_input_folder_path self) fs)
          (csv_files (Dir.names d)) dfs ->
  dfs <> nil ->
  List.NoDup cols ->
  List.Forall (same_schema cols) dfs ->
  forallb exact_numbers dfs = true ->
  exists merged fs',
    merge_multiple_dataframe self fs = Ok tt fs' /\
    Os.file_at (di_output_folder_path self) "finaldata.csv" fs'
      = Some (to_csv merged) /\
    Pd.columns merged = cols /\
    List.NoDup (Pd.rows merged) /\
    (forall r, In r (Pd.rows merged) <->
               exists df, In df dfs /\ In r (Pd.rows df)).
Proof.
  intros Hd Hout Hdfs Hne Hnd Hall _.
  destruct (merge_run self fs d dout dfs Hd Hout Hdfs)
    as (fs' & Hrun & _ & Hfinal & _).
  rewrite (concat_same_schema cols dfs Hne Hnd Hall) in Hfinal.
  eexists _, fs'. split; [exact Hrun|]. split; [exact Hfinal|].
  split; [reflexivity|]. split; [apply drop_duplicates_NoDup|].
  intros r. rewrite drop_duplicates_same_rows. cbn [Pd.rows].
  rewrite List.in_flat_map. reflexivity.
Qed.

End MoreIngestion.

Section MoreApp.
Context `{F : PyFloat} `{L : Libs}.

(** X13.  [first_run] on a source folder without a CSV file, with no
    merged table from an earlier run: the answer is 500 with the text of
    the [FileNotFoundError] for [finaldata.csv], and the manifest of the
    output folder has been emptied on the way. *)
Theorem first_run_without_csv (config : Config) (fs : FS) d dout :
  fs !! input_folder_path config = Some d ->
  fs !! output_folder_path config = Some dout ->
  csv_files (Dir.names d) = nil ->
  Os.file_at (output_folder_path config) "finaldata.csv" fs = None ->
  exists fs',
    first_run config fs
    = Ok (("error",
           JStr (Os.errno2 (Os.path_join (output_folder_path config)
                                         "finaldata.csv"))) :: nil, 500) fs' /\
    Os.file_at (output_folder_path config) "ingestedfiles.txt" fs' = Some "" /\
    (forall dir name,
       dir <> output_folder_path config \/ name <> "ingestedfiles.txt" ->
       Os.file_at dir name fs' = Os.file_at dir name fs).
Proof.
  intros Hd Hout Hcsv Hnone.
  set (ingestion := {| di_input_folder_path := input_folder_path config;
                       di_output_folder_path := output_folder_path config |}).
  destruct (merge_run ingestion fs d dout nil Hd Hout) as (fs1 & Hrun & Hman & Hfin & Hframe).
  { cbn [di_input_folder_path ingestion]. rewrite Hcsv. constructor. }
  cbn [Pd.concat di_output_folder_path ingestion] in *.
  rewrite Hcsv in Hman. cbn in Hman.
  exists fs1. split; [|split; [exact Hman|]].
  - unfold first_run, try_except. fold ingestion.
    rewrite (bind_ok _ _ _ _ _ Hrun).
    rewrite bind_run.
    unfold train at 1, pd_read_csv at 1. cbn [mt_output_folder_path].
    rewrite bind_run, bind_run. unfold Os.read at 1.
    rewrite Hfin, Hnone. reflexivity.
  - intros dir name Hne.
    destruct (decide (dir = output_folder_path config /\ name = "finaldata.csv"))
      as [[-> ->]|Hnot].
    + exact Hfin.
    + apply Hframe. destruct Hne as [Hne|Hne]; [now left|].
      destruct (decide (dir = output_folder_path config)) as [->|Hdir]; [|now left].
      right. split; [exact Hne|]. intros ->. apply Hnot. auto.
Qed.

End MoreApp.

(* ===================================================================== *)
(** * Dependency strings *)
(* ===================================================================== *)

Lemma list_ascii_of_string_app (s t : string) :
  list_ascii_of_string (s ++ t)
  = (list_ascii_of_string s ++ list_ascii_of_string t)%list.
Proof.
  induction s as [|c s IH]; [reflexivity|].
  change (String c s ++ t) with (String c (s ++ t)). simpl. now rewrite IH.
Qed.

Lemma string_of_list_ascii_app (l l' : list ascii) :
  string_of_list_ascii (l ++ l')
  = string_of_list_ascii l ++ string_of_list_ascii l'.
Proof.
  induction l as [|c l IH]; [reflexivity|].
  simpl. rewrite IH. reflexivity.
Qed.

Lemma backtrack_first {A} (attempt : nat -> option A) min k r :
  (min <= k)%nat -> attempt k = Some r -> Re.backtrack attempt min k = Some r.
Proof.
  intros Hk Hr. destruct k as [|k]; simpl.
  - destruct min; [|lia]. simpl. now rewrite Hr.
  - destruct (Nat.ltb_spec (S k) min); [lia|]. now rewrite Hr.
Qed.

Lemma backtrack_inv {A} (attempt : nat -> option A) min k r :
  Re.backtrack attempt min k = Some r ->
  exists j, (min <= j <= k)%nat /\ attempt j = Some r.
Proof.
  induction k as [|k IH]; simpl.
  - destruct (Nat.ltb_spec 0 min); [discriminate|].
    destruct (attempt 0%nat) eqn:E; [|discriminate].
    intros [= <-]. exists 0%nat. split; [lia|exact E].
  - destruct (Nat.ltb_spec (S k) min); [discriminate|].
    destruct (attempt (S k)) eqn:E.
    + intros [= <-]. exists (S k). split; [lia|exact E].
    + intros H'. destruct (IH H') as (j & Hj & Hr). exists j. split; [lia|exact Hr].
Qed.


Lemma run_length_app cls g t :
  forallb cls g = true -> run_ends cls t ->
  Re.run_length cls (g ++ t) = List.length g.
Proof.
  intros Hg Ht. induction g as [|c g IH]; simpl in *.
  - destruct t as [|c t]; [reflexivity|]. simpl in *. now rewrite Ht.
  - apply andb_true_iff in Hg as [Hc Hg]. rewrite Hc. now rewrite IH.
Qed.

Lemma run_length_firstn cls s k :
  (k <= Re.run_length cls s)%nat ->
  forallb cls (firstn k s) = true /\ List.length (firstn k s) = k.
Proof.
  revert k. induction s as [|c s IH]; intros k Hk; simpl in *.
  - assert (k = 0%nat) as -> by lia. auto.
  - destruct k as [|k]; [auto|]. destruct (cls c) eqn:E; [|lia].
    destruct (IH k) as [H1 H2]; [lia|]. simpl. rewrite E, H1, H2. auto.
Qed.

Lemma match_rep_exact cls min atoms g t gs :
  forallb cls g = true -> (min <= List.length g)%nat -> run_ends cls t ->
  Re.match_atoms atoms t = Some gs ->
  Re.match_atoms (Re.Rep cls min :: atoms) (g ++ t) = Some (g :: gs).
Proof.
  intros Hg Hmin Ht Hrest. cbn [Re.match_atoms].
  rewrite (run_length_app cls g t Hg Ht).
  apply backtrack_first; [exact Hmin|].
  rewrite List.firstn_app, List.firstn_all, Nat.sub_diag, List.firstn_O, List.app_nil_r.
  rewrite List.skipn_app, List.skipn_all, Nat.sub_diag.
  change (nil ++ skipn 0 t)%list with t. rewrite Hrest. reflexivity.
Qed.

Lemma match_lit c atoms t gs :
  Re.match_atoms atoms t = Some gs ->
  Re.match_atoms (Re.Lit c :: atoms) (c :: t) = Some ((c :: nil) :: gs).
Proof. intros H. simpl. now rewrite Ascii.eqb_refl, H. Qed.

(** A match takes the string from its start, atom by atom. *)
Lemma match_atoms_sound atoms s gs :
  Re.match_atoms atoms s = Some gs ->
  Forall2 accepts atoms gs /\ exists rest, s = (List.concat gs ++ rest)%list.
Proof.
  revert s gs. induction atoms as [|a atoms IH]; intros s gs; simpl.
  - intros [= <-]. split; [constructor|]. now exists s.
  - destruct a as [c|cls min].
    + destruct s as [|c' s]; [discriminate|].
      destruct (Ascii.eqb_spec c c') as [<-|]; [|discriminate].
      destruct (Re.match_atoms atoms s) as [gs'|] eqn:E; [|discriminate].
      intros [= <-]. destruct (IH _ _ E) as [Hacc [rest ->]].
      split; [constructor; [reflexivity|exact Hacc]|]. now exists rest.
    + intros H. apply backtrack_inv in H as (j & Hj & H).
      destruct (Re.match_atoms atoms (skipn j s)) as [gs'|] eqn:E; [|discriminate].
      injection H as <-. destruct (IH _ _ E) as [Hacc [rest Hrest]].
      destruct (run_length_firstn cls s j) as [Hcls Hlen]; [lia|].
      split.
      * constructor; [|exact Hacc]. split; [lia|exact Hcls].
      * exists rest. simpl. rewrite <- List.app_assoc, <- Hrest.
        symmetry. apply List.firstn_skipn.
Qed.

(** What a match of the dependency pattern looks like. *)
Lemma dep_pattern_groups s gs :
  Re.match_atoms dep_pattern s = Some gs ->
  exists name ws1 op ws2 version rest,
    gs = name :: ws1 :: ("("%char :: nil) :: op :: ws2 :: version
              :: (")"%char :: nil) :: nil /\
    s = (name ++ ws1 ++ "("%char :: op ++ ws2 ++ version ++ ")"%char :: rest)%list /\
    name <> nil /\ forallb is_not_space name = true /\
    version <> nil /\ forallb is_version_char version = true.
Proof.
  intros H. apply match_atoms_sound in H as [Hacc [rest ->]].
  unfold dep_pattern in Hacc.
  repeat match goal with
         | H : Forall2 _ (_ :: _) _ |- _ =>
             apply Forall2_cons_inv_l in H as (? & ? & ? & H & ->)
         | H : Forall2 _ nil _ |- _ => apply Forall2_nil_inv_l in H as ->
         end.
  cbn [accepts] in *.
  repeat match goal with H : _ /\ _ |- _ => destruct H end. subst.
  eexists _, _, _, _, _, rest. split; [reflexivity|].
  split; [simpl; rewrite <- !List.app_assoc; simpl; rewrite <- ?List.app_assoc; reflexivity|].
  repeat split; try assumption.
  - intros ->. simpl in *. lia.
  - intros ->. simpl in *. lia.
Qed.

Lemma space_not_operator c : PyStr.is_space c = true -> is_operator_char c = false.
Proof. destruct c as [[] [] [] [] [] [] [] []]; vm_compute; congruence. Qed.

Lemma version_not_operator c : is_version_char c = true -> is_operator_char c = false.
Proof. destruct c as [[] [] [] [] [] [] [] []]; vm_compute; congruence. Qed.

Lemma version_not_space c : is_version_char c = true -> PyStr.is_space c = false.
Proof. destruct c as [[] [] [] [] [] [] [] []]; vm_compute; congruence. Qed.

Lemma run_ends_head cls cls' g t :
  g <> nil -> forallb cls' g = true ->
  (forall c, cls' c = true -> cls c = false) ->
  run_ends cls (g ++ t).
Proof.
  destruct g as [|c g]; [congruence|]. intros _ Hg Hcls. simpl in *.
  apply andb_true_iff in Hg as [Hc _]. now apply Hcls.
Qed.

Lemma run_ends_skip cls cls1 cls2 w v t :
  forallb cls1 w = true -> v <> nil -> forallb cls2 v = true ->
  (forall c, cls1 c = true -> cls c = false) ->
  (forall c, cls2 c = true -> cls c = false) ->
  run_ends cls (w ++ v ++ t).
Proof.
  intros Hw Hv Hv2 H1 H2. destruct w as [|c w].
  - change (nil ++ v ++ t)%list with (v ++ t)%list.
    apply (run_ends_head cls cls2); assumption.
  - apply (run_ends_head cls cls1 (c :: w)); [discriminate|exact Hw|exact H1].
Qed.

Lemma string_nonempty (s : string) : s <> "" -> list_ascii_of_string s <> nil.
Proof. destruct s; [congruence|discriminate]. Qed.

Section DependencyStrings.

(** X14.  A dependency written as a name, white space, and a
    parenthesised version with an optional operator is taken apart into
    the name and the version, whatever follows the closing parenthesis. *)
Theorem parse_dep_string_name_version (name ws1 op ws2 version rest : string) :
  name <> "" -> all_chars is_not_space name = true ->
  ws1 <> "" -> all_chars PyStr.is_space ws1 = true ->
  all_chars is_operator_char op = true ->
  all_chars PyStr.is_space ws2 = true ->
  version <> "" -> all_chars is_version_char version = true ->
  parse_dep_string (name ++ ws1 ++ "(" ++ op ++ ws2 ++ version ++ ")" ++ rest)
  = (name, Some version).
Proof.
  unfold all_chars. intros Hn Hname Hw Hws1 Hop Hws2 Hv Hversion.
  apply string_nonempty in Hn, Hw, Hv.
  unfold parse_dep_string.
  rewrite !list_ascii_of_string_app.
  change (list_ascii_of_string "(") with ("("%char :: nil).
  change (list_ascii_of_string ")") with (")"%char :: nil).
  set (n := list_ascii_of_string name) in *.
  set (w1 := list_ascii_of_string ws1) in *.
  set (o := list_ascii_of_string op) in *.
  set (w2 := list_ascii_of_string ws2) in *.
  set (v := list_ascii_of_string version) in *.
  set (r := list_ascii_of_string rest).
  assert (Hmatch :
    Re.match_atoms dep_pattern
      (n ++ w1 ++ ("("%char :: nil) ++ o ++ w2 ++ v ++ (")"%char :: nil) ++ r)%list
    = Some (n :: w1 :: ("("%char :: nil) :: o :: w2 :: v :: (")"%char :: nil) :: nil)).
  { unfold dep_pattern.
    apply match_rep_exact; [exact Hname|destruct n; [congruence|simpl; lia]| |].
    { apply (run_ends_head _ PyStr.is_space); [exact Hw|exact Hws1|].
      intros c Hc. unfold is_not_space. now rewrite Hc. }
    apply match_rep_exact; [exact Hws1|lia|reflexivity|].
    apply match_lit.
    apply match_rep_exact; [exact Hop|lia| |].
    { apply (run_ends_skip _ PyStr.is_space is_version_char);
        auto using space_not_operator, version_not_operator. }
    apply match_rep_exact; [exact Hws2|lia| |].
    { apply (run_ends_head _ is_version_char); [exact Hv|exact Hversion|].
      apply version_not_space. }
    apply match_rep_exact; [exact Hversion|destruct v; [congruence|simpl; lia]|reflexivity|].
    apply match_lit. reflexivity. }
  rewrite Hmatch. unfold n, v. now rewrite !string_of_list_ascii_of_string.
Qed.

(** X15.  A dependency string without an opening parenthesis has no
    version: the result is the string without the white space around it,
    and [None]. *)
Theorem parse_dep_string_bare_name (dep_str : string) :
  all_chars (fun c => negb (Ascii.eqb c "(")) dep_str = true ->
  parse_dep_string dep_str = (PyStr.strip dep_str, None).
Proof.
  unfold all_chars. intros Hno. unfold parse_dep_string.
  destruct (Re.match_atoms dep_pattern (list_ascii_of_string dep_str))
    as [gs|] eqn:E; [|reflexivity].
  exfalso.
  apply dep_pattern_groups in E
    as (name & ws1 & op & ws2 & version & rest & _ & Hs & _).
  rewrite Hs, !List.forallb_app in Hno.
  apply andb_true_iff in Hno as [_ Hno]. apply andb_true_iff in Hno as [_ Hno].
  simpl in Hno. discriminate.
Qed.

(** X16.  When [parse_dep_string] gives a version, the version is a
    non-empty string of digits and dots, and the name is a non-empty
    beginning of the dependency string without white space in it. *)
Theorem parse_dep_string_version_shape (dep_str name version : string) :
  parse_dep_string dep_str = (name, Some version) ->
  name <> "" /\ all_chars is_not_space name = true /\
  version <> "" /\ all_chars is_version_char version = true /\
  exists rest, dep_str = name ++ rest.
Proof.
  unfold parse_dep_string.
  destruct (Re.match_atoms dep_pattern (list_ascii_of_string dep_str))
    as [gs|] eqn:E; [|discriminate].
  apply dep_pattern_groups in E
    as (n & ws1 & op & ws2 & v & rest & -> & Hs & Hn & Hname & Hv & Hversion).
  intros [= <- <-]. unfold all_chars.
  rewrite !list_ascii_of_string_of_list_ascii.
  split; [destruct n; [congruence|discriminate]|]. split; [exact Hname|].
  split; [destruct v; [congruence|discriminate]|]. split; [exact Hversion|].
  eexists. rewrite <- (string_of_list_ascii_of_string dep_str), Hs.
  apply string_of_list_ascii_app.
Qed.

End DependencyStrings.

(* ===================================================================== *)
(** * The packages of [pyproject.toml] *)
(* ===================================================================== *)

Lemma dict_get_set_eq {V} key (value : V) d :
  dict_get key (dict_set key value d) = Some value.
Proof.
  induction d as [|[k v] d IH]; simpl.
  - now rewrite String.eqb_refl.
  - destruct (String.eqb k key) eqn:E; simpl; rewrite E; auto.
Qed.

Lemma dict_get_set_ne {V} key key' (value : V) d :
  key <> key' -> dict_get key' (dict_set key value d) = dict_get key' d.
Proof.
  intros Hne. induction d as [|[k v] d IH]; simpl.
  - destruct (String.eqb_spec key key'); [contradiction|reflexivity].
  - destruct (String.eqb_spec k key) as [->|]; simpl.
    + destruct (String.eqb_spec key key'); [contradiction|reflexivity].
    + destruct (String.eqb k key'); auto.
Qed.

Lemma dict_keys_set {V} key (value : V) d name :
  In name (List.map fst (dict_set key value d))
  <-> name = key \/ In name (List.map fst d).
Proof.
  induction d as [|[k v] d IH]; simpl.
  - intuition auto.
  - destruct (String.eqb_spec k key) as [->|]; simpl; [intuition auto|].
    rewrite IH. intuition auto.
Qed.

Lemma dict_keys_NoDup {V} key (value : V) d :
  List.NoDup (List.map fst d) -> List.NoDup (List.map fst (dict_set key value d)).
Proof.
  induction d as [|[k v] d IH]; simpl; intros Hnd.
  - constructor; [intros []|constructor].
  - inversion Hnd as [|? ? Hk Hd]; subst.
    destruct (String.eqb_spec k key) as [->|Hne]; simpl.
    + now constructor.
    + constructor; [|now apply IH].
      rewrite dict_keys_set. intros [->|Hin]; contradiction.
Qed.

Lemma parse_dependencies_app before after packages :
  parse_dependencies (before ++ after) packages
  = parse_dependencies after (parse_dependencies before packages).
Proof.
  revert packages. induction before as [|pkg before IH]; intros packages;
    [reflexivity|].
  simpl. destruct (String.eqb (lower pkg) "python"); [apply IH|].
  destruct (parse_dep_string pkg). apply IH.
Qed.

Lemma parse_dependencies_keys dependencies packages name :
  In name (List.map fst (parse_dependencies dependencies packages))
  <-> In name (List.map fst packages) \/
      exists pkg, In pkg dependencies /\ is_python pkg = false /\
                  fst (parse_dep_string pkg) = name.
Proof.
  revert packages. induction dependencies as [|pkg deps IH]; intros packages.
  - simpl. split; [auto|]. intros [H|(pkg & [] & _)]. exact H.
  - cbn [parse_dependencies]. fold (is_python pkg).
    destruct (is_python pkg) eqn:Hpy.
    + rewrite IH. split.
      * intros [H|(p & Hp & Hr)]; [now left|]. right. exists p. simpl. auto.
      * intros [H|(p & [<-|Hp] & Hn & Hr)]; [now left|congruence|].
        right. eauto.
    + destruct (parse_dep_string pkg) as [package version] eqn:E.
      rewrite IH, dict_keys_set. split.
      * intros [[->|H]|(p & Hp & Hr)].
        -- right. exists pkg. rewrite E. simpl. auto.
        -- now left.
        -- right. exists p. simpl. auto.
      * intros [H|(p & [<-|Hp] & Hn & Hr)].
        -- left. now right.
        -- rewrite E in Hr. simpl in Hr. left. now left.
        -- right. eauto.
Qed.

Lemma parse_dependencies_NoDup dependencies packages :
  List.NoDup (List.map fst packages) ->
  List.NoDup (List.map fst (parse_dependencies dependencies packages)).
Proof.
  revert packages. induction dependencies as [|pkg deps IH]; intros packages Hnd;
    [exact Hnd|].
  simpl. destruct (String.eqb (lower pkg) "python"); [now apply IH|].
  destruct (parse_dep_string pkg). apply IH. now apply dict_keys_NoDup.
Qed.

(** Entries of other names leave the version of [name] alone. *)
Lemma parse_dependencies_get_other dependencies packages name :
  (forall pkg, In pkg dependencies -> is_python pkg = false ->
               fst (parse_dep_string pkg) <> name) ->
  dict_get name (parse_dependencies dependencies packages) = dict_get name packages.
Proof.
  revert packages. induction dependencies as [|pkg deps IH]; intros packages H;
    [reflexivity|].
  cbn [parse_dependencies]. fold (is_python pkg).
  destruct (is_python pkg) eqn:Hpy.
  - apply IH. intros p Hp. apply H. now right.
  - pose proof (H pkg (or_introl eq_refl) Hpy) as Hne.
    destruct (parse_dep_string pkg) as [package version]. simpl in Hne.
    rewrite IH by (intros p Hp; apply H; now right).
    now apply dict_get_set_ne.
Qed.

Section PackageProperties.
Context `{P : PyPI}.

(** X17.  The packages of [parse_pyproject_toml] are the names parsed
    from the dependencies other than [python] (in any letter case), each
    of them once. *)
Theorem parse_pyproject_toml_packages (dependencies : list string) :
  List.NoDup (List.map fst (parse_pyproject_toml dependencies)) /\
  forall name,
    In name (List.map fst (parse_pyproject_toml dependencies))
    <-> exists pkg, In pkg dependencies /\ lower pkg <> "python" /\
                    fst (parse_dep_string pkg) = name.
Proof.
  unfold parse_pyproject_toml. split.
  - apply parse_dependencies_NoDup. constructor.
  - intros name. rewrite parse_dependencies_keys. simpl.
    split.
    + intros [[]|(pkg & Hin & Hpy & Hname)]. exists pkg.
      split; [exact Hin|]. split; [|exact Hname].
      unfold is_python in Hpy. now apply String.eqb_neq.
    + intros (pkg & Hin & Hpy & Hname). right. exists pkg.
      split; [exact Hin|]. split; [|exact Hname].
      unfold is_python. now apply String.eqb_neq.
Qed.

(** X18.  When a package is named by several dependencies, the version of
    the last one is the one kept. *)
Theorem parse_pyproject_toml_last_wins (before after : list string) pkg :
  lower pkg <> "python" ->
  (forall other, In other after -> lower other <> "python" ->
     fst (parse_dep_string other) <> fst (parse_dep_string pkg)) ->
  dict_get (fst (parse_dep_string pkg))
           (parse_pyproject_toml (before ++ pkg :: after))
  = Some (snd (parse_dep_string pkg)).
Proof.
  intros Hpy Hafter. unfold parse_pyproject_toml.
  rewrite parse_dependencies_app. cbn [parse_dependencies].
  apply String.eqb_neq in Hpy. rewrite Hpy.
  destruct (parse_dep_string pkg) as [package version] eqn:E. cbn [fst snd] in *.
  rewrite parse_dependencies_get_other; [apply dict_get_set_eq|].
  intros other Hin Hother. apply Hafter; [exact Hin|].
  unfold is_python in Hother. now apply String.eqb_neq.
Qed.

(** X19.  [outdated_packages_list] lists every package of the project,
    outdated or not: each dependency other than [python] has its entry,
    whose latest version is what PyPI answered, and ["N/A"] without an
    answer. *)
Theorem outdated_packages_list_all (dependencies : list string) :
  (forall pkg, In pkg dependencies -> lower pkg <> "python" ->
     exists info, In info (outdated_packages_list dependencies) /\
                  package info = fst (parse_dep_string pkg)) /\
  (forall info, In info (outdated_packages_list dependencies) ->
     latest_version info
     = match pypi_version (package info) with
       | Some version => version
       | None => "N/A"
       end) /\
  List.length (outdated_packages_list dependencies)
  = List.length (parse_pyproject_toml dependencies).
Proof.
  unfold outdated_packages_list. split; [|split].
  - intros pkg Hin Hpy.
    assert (Hkey : In (fst (parse_dep_string pkg))
                      (List.map fst (parse_pyproject_toml dependencies))).
    { unfold parse_pyproject_toml. apply parse_dependencies_keys. right.
      exists pkg. split; [exact Hin|]. split; [|reflexivity].
      unfold is_python. now apply String.eqb_neq. }
    apply List.in_map_iff in Hkey as (item & Hname & Hitem).
    eexists. split; [apply List.in_map; exact Hitem|]. exact Hname.
  - intros info Hin. apply List.in_map_iff in Hin as (item & <- & _). reflexivity.
  - apply List.length_map.
Qed.

End PackageProperties.

(* ===================================================================== *)
(** * Diagnostics on the deployed model *)
(* ===================================================================== *)

Section StageFrames.
Context `{L : Libs}.

Lemma merge_ok_frame (self : DataIngestion) (fs fs' : FS) :
  merge_multiple_dataframe self fs = Ok tt fs' ->
  forall dir name,
    dir <> di_output_folder_path self \/
    (name <> "ingestedfiles.txt" /\ name <> "finaldata.csv") ->
    Os.file_at dir name fs' = Os.file_at dir name fs.
Proof.
  intros Hrun dir name Hne.
  destruct (merge_inv self fs fs' Hrun) as (d & fs_a & dfs & Hd & Hw & Hdfs).
  rewrite (merge_steps self fs fs_a d dfs Hd Hw Hdfs) in Hrun.
  apply write_inv in Hw as (dout & Hout & ->).
  assert (H1 : Os.file_at dir name
                 (<[di_output_folder_path self
                    := Dir.write "ingestedfiles.txt" (manifest_text (Dir.names d)) dout]> fs)
               = Os.file_at dir name fs).
  { apply file_at_write_other; [exact Hout|].
    destruct Hne as [Hne|[Hn _]]; [left|right]; congruence. }
  destruct (Pd.concat dfs) as [m|].
  - apply write_inv in Hrun as (d1 & Hd1 & ->).
    rewrite file_at_write_other; [exact H1|exact Hd1|].
    destruct Hne as [Hne|[_ Hn]]; [left|right]; congruence.
  - injection Hrun as <-. exact H1.
Qed.

End StageFrames.

Section DiagnosticsProperties.
Context `{F : PyFloat} `{L : Libs} `{T : @Timer F}.

Lemma predict_row_state m row (fs : FS) :
  state_of (predict_row m row fs) = fs.
Proof.
  unfold predict_row. destruct (predict m _) as [[|p l]|]; reflexivity.
Qed.

Lemma predict_rows_state m cols rows (fs : FS) :
  state_of (predict_rows m cols rows fs) = fs.
Proof.
  induction rows as [|r rows IH]; [reflexivity|].
  cbn [predict_rows]. rewrite bind_run.
  match goal with |- context [predict_row m ?row fs] =>
    pose proof (predict_row_state m row fs) as H1;
    destruct (predict_row m row fs) as [p fs1|e fs1|fs1] end;
    simpl in H1; subst fs1; [|reflexivity..].
  rewrite bind_run.
  destruct (predict_rows m cols rows fs) as [ps fs2|e fs2|fs2];
    simpl in IH; subst fs2; reflexivity.
Qed.



(** X21.  [model_predictions] only reads: whether it returns or raises,
    the file system is the one it started in. *)
Theorem model_predictions_reads_only (self : Diagnostics)
        (test_data : option Pd.DataFrame) (fs : FS) :
  state_of (model_predictions self test_data fs) = fs.
Proof.
  unfold model_predictions. rewrite bind_run. unfold dir_exists at 1.
  destruct (fs !! dg_prod_deployment_path self); cbn [negb]; [|reflexivity].
  rewrite bind_run. unfold Os.read at 1.
  destruct (Os.file_at _ _ fs) as [bytes|]; [|reflexivity].
  rewrite bind_run.
  destruct (pickle_load bytes) as [m|]; [|reflexivity].
  change (or_raise (Some m) UnpicklingError "invalid load key" fs)
    with (Ok m fs : outcome model). cbv beta iota.
  destruct test_data as [td|]; [|reflexivity].
  apply predict_rows_state.
Qed.

(** X22.  The errors of [model_predictions], in the order the code meets
    them: no production folder, no model file in it, and only then test
    data that is [None]. *)
Theorem model_predictions_errors (self : Diagnostics)
        (test_data : option Pd.DataFrame) (fs : FS) :
  (fs !! dg_prod_deployment_path self = None ->
   model_predictions self test_data fs
   = Raise (Exn FileNotFoundError
              ("Model not found at " ++ dg_prod_deployment_path self)) fs) /\
  (forall d, fs !! dg_prod_deployment_path self = Some d ->
     Dir.lookup "trainedmodel.pkl" d = None ->
     model_predictions self test_data fs
     = Raise (Exn FileNotFoundError
                (Os.errno2 (Os.path_join (dg_prod_deployment_path self)
                                         "trainedmodel.pkl"))) fs) /\
  (forall bytes m,
     Os.file_at (dg_prod_deployment_path self) "trainedmodel.pkl" fs = Some bytes ->
     pickle_load bytes = Some m ->
     model_predictions self None fs
     = Raise (Exn ValueError "Test data not loaded.") fs).
Proof.
  split; [|split].
  - intros Hnone. unfold model_predictions. rewrite bind_run.
    unfold dir_exists at 1. now rewrite Hnone.
  - intros d Hd Hlook. unfold model_predictions. rewrite bind_run.
    unfold dir_exists at 1. rewrite Hd. cbn [negb].
    rewrite bind_run. unfold Os.read, Os.file_at. now rewrite Hd, Hlook.
  - intros bytes m Hfile Hload.
    destruct (file_at_dir _ _ _ _ Hfile) as [d Hd].
    unfold model_predictions. rewrite bind_run. unfold dir_exists at 1.
    rewrite Hd. cbn [negb].
    rewrite (bind_ok _ _ _ _ _ (read_ok _ _ _ _ Hfile)), Hload. reflexivity.
Qed.

(** X23.  [execution_time] times training before ingestion: without a
    merged table in the dataset folder it raises [FileNotFoundError] and
    ingests nothing, whatever the input folder holds. *)
Theorem execution_time_trains_first (self : Diagnostics) (fs : FS) :
  Os.file_at (dg_dataset_csv_path self) "finaldata.csv" fs = None ->
  execution_time self fs
  = Raise (Exn FileNotFoundError
             (Os.errno2 (Os.path_join (dg_dataset_csv_path self) "finaldata.csv")))
          fs.
Proof.
  intros Hnone. unfold execution_time. apply bind_raise.
  now apply train_missing_table.
Qed.

(** X24.  [execution_time] is no measurement without effect: when it
    returns its two timings, the dataset folder holds a newly trained
    model and the manifest of the input folder; folders other than the
    dataset folder are as before. *)
Theorem execution_time_retrains_and_ingests (self : Diagnostics) (fs fs' : FS)
        timings d :
  fs !! dg_input_folder_path self = Some d ->
  dg_input_folder_path self <> dg_dataset_csv_path self ->
  execution_time self fs = Ok timings fs' ->
  List.length timings = 2%nat /\
  (exists m, Os.file_at (dg_dataset_csv_path self) "trainedmodel.pkl" fs'
             = Some (pickle_dump m)) /\
  Os.file_at (dg_dataset_csv_path self) "ingestedfiles.txt" fs'
    = Some (manifest_of (csv_files (Dir.names d))) /\
  (forall dir, dir <> dg_dataset_csv_path self -> fs' !! dir = fs !! dir).
Proof.
  intros Hd Hne Hrun. unfold execution_time in Hrun.
  apply bind_inv in Hrun as ([] & fs1 & Htrain & Hrun).
  apply bind_inv in Hrun as ([] & fs2 & Hmerge & Hrun).
  injection Hrun as <- <-.
  apply train_inv in Htrain as (dt & m & Hdt & ->).
  cbn [mt_output_model_path] in *.
  pose proof (merge_ok_frame _ _ _ Hmerge) as Hfiles.
  apply merge_ok_inv in Hmerge as (d' & Hd' & Hman & Hdirs).
  cbn [di_input_folder_path di_output_folder_path] in *.
  rewrite lookup_insert_ne in Hd' by congruence.
  assert (d' = d) as -> by congruence.
  split; [reflexivity|]. split; [|split].
  - exists m. rewrite Hfiles by (right; split; discriminate).
    apply file_at_write_eq.
  - now rewrite <- manifest_text_csv.
  - intros dir Hdir. rewrite Hdirs by exact Hdir.
    apply lookup_insert_ne. congruence.
Qed.

End DiagnosticsProperties.

(* ===================================================================== *)
(** * The statements at work on the sample installation *)
(* ===================================================================== *)

Module Witness.
Import ListNotations.

Local Existing Instance ExactFloat.
Local Existing Instance Sample.libs.

Lemma frames_of_source :
  Forall2 (holds_frame "sourcedata" Run.fresh)
          (csv_files (Dir.names Run.source_folder)) [Run.frame1; Run.frame2].
Proof.
  repeat constructor; (eexists; split; [reflexivity|vm_compute; reflexivity]).
Defined.

(** Two files of three rows each, one row twice in the first and one row
    in both: two duplicate rows, four rows are left. *)
Lemma merge_row_count_witness :
  exists concatenated merged_df fs',
    merge_multiple_dataframe Run.ingestion Run.fresh = Ok tt fs' /\
    Os.file_at "ingesteddata" "finaldata.csv" fs' = Some (to_csv merged_df) /\
    Pd.concat [Run.frame1; Run.frame2] = Some concatenated /\
    duplicate_rows (Pd.rows concatenated) = 2%nat /\
    List.length (Pd.rows merged_df) = 4%nat /\
    List.NoDup (Pd.rows merged_df).
Proof.
  destruct (merge_row_count Run.ingestion Run.fresh Run.source_folder []
                            [Run.frame1; Run.frame2])
    as (concatenated & merged_df & fs' & Hrun & Hfile & Hcat & Hlen & _ & Hcount
        & Hnodup & _).
  - reflexivity.
  - reflexivity.
  - exact frames_of_source.
  - discriminate.
  - reflexivity.
  - exists concatenated, merged_df, fs'.
    split; [exact Hrun|]. split; [exact Hfile|]. split; [exact Hcat|].
    vm_compute in Hcat. injection Hcat as <-.
    match type of Hcount with
    | (_ + duplicate_rows ?l = _)%nat =>
        assert (Hdup : duplicate_rows l = 2%nat) by (vm_compute; reflexivity)
    end.
    split; [exact Hdup|]. split; [|exact Hnodup].
    rewrite Hdup in Hcount.
    change (total_rows [Run.frame1; Run.frame2]) with 6%nat in Hcount. lia.
Defined.

Lemma merge_idempotent_witness :
  let fs1 := state_of (merge_multiple_dataframe Run.ingestion Run.fresh) in
  merge_multiple_dataframe Run.ingestion Run.fresh = Ok tt fs1 /\
  merge_multiple_dataframe Run.ingestion fs1 = Ok tt fs1.
Proof.
  intros fs1.
  assert (H : merge_multiple_dataframe Run.ingestion Run.fresh = Ok tt fs1)
    by (vm_compute; reflexivity).
  split; [exact H|].
  apply (merge_idempotent Run.ingestion Run.fresh fs1); [discriminate|exact H].
Defined.

Lemma merge_reads_only_csv_witness :
  exists fs' fs2',
    merge_multiple_dataframe Run.ingestion Run.fresh = Ok tt fs' /\
    merge_multiple_dataframe Run.ingestion Run.other_notes = Ok tt fs2' /\
    Os.file_at "ingesteddata" "ingestedfiles.txt" fs'
      = Some ("dataset1.csv" ++ LF ++ "dataset2.csv" ++ LF) /\
    Os.file_at "ingesteddata" "ingestedfiles.txt" fs2'
      = Some ("dataset1.csv" ++ LF ++ "dataset2.csv" ++ LF) /\
    Os.file_at "ingesteddata" "finaldata.csv" fs'
      = Os.file_at "ingesteddata" "finaldata.csv" fs2'.
Proof.
  destruct (merge_reads_only_csv Run.ingestion Run.fresh Run.other_notes
              Run.source_folder []
              [("README", "read me"); ("dataset1.csv", Run.dataset1);
               ("dataset2.csv", Run.dataset2); ("data.CSV", "x,y")]
              [("apireturns.txt", "")] [Run.frame1; Run.frame2]
              eq_refl eq_refl frames_of_source eq_refl eq_refl eq_refl)
    as (fs' & fs2' & H1 & H2 & M1 & M2 & Hfinal).
  destruct Hfinal as (merged_df & _ & F1 & F2); [discriminate|].
  exists fs', fs2'. repeat (split; [assumption|]).
  exact (eq_trans F1 (eq_sym F2)).
Defined.

Lemma merge_without_csv_witness :
  exists fs',
    merge_multiple_dataframe Run.ingestion Run.no_csv = Ok tt fs' /\
    Os.file_at "ingesteddata" "ingestedfiles.txt" fs' = Some "" /\
    Os.file_at "ingesteddata" "finaldata.csv" fs' = Some Run.dataset1.
Proof.
  destruct (merge_without_csv Run.ingestion Run.no_csv
              [("notes.txt", "hello")]
              [("finaldata.csv", Run.dataset1);
               ("ingestedfiles.txt", "dataset1.csv" ++ LF)]
              eq_refl eq_refl)
    as (fs' & Hrun & Hmanifest & Hfinal & _).
  - intros name [<-|[]]. reflexivity.
  - exists fs'. split; [exact Hrun|]. split; [exact Hmanifest|].
    exact (eq_trans Hfinal eq_refl).
Defined.

(** Three samples, all predicted right: the score in binary64 is 1.0,
    2^52 with the exponent -52. *)
Lemma score_model_range_witness :
  exists (f1 : spec_float) (fs' : FS),
    Sk.f1_score (F := Binary64) [Num 1; Num 1; Num 0] [1; 1; 0] = Some f1 /\
    score_model (F := Binary64) Run.loaded_scorer Run.fresh = Ok f1 fs' /\
    SFleb (S754_zero false) f1 = true /\
    SFleb f1 (S754_finite false 4503599627370496 (-52)) = true /\
    Os.file_at "ingesteddata" "latestscore.txt" fs'
    = Some (str (PyFloat := Binary64) f1).
Proof.
  destruct (score_model_range (F := Binary64) (Laws := Binary64_laws)
              Run.loaded_scorer Run.fresh 50 Run.frame2
              (Pd.mkDF ["lastmonth_activity"] [[Num 70]; [Num 50]; [Num 5]])
              [Num 1; Num 1; Num 0] [1; 1; 0] [])
    as (f1 & fs' & Hf & Hrun & H0 & H1 & Hfile & _);
    try reflexivity.
  - discriminate.
  - repeat (apply List.Forall_cons; [auto|]). apply List.Forall_nil.
  - simpl. lia.
  - exists f1, fs'. split; [exact Hf|]. split; [exact Hrun|].
    split; [exact H0|]. split; [exact H1|exact Hfile].
Defined.


Lemma no_new_files_exit_witness :
  fullprocess Run.config Run.up_to_date = Exit Run.up_to_date.
Proof.
  apply (no_new_files_exit Run.config Run.up_to_date
           [("dataset1.csv", Run.dataset1); ("dataset2.csv", Run.dataset2)]).
  - reflexivity.
  - intros name [<-|[<-|[]]]; vm_compute; auto.
Defined.


(** A first run on a fresh installation deploys; a run that retrains to
    the score already deployed exits and leaves the production path. *)
Lemma drift_check_redeploys_witness :
  (exists fs_d,
     fullprocess Run.config Run.fresh = Ok tt fs_d /\
     Os.file_at "production" "trainedmodel.pkl" fs_d = Some "50" /\
     Os.file_at "production" "latestscore.txt" fs_d = Some "1/1" /\
     Os.file_at "production" "ingestedfiles.txt" fs_d
       = Some ("dataset1.csv" ++ LF ++ "dataset2.csv" ++ LF)) /\
  (exists fs_s,
     fullprocess Run.config Run.same_score = Exit fs_s /\
     fs_s !! "production" = Run.same_score !! "production").
Proof.
  split.
  - set (fs_r := state_of (proceed_with_new_data Run.config Run.fresh)).
    set (fs_s := state_of (score_new_model Run.config fs_r)).
    destruct (drift_check_redeploys (F := ExactFloat) (L := Sample.libs)
                Run.config Run.fresh fs_r fs_s 0%Q (24 # 24)%Q)
      as [Hdeploy _]; try (vm_compute; reflexivity).
    destruct Hdeploy as (fs_d & model_file & m & manifest & _ & Hfull
                         & Hmf & Hload & Hman & Hpm & Hps & Hpi);
      [reflexivity|].
    exists fs_d. split; [exact Hfull|].
    vm_compute in Hmf. injection Hmf as <-.
    vm_compute in Hload. injection Hload as <-.
    vm_compute in Hman. injection Hman as <-.
    repeat split; assumption.
  - set (fs_r := state_of (proceed_with_new_data Run.config Run.same_score)).
    set (fs_s := state_of (score_new_model Run.config fs_r)).
    destruct (drift_check_redeploys (F := ExactFloat) (L := Sample.libs)
                Run.config Run.same_score fs_r fs_s 1%Q (24 # 24)%Q)
      as [_ Hexit]; try (vm_compute; reflexivity).
    destruct Hexit as [Hfull Hprod]; [reflexivity|].
    exists fs_s. split; [exact Hfull|].
    apply Hprod; discriminate.
Defined.

(** No score deployed yet: the score 1 is deployed, the score 0 is not. *)
Lemma missing_base_score_is_zero_witness :
  (exists fs_d,
     fullprocess Run.config Run.fresh = Ok tt fs_d /\
     Os.file_at "production" "latestscore.txt" fs_d = Some "1/1") /\
  (exists fs_s,
     fullprocess Run.config Run.adverse_test = Exit fs_s /\
     Os.file_at "production" "latestscore.txt" fs_s = None).
Proof.
  split.
  - set (fs_r := state_of (proceed_with_new_data Run.config Run.fresh)).
    set (fs_s := state_of (score_new_model Run.config fs_r)).
    destruct (missing_base_score_is_zero (F := ExactFloat) (L := Sample.libs)
                Run.config Run.fresh fs_r fs_s (24 # 24)%Q)
      as (_ & Hdeploy & _); try (vm_compute; reflexivity).
    destruct Hdeploy as (fs_d & _ & Hfull & Hscore); [reflexivity|].
    exists fs_d. auto.
  - set (fs_r := state_of (proceed_with_new_data Run.config Run.adverse_test)).
    set (fs_s := state_of (score_new_model Run.config fs_r)).
    destruct (missing_base_score_is_zero (F := ExactFloat) (L := Sample.libs)
                Run.config Run.adverse_test fs_r fs_s (0 # 8)%Q)
      as (_ & _ & Hexit); try (vm_compute; reflexivity).
    destruct Hexit as [Hfull Habsent]; [reflexivity|].
    exists fs_s. split; [exact Hfull|]. apply Habsent. discriminate.
Defined.

Local Existing Instance Cases.pypi.
Local Existing Instance Cases.clock.

(** The manifest of the sample source folder, read back. *)
Lemma manifest_round_trip_witness :
  PyStr.splitlines (manifest_text ["dataset1.csv"; "notes.txt"; "dataset2.csv"])
  = ["dataset1.csv"; "dataset2.csv"].
Proof.
  apply (manifest_round_trip ["dataset1.csv"; "notes.txt"; "dataset2.csv"]).
  repeat (apply List.Forall_cons; [reflexivity|]). apply List.Forall_nil.
Defined.

(** After the first run on two CSV files the driver finds nothing new. *)
Lemma driver_exits_after_first_run_witness :
  let fs' := state_of (first_run Run.config Cases.first_time) in
  fullprocess Run.config fs' = Exit fs'.
Proof.
  intros fs'.
  apply (driver_exits_after_first_run Run.config Cases.first_time fs'
           [("message", JStr "First run completed successfully")]
           [("dataset1.csv", Run.dataset1); ("dataset2.csv", Run.dataset2)]).
  - vm_compute. reflexivity.
  - reflexivity.
  - discriminate.
  - discriminate.
  - intros name [<-|[<-|[]]]; split; reflexivity.
Defined.

(** [notes.txt] keeps the driver going although [dataset1.csv] is listed. *)
Lemma stray_file_always_new_witness :
  proceed_with_new_data Run.config Run.same_score
  = (copy_forward Run.config ["dataset1.csv"];;
     merge_multiple_dataframe Run.ingestion;;
     train {| mt_output_model_path := "ingesteddata";
              mt_output_folder_path := "ingesteddata" |}) Run.same_score.
Proof.
  destruct (stray_file_always_new (L := Sample.libs)
              Run.config Run.same_score Run.source_folder
              ["dataset1.csv"] "notes.txt")
    as [Hsteps _].
  - reflexivity.
  - right. left. reflexivity.
  - reflexivity.
  - reflexivity.
  - repeat (apply List.Forall_cons; [reflexivity|]). apply List.Forall_nil.
  - exact Hsteps.
Defined.

(** The first run on the fresh installation deploys the model it has
    trained, the threshold 50, and its score, 1. *)
Lemma first_run_200_deployed_witness :
  let fs' := state_of (first_run Run.config Run.fresh) in
  first_run Run.config Run.fresh
  = Ok ([("message", JStr "First run completed successfully")], 200) fs' /\
  exists d fs1 fs2 fs3 new_score model_file m,
    Run.fresh !! "sourcedata" = Some d /\
    merge_multiple_dataframe Run.ingestion Run.fresh = Ok tt fs1 /\
    train {| mt_output_model_path := "ingesteddata";
             mt_output_folder_path := "ingesteddata" |} fs1 = Ok tt fs2 /\
    Os.file_at "ingesteddata" "trainedmodel.pkl" fs2 = Some model_file /\
    pickle_load model_file = Some m /\
    score_new_model Run.config fs2 = Ok new_score fs3 /\
    Os.file_at "production" "trainedmodel.pkl" fs' = Some (pickle_dump m) /\
    Os.file_at "production" "latestscore.txt" fs' = Some (str new_score) /\
    Os.file_at "production" "ingestedfiles.txt" fs'
      = Some (manifest_of (csv_files (Dir.names d))).
Proof.
  intros fs'.
  assert (Hrun : first_run Run.config Run.fresh
            = Ok ([("message", JStr "First run completed successfully")], 200) fs')
    by (vm_compute; reflexivity).
  split; [exact Hrun|].
  exact (first_run_200_deployed (F := ExactFloat) (L := Sample.libs)
           Run.config Run.fresh fs' _ Hrun).
Defined.

(** The deployed model scores 1 on the test data, and [/scoring] writes
    that into the production folder. *)
Lemma scoring_stats_writes_production_score_witness :
  exists fs',
    scoring_stats Run.config Run.up_to_date
    = Ok ([("f1_score", JFloat (24 # 24)%Q)], 200) fs' /\
    Os.file_at "production" "latestscore.txt" fs' = Some "1/1".
Proof.
  destruct (scoring_stats_writes_production_score (F := ExactFloat)
              (L := Sample.libs) Run.config Run.up_to_date "50" 50 Run.frame2
              (Pd.mkDF ["lastmonth_activity"] [[Num 70]; [Num 50]; [Num 5]])
              [Num 1; Num 1; Num 0] [1; 1; 0] (24 # 24)%Q)
    as (fs' & Hrun & Hfile & _); try reflexivity.
  - eexists. split; [reflexivity|vm_compute; reflexivity].
  - exists fs'. split; [exact Hrun|exact Hfile].
Defined.

Lemma deploy_model_twice_witness :
  let fs1 := state_of (deploy_model Run.deployment Run.staged) in
  deploy_model Run.deployment fs1 = Ok tt fs1.
Proof.
  intros fs1.
  apply (deploy_model_twice (L := Sample.libs) Run.deployment Run.staged fs1).
  - discriminate.
  - vm_compute. reflexivity.
Defined.

Lemma deployed_model_loads_witness :
  let fs' := state_of (deploy_model Run.deployment Run.staged) in
  exists scorer,
    load_model (new_ModelScorer "production" "testdata") fs' = Ok scorer fs' /\
    ms_model scorer = Some (50%Z : model (Libs := Sample.libs)).
Proof.
  intros fs'.
  destruct (deployed_model_loads (L := Sample.libs) Run.deployment Run.staged fs'
              "testdata")
    as (model_file & m & Hfile & Hload & Hscorer).
  - vm_compute. reflexivity.
  - vm_compute in Hfile. injection Hfile as <-.
    vm_compute in Hload. injection Hload as <-.
    apply Hscorer. reflexivity.
Defined.

(** Training on the merged table of [no_csv] writes the model; on the
    fresh installation there is no table to train on. *)
Lemma train_writes_only_the_model_witness :
  (exists fs' m,
     train {| mt_output_model_path := "ingesteddata";
              mt_output_folder_path := "ingesteddata" |} Run.no_csv = Ok tt fs' /\
     Os.file_at "ingesteddata" "trainedmodel.pkl" fs' = Some (pickle_dump m) /\
     Os.file_at "ingesteddata" "finaldata.csv" fs' = Some Run.dataset1) /\
  train {| mt_output_model_path := "ingesteddata";
           mt_output_folder_path := "ingesteddata" |} Run.fresh
  = Raise (Exn FileNotFoundError
             "[Errno 2] No such file or directory: 'ingesteddata/finaldata.csv'")
          Run.fresh.
Proof.
  split.
  - set (trainer := {| mt_output_model_path := "ingesteddata";
                       mt_output_folder_path := "ingesteddata" |}).
    set (fs' := state_of (train trainer Run.no_csv)).
    assert (Hrun : train trainer Run.no_csv = Ok tt fs') by (vm_compute; reflexivity).
    destruct (proj1 (train_writes_only_the_model (L := Sample.libs) trainer Run.no_csv)
                fs' Hrun) as (m & Hm & Hframe).
    exists fs', m. split; [exact Hrun|]. split; [exact Hm|].
    rewrite Hframe by (right; discriminate). reflexivity.
  - apply (proj2 (proj2 (train_writes_only_the_model (L := Sample.libs)
                           {| mt_output_model_path := "ingesteddata";
                              mt_output_folder_path := "ingesteddata" |} Run.fresh))).
    reflexivity.
Defined.

(** The edited [dataset1.csv] of the source folder is put back. *)
Lemma copy_forward_restores_base_files_witness :
  exists fs',
    copy_forward Run.config ["dataset1.csv"; "gone.csv"] Cases.edited_source
    = Ok tt fs' /\
    Os.file_at "sourcedata" "dataset1.csv" fs' = Some Run.dataset1 /\
    Os.file_at "sourcedata" "dataset2.csv" fs' = Some Run.dataset2.
Proof.
  destruct (copy_forward_restores_base_files Run.config
              ["dataset1.csv"; "gone.csv"] Cases.edited_source
              [("dataset1.csv", "edited"); ("dataset2.csv", Run.dataset2)])
    as (fs' & Hrun & Hbase & Hother & _).
  - reflexivity.
  - discriminate.
  - reflexivity.
  - reflexivity.
  - reflexivity.
  - exists fs'. split; [exact Hrun|]. split.
    + apply Hbase; [left; reflexivity|reflexivity].
    + rewrite Hother by (right; reflexivity). reflexivity.
Defined.

Lemma unparsable_base_score_stops_driver_witness :
  exists fs_r,
    fullprocess Run.config Cases.bad_score
    = Raise (Exn ValueError "could not convert string to float") fs_r /\
    Os.file_at "production" "trainedmodel.pkl" fs_r = Some "50".
Proof.
  set (fs_r := state_of (proceed_with_new_data Run.config Cases.bad_score)).
  exists fs_r. split; [|vm_compute; reflexivity].
  apply (unparsable_base_score_stops_driver (F := ExactFloat) (L := Sample.libs)
           Run.config Cases.bad_score fs_r "n/a").
  - vm_compute. reflexivity.
  - vm_compute. reflexivity.
  - vm_compute. reflexivity.
Defined.

(** The empty file stops ingestion; the manifest already lists it, the
    merged table is the old one. *)
Lemma merge_unreadable_csv_witness :
  exists msg fs',
    merge_multiple_dataframe Run.ingestion Cases.broken_source
    = Raise (Exn ParserError msg) fs' /\
    Os.file_at "ingesteddata" "ingestedfiles.txt" fs'
      = Some ("dataset1.csv" ++ LF ++ "empty.csv" ++ LF) /\
    Os.file_at "ingesteddata" "finaldata.csv" fs' = Some Run.dataset2.
Proof.
  destruct (merge_unreadable_csv (L := Sample.libs) Run.ingestion Cases.broken_source
              [("dataset1.csv", Run.dataset1); ("empty.csv", "")]
              [("finaldata.csv", Run.dataset2)] "empty.csv" "")
    as (msg & fs' & Hrun & Hman & Hframe); try reflexivity.
  - right. left. reflexivity.
  - exists msg, fs'. split; [exact Hrun|]. split; [exact Hman|].
    rewrite Hframe by (right; discriminate). reflexivity.
Defined.

Lemma same_schema_frames :
  List.Forall (same_schema Run.columns3) [Run.frame1; Run.frame2].
Proof.
  repeat (apply List.Forall_cons;
          [split; [reflexivity|
                   repeat (apply List.Forall_cons; [reflexivity|]);
                   apply List.Forall_nil]|]).
  apply List.Forall_nil.
Defined.

(** The row of [efgh], in both files, is in the merged table. *)
Lemma merge_keeps_every_row_witness :
  exists merged fs',
    merge_multiple_dataframe Run.ingestion Run.fresh = Ok tt fs' /\
    Os.file_at "ingesteddata" "finaldata.csv" fs' = Some (to_csv merged) /\
    In [Str "efgh"; Num 50; Num 1] (Pd.rows merged).
Proof.
  destruct (merge_keeps_every_row (L := Sample.libs) Run.ingestion Run.fresh
              Run.source_folder [] [Run.frame1; Run.frame2] Run.columns3)
    as (merged & fs' & Hrun & Hfile & _ & _ & Hrows).
  - reflexivity.
  - reflexivity.
  - exact frames_of_source.
  - discriminate.
  - repeat (apply List.NoDup_cons; [vm_compute; intuition discriminate|]).
    apply List.NoDup_nil.
  - exact same_schema_frames.
  - reflexivity.
  - exists merged, fs'. split; [exact Hrun|]. split; [exact Hfile|].
    apply Hrows. exists Run.frame2. split; [right; left; reflexivity|].
    right. left. reflexivity.
Defined.

Lemma first_run_without_csv_witness :
  exists fs',
    first_run Run.config Cases.nothing_yet
    = Ok ([("error",
            JStr "[Errno 2] No such file or directory: 'ingesteddata/finaldata.csv'")],
          500) fs' /\
    Os.file_at "ingesteddata" "ingestedfiles.txt" fs' = Some "".
Proof.
  destruct (first_run_without_csv (F := ExactFloat) (L := Sample.libs)
              Run.config Cases.nothing_yet [("notes.txt", "hello")] [])
    as (fs' & Hrun & Hman & _); try reflexivity.
  exists fs'. split; [exact Hrun|exact Hman].
Defined.

Lemma parse_dep_string_name_version_witness :
  parse_dep_string "flask (>=3.1.1)" = ("flask", Some "3.1.1").
Proof.
  apply (parse_dep_string_name_version "flask" " " ">=" "" "3.1.1" "");
    first [discriminate|reflexivity].
Defined.

Lemma parse_dep_string_bare_name_witness :
  parse_dep_string "  requests " = ("requests", None).
Proof.
  apply (parse_dep_string_bare_name "  requests "). reflexivity.
Defined.

Lemma parse_dep_string_version_shape_witness :
  all_chars is_version_char "3.1.1" = true /\
  exists rest, "flask(>=3.1.1)" = "flask" ++ rest.
Proof.
  destruct (parse_dep_string_version_shape "flask(>=3.1.1)" "flask" "3.1.1")
    as (_ & _ & _ & Hversion & Hrest).
  - vm_compute. reflexivity.
  - split; [exact Hversion|exact Hrest].
Defined.

Lemma parse_pyproject_toml_packages_witness :
  In "requests" (List.map fst (parse_pyproject_toml Cases.dependencies)).
Proof.
  apply (proj2 (parse_pyproject_toml_packages Cases.dependencies)).
  exists "requests". split; [vm_compute; auto|].
  split; [discriminate|reflexivity].
Defined.

(** [flask] is named twice: the second version is the one kept. *)
Lemma parse_pyproject_toml_last_wins_witness :
  dict_get "flask" (parse_pyproject_toml Cases.dependencies) = Some (Some "2.0").
Proof.
  apply (parse_pyproject_toml_last_wins
           ["flask (>=3.1.1)"; "Python"; "pandas (>=2.2.0,<3.0.0)"; "requests"]
           [] "flask (==2.0)").
  - discriminate.
  - intros other [].
Defined.

Lemma outdated_packages_list_all_witness :
  exists info,
    In info (outdated_packages_list Cases.dependencies) /\
    package info = "requests" /\ latest_version info = "N/A".
Proof.
  destruct (outdated_packages_list_all (P := Cases.pypi) Cases.dependencies)
    as (Hall & Hlatest & _).
  destruct (Hall "requests") as (info & Hin & Hname).
  - vm_compute. auto.
  - discriminate.
  - exists info. split; [exact Hin|]. split; [exact Hname|].
    rewrite (Hlatest info Hin).
    change (package info = "requests") in Hname. rewrite Hname. reflexivity.
Defined.


Lemma model_predictions_reads_only_witness :
  state_of (model_predictions Cases.diagnostics None Run.fresh) = Run.fresh.
Proof.
  apply (model_predictions_reads_only (L := Sample.libs)).
Defined.

Lemma model_predictions_errors_witness :
  model_predictions Cases.diagnostics (Some Run.frame2) Run.no_csv
  = Raise (Exn FileNotFoundError "Model not found at production") Run.no_csv /\
  model_predictions Cases.diagnostics None Run.up_to_date
  = Raise (Exn ValueError "Test data not loaded.") Run.up_to_date.
Proof.
  split.
  - apply (proj1 (model_predictions_errors (L := Sample.libs) Cases.diagnostics
                    (Some Run.frame2) Run.no_csv)).
    reflexivity.
  - apply (proj2 (proj2 (model_predictions_errors (L := Sample.libs)
                           Cases.diagnostics None Run.up_to_date)) "50" 50);
      reflexivity.
Defined.

(** The fresh installation has CSV files to ingest, and still the
    timing fails on the table that is not there yet. *)
Lemma execution_time_trains_first_witness :
  execution_time Cases.diagnostics Run.fresh
  = Raise (Exn FileNotFoundError
             "[Errno 2] No such file or directory: 'ingesteddata/finaldata.csv'")
          Run.fresh.
Proof.
  apply (execution_time_trains_first (L := Sample.libs) (T := Cases.clock)
           Cases.diagnostics Run.fresh).
  reflexivity.
Defined.

Lemma execution_time_retrains_and_ingests_witness :
  let r := execution_time Cases.diagnostics Run.no_csv in
  (exists m, Os.file_at "ingesteddata" "trainedmodel.pkl" (state_of r)
             = Some (pickle_dump m)) /\
  Os.file_at "ingesteddata" "ingestedfiles.txt" (state_of r) = Some "".
Proof.
  intros r.
  destruct (execution_time_retrains_and_ingests (L := Sample.libs)
              (T := Cases.clock) Cases.diagnostics Run.no_csv (state_of r)
              [1%Q; 1%Q] [("notes.txt", "hello")])
    as (_ & Hmodel & Hman & _).
  - reflexivity.
  - discriminate.
  - vm_compute. reflexivity.
  - split; [exact Hmodel|exact Hman].
Defined.


End Witness.
